(** * ECC508 driver: a shallow embedding of [src/utility/ECC508.cpp]

    The driver talks to an ATECC508 crypto coprocessor over a two-wire bus.
    Bytes and machine integers are [Z] with the wrap-around of their C type
    written out; byte buffers are [list Z]; the bus ([TwoWire]) is an
    interface the development is parametric in, and every call the driver
    makes on it is recorded in a trace carried by the driver object. *)

From Stdlib Require Import ZArith List Bool Lia.
From Stdlib Require Ascii String.
Import ListNotations.
Open Scope Z_scope.

(** ** Machine integers *)

Definition uint8 (z : Z) : Z := z mod 256.
Definition uint16 (z : Z) : Z := z mod 65536.
(** [uint32_t] converted to [int] (two's complement, 32 bits). *)
Definition int32 (z : Z) : Z := (z + 2147483648) mod 4294967296 - 2147483648.

(** The two bytes of a [uint16_t] in memory, and the value of the
    [uint32_t] that four bytes in memory make (little-endian targets). *)
Definition le16 (z : Z) : list Z := [uint8 z; uint8 (Z.shiftr z 8)].
Definition le32_decode (bytes : list Z) : Z :=
  nth 0 bytes 0 + 256 * nth 1 bytes 0 + 65536 * nth 2 bytes 0
  + 16777216 * nth 3 bytes 0.

(** ** Buffers *)

(** [memcpy(&dst[off], src, length src)]. *)
Definition store (dst : list Z) (off : nat) (src : list Z) : list Z :=
  firstn off dst ++ src ++ skipn (off + length src) dst.

(** [memcpy(dst, src, n)]. *)
Definition memcpy (dst src : list Z) (n : nat) : list Z :=
  store dst 0 (firstn n src).

(** ** Checksum unit: [ECC508Class::crc16] *)

(** One pass of the body of the inner loop, for the mask [shift]:
    [dataBit = (b & shift) ? 1 : 0; crcBit = crc >> 15; crc <<= 1;
     if (dataBit != crcBit) crc ^= 0x8005;] with [crc] a [uint16_t]. *)
Definition crc16_step (b shift crc : Z) : Z :=
  let dataBit := if Z.land b shift =? 0 then 0 else 1 in
  let crcBit := uint8 (Z.shiftr crc 15) in
  let crc := uint16 (Z.shiftl crc 1) in
  if negb (dataBit =? crcBit) then uint16 (Z.lxor crc 0x8005) else crc.

(** The inner [for (uint8_t shift = 0x01; shift > 0x00; shift <<= 1)] loop.
    [shift] is a [uint8_t], so the eighth [shift <<= 1] wraps to 0 and ends
    the loop; [fuel] bounds the number of passes. *)
Fixpoint crc16_bits (fuel : nat) (b shift crc : Z) : Z :=
  match fuel with
  | O => crc
  | S fuel' =>
      if 0 <? shift
      then crc16_bits fuel' b (uint8 (Z.shiftl shift 1)) (crc16_step b shift crc)
      else crc
  end.

(** The outer [while (length)] loop: [*data], [length--], [data++]. *)
Fixpoint crc16_loop (data : list Z) (length : nat) (crc : Z) : Z :=
  match length with
  | O => crc
  | S length' =>
      let b := hd 0 data in
      crc16_loop (tl data) length' (crc16_bits 9 b 0x01 crc)
  end.

(** [data] is [None] for the null pointer. *)
Definition crc16 (data : option (list Z)) (length : nat) : Z :=
  match data with
  | None => 0
  | Some bytes =>
      if (length =? 0)%nat then 0 else crc16_loop bytes length 0
  end.

(** The checksum as the specification words it: start from 0; for each
    byte, for each bit from least to most significant, compare the data bit
    with the accumulator's top bit, shift the accumulator left by one, and
    exclusive-or 0x8005 into it when the two bits differ. *)
Definition crc_spec_step (acc : Z) (dataBit : bool) : Z :=
  let top := Z.testbit acc 15 in
  let shifted := (2 * acc) mod 2 ^ 16 in
  if xorb dataBit top then Z.lxor shifted 0x8005 else shifted.

Definition crc_spec_byte (acc b : Z) : Z :=
  fold_left (fun a i => crc_spec_step a (Z.testbit b i)) [0; 1; 2; 3; 4; 5; 6; 7] acc.

Definition crc_spec (bytes : list Z) : Z := fold_left crc_spec_byte bytes 0.

(** ** Command frames: the buffer [ECC508Class::sendCommand] assembles *)

Definition command_frame (opcode param1 param2 : Z) (data : list Z) : list Z :=
  let dataLength := length data in
  let command := repeat 0 (8 + dataLength) in
  let command := store command 0 [0x03] in
  let command := store command 1 [uint8 (Z.of_nat (8 + dataLength) - 1)] in
  let command := store command 2 [uint8 opcode] in
  let command := store command 3 [uint8 param1] in
  let command := store command 4 (le16 (uint16 param2)) in
  let command := store command 6 data in
  let crc := crc16 (Some (skipn 1 command)) (8 - 3 + dataLength) in
  store command (6 + dataLength) (le16 crc).

(** The bytes of a command frame that its checksum covers: the length byte,
    the opcode, the two parameters and the payload. *)
Definition command_body (opcode param1 param2 : Z) (data : list Z) : list Z :=
  uint8 (Z.of_nat (8 + length data) - 1) :: uint8 opcode :: uint8 param1
    :: le16 (uint16 param2) ++ data.

(** ** The bus and the driver object *)

(** What the driver asks of its collaborators, in call order. *)
Inductive BusEvent : Type :=
| WireBegin
| WireSetClock (hz : Z)
| Transmission (address : Z) (bytes : list Z)
| SendTo (address : Z) (bytes : list Z)
| RequestFrom (address : Z) (quantity : nat)
| Delay (ms : Z)
| DelayMicroseconds (us : Z).

(** The [TwoWire] interface the driver is built on, over a transport state
    [D]; the bus library that declares it is not part of the driver, so the
    development takes it as a parameter.
    - [endTransmission address bytes]: [beginTransmission(address)], one
      [write] per byte, then [endTransmission()], whose status it returns;
    - [sendTo address bytes]: returns 0 when the write was acknowledged;
    - [requestFrom address quantity]: returns the number of bytes read and
      the content of the caller's [quantity]-byte buffer after the call
      (whatever a short read left in it is the transport's to say). *)
Class TwoWire (D : Type) : Type := {
  wireBegin : D -> D;
  setClock : Z -> D -> D;
  endTransmission : Z -> list Z -> D -> Z * D;
  sendTo : Z -> list Z -> D -> Z * D;
  requestFrom : Z -> nat -> D -> (Z * list Z) * D
}.

(** [ECC508Class]: its two fields, and the trace of bus and delay calls. *)
Record ECC508Class (D : Type) : Type := mkECC508 {
  _wire : D;
  _address : Z;
  trace : list BusEvent
}.
Arguments mkECC508 {D} _ _ _.
Arguments _wire {D} _.
Arguments _address {D} _.
Arguments trace {D} _.

(** A [quantity]-byte buffer holding what the transport put there. *)
Definition as_buffer (quantity : nat) (bytes : list Z) : list Z :=
  map uint8 (firstn quantity (bytes ++ repeat 0 quantity)).

(** The frames handed to [sendTo], oldest first. *)
Definition commands (tr : list BusEvent) : list (list Z) :=
  flat_map (fun e => match e with SendTo _ f => [f] | _ => [] end) tr.

(** The opcode and the first parameter of a command frame. *)
Definition frame_opcode (f : list Z) : Z := nth 2 f 0.
Definition frame_param1 (f : list Z) : Z := nth 3 f 0.
(** The word address a command frame carries in [param2]. *)
Definition frame_address (f : list Z) : Z := nth 4 f 0 + 256 * nth 5 f 0.

Section Driver.

Context {D : Type} {W : TwoWire D}.

(** Computations of the driver: state passing over the driver object. *)
Definition M (A : Type) : Type := ECC508Class D -> A * ECC508Class D.

Definition ret {A : Type} (a : A) : M A := fun s => (a, s).

Definition bind {A B : Type} (m : M A) (k : A -> M B) : M B :=
  fun s => let (a, s') := m s in k a s'.

Definition emit (e : BusEvent) (d : D) (s : ECC508Class D) : ECC508Class D :=
  mkECC508 d (_address s) (trace s ++ [e]).

Definition delay (ms : Z) : M unit :=
  fun s => (tt, emit (Delay ms) (_wire s) s).

Definition delayMicroseconds (us : Z) : M unit :=
  fun s => (tt, emit (DelayMicroseconds us) (_wire s) s).

Definition wire_begin : M unit :=
  fun s => (tt, emit WireBegin (wireBegin (_wire s)) s).

Definition wire_setClock (hz : Z) : M unit :=
  fun s => (tt, emit (WireSetClock hz) (setClock hz (_wire s)) s).

Definition wire_transmission (address : Z) (bytes : list Z) : M Z :=
  fun s => let (status, d) := endTransmission address bytes (_wire s) in
           (status, emit (Transmission address bytes) d s).

Definition wire_sendTo (address : Z) (bytes : list Z) : M Z :=
  fun s => let (status, d) := sendTo address bytes (_wire s) in
           (status, emit (SendTo address bytes) d s).

Definition wire_requestFrom (address : Z) (quantity : nat) : M (Z * list Z) :=
  fun s => let '((n, bytes), d) := requestFrom address quantity (_wire s) in
           ((n, as_buffer quantity bytes), emit (RequestFrom address quantity) d s).

Definition address : M Z := fun s => (_address s, s).

End Driver.

Declare Scope driver_scope.
Delimit Scope driver_scope with driver.
Notation "x <- m ;; k" := (bind m (fun x => k))
  (at level 61, m at next level, right associativity) : driver_scope.
Notation "m ;;; k" := (bind m (fun _ => k))
  (at level 61, right associativity) : driver_scope.
(** [if (!m) return 0;] followed by [k]. *)
Notation "'orfail' m ;; k" := (bind m (fun r => if r =? 0 then ret 0 else k))
  (at level 61, m at next level, right associativity) : driver_scope.
Open Scope driver_scope.

Section Operations.

Context {D : Type} {W : TwoWire D}.

(** *** Frame transport *)

(** [sendCommand]: build the frame, hand it to the bus. *)
Definition sendCommand (opcode param1 param2 : Z) (data : list Z) : M (D := D) Z :=
  a <- address ;;
  status <- wire_sendTo a (command_frame opcode param1 param2 data) ;;
  if negb (status =? 0) then ret 0 else ret 1.

(** [while (requestFrom(...) != responseSize && retries--);]
    [retries] is the value the condition reads before decrementing it. *)
Fixpoint poll (retries : nat) (responseSize : nat) (s : ECC508Class D)
  : list Z * ECC508Class D :=
  let '((n, responseBuffer), s1) := wire_requestFrom (_address s) responseSize s in
  if n =? Z.of_nat responseSize then (responseBuffer, s1)
  else match retries with
       | O => (responseBuffer, s1)
       | S retries' => poll retries' responseSize s1
       end.

(** [receiveResponse(response, length)]: the result and the content of
    [response] afterwards. *)
Definition receiveResponse (response : list Z) (length : nat) : M (Z * list Z) :=
  let responseSize := (length + 3)%nat in
  responseBuffer <- poll 20 responseSize ;;
  if negb (nth 0 responseBuffer 0 =? Z.of_nat responseSize) then
    ret (0, response)
  else
    let responseCrc :=
      uint16 (Z.lor (nth (length + 1) responseBuffer 0)
                    (Z.shiftl (nth (length + 2) responseBuffer 0) 8)) in
    if negb (responseCrc =? crc16 (Some responseBuffer) (responseSize - 2)) then
      ret (0, response)
    else
      ret (1, memcpy response (skipn 1 responseBuffer) length).

(** The local [byte response] is read only after [receiveResponse] has
    filled it ([||] does not evaluate its right side otherwise). *)
Definition wakeup : M Z :=
  wire_transmission 0x00 [] ;;;
  delayMicroseconds 800 ;;;
  r <- receiveResponse [0] 1 ;;
  let '(ok, response) := r in
  if (ok =? 0) || negb (nth 0 response 0 =? 0x11) then ret 0 else ret 1.

Definition sleep : M Z :=
  a <- address ;;
  status <- wire_transmission a [0x01] ;;
  if negb (status =? 0) then ret 0 else ret 1.

Definition idle : M Z :=
  a <- address ;;
  status <- wire_transmission a [0x02] ;;
  if negb (status =? 0) then ret 0 else ret 1.

End Operations.

Section Commands.

Context {D : Type} {W : TwoWire D}.

(** *** Command executor *)

Definition version : M (D := D) Z :=
  let version := [0; 0; 0; 0] in
  orfail wakeup ;;
  orfail sendCommand 0x30 0x00 0x0000 [] ;;
  delay 1 ;;;
  r <- receiveResponse version 4 ;;
  let '(ok, version) := r in
  if ok =? 0 then ret 0
  else
    delay 1 ;;;
    idle ;;;
    ret (int32 (le32_decode version)).

Definition begin : M (D := D) Z :=
  wire_begin ;;;
  wire_setClock 100000 ;;;
  v <- version ;;
  if negb (v =? 0x500000) then ret 0 else ret 1.

(** The [while (length)] loop of [random]; the flag is 0 when the loop
    was left by a [return 0]. [offset] is how far [data] has advanced. *)
Fixpoint random_loop (fuel : nat) (data : list Z) (offset length : nat)
  : M (D := D) (Z * list Z) :=
  match fuel with
  | O => ret (1, data)
  | S fuel' =>
      if (length =? 0)%nat then ret (1, data)
      else
        sent <- sendCommand 0x1b 0x00 0x0000 [] ;;
        if sent =? 0 then ret (0, data)
        else
          delay 23 ;;;
          r <- receiveResponse (repeat 0 32%nat) 32 ;;
          let '(ok, response) := r in
          if ok =? 0 then ret (0, data)
          else
            let copyLength := Nat.min 32 length in
            random_loop fuel' (store data offset (firstn copyLength response))
                        (offset + copyLength) (length - copyLength)
  end.

(** Every pass of the loop takes at least one byte off [length], so
    [length] passes are enough. *)
Definition random (data : list Z) (length : nat) : M (D := D) (Z * list Z) :=
  awake <- wakeup ;;
  if awake =? 0 then ret (0, data)
  else
    r <- random_loop length data 0 length ;;
    let '(ok, data) := r in
    if ok =? 0 then ret (0, data)
    else
      delay 1 ;;;
      idle ;;;
      ret (1, data).

Definition challenge (message : list Z) : M (D := D) Z :=
  orfail wakeup ;;
  orfail sendCommand 0x16 0x03 0x0000 (firstn 32 message) ;;
  delay 7 ;;;
  r <- receiveResponse [0] 1 ;;
  let '(ok, status) := r in
  if ok =? 0 then ret 0
  else
    delay 1 ;;;
    idle ;;;
    if negb (nth 0 status 0 =? 0) then ret 0 else ret 1.

Definition sign (slot : Z) (signature : list Z) : M (D := D) (Z * list Z) :=
  awake <- wakeup ;;
  if awake =? 0 then ret (0, signature)
  else
    sent <- sendCommand 0x41 0x80 slot [] ;;
    if sent =? 0 then ret (0, signature)
    else
      delay 50 ;;;
      r <- receiveResponse signature 64 ;;
      let '(ok, signature) := r in
      if ok =? 0 then ret (0, signature)
      else
        delay 1 ;;;
        idle ;;;
        ret (1, signature).

Definition read (zone address : Z) (buffer : list Z) (length : Z)
  : M (D := D) (Z * list Z) :=
  awake <- wakeup ;;
  if awake =? 0 then ret (0, buffer)
  else if negb (length =? 4) && negb (length =? 32) then ret (0, buffer)
  else
    let zone := if length =? 32 then Z.lor zone 0x80 else zone in
    sent <- sendCommand 0x02 zone address [] ;;
    if sent =? 0 then ret (0, buffer)
    else
      delay 1 ;;;
      r <- receiveResponse buffer (Z.to_nat length) ;;
      let '(ok, buffer) := r in
      if ok =? 0 then ret (0, buffer)
      else
        delay 1 ;;;
        idle ;;;
        ret (length, buffer).

Definition write (zone address : Z) (buffer : list Z) (length : Z) : M (D := D) Z :=
  orfail wakeup ;;
  if negb (length =? 4) && negb (length =? 32) then ret 0
  else
    let zone := if length =? 32 then Z.lor zone 0x80 else zone in
    orfail sendCommand 0x12 zone address (firstn (Z.to_nat length) buffer) ;;
    delay 26 ;;;
    r <- receiveResponse [0] 1 ;;
    let '(ok, status) := r in
    if ok =? 0 then ret 0
    else
      delay 1 ;;;
      idle ;;;
      if negb (nth 0 status 0 =? 0) then ret 0 else ret 1.

(** [lock(int zone)]. *)
Definition lock_zone (zone : Z) : M (D := D) Z :=
  orfail wakeup ;;
  orfail sendCommand 0x17 (Z.lor 0x80 zone) 0x0000 [] ;;
  delay 32 ;;;
  r <- receiveResponse [0] 1 ;;
  let '(ok, status) := r in
  if ok =? 0 then ret 0
  else
    delay 1 ;;;
    idle ;;;
    if negb (nth 0 status 0 =? 0) then ret 0 else ret 1.

(** *** Cryptographic operation layer *)

Definition ecSign (slot : Z) (message signature : list Z) : M (D := D) (Z * list Z) :=
  let rand := repeat 0 32%nat in
  r <- random rand 32 ;;
  if fst r =? 0 then ret (0, signature)
  else
    c <- challenge message ;;
    if c =? 0 then ret (0, signature)
    else
      sg <- sign slot signature ;;
      let '(ok, signature) := sg in
      if ok =? 0 then ret (0, signature) else ret (1, signature).

Definition locked : M (D := D) Z :=
  let config := repeat 0 4%nat in
  r <- read 0 0x15 config 4 ;;
  let '(ok, config) := r in
  if ok =? 0 then ret 0
  else if (nth 2 config 0 =? 0x00) && (nth 3 config 0 =? 0x00) then ret 1
  else ret 0.

(** The [for (int i = 16; i < 128; i += 4)] loop of [writeConfiguration],
    entered with the loop variable at [i]. *)
Fixpoint writeConfiguration_loop (fuel : nat) (i : Z) (data : list Z) : M (D := D) Z :=
  match fuel with
  | O => ret 1
  | S fuel' =>
      if i <? 128 then
        if i =? 84 then writeConfiguration_loop fuel' (i + 4) data
        else
          orfail write 0 (i / 4) (skipn (Z.to_nat i) data) 4 ;;
          writeConfiguration_loop fuel' (i + 4) data
      else ret 1
  end.

Definition writeConfiguration (data : list Z) : M (D := D) Z :=
  writeConfiguration_loop 29 16 data.

(** [lock()]: configuration zone, then data and OTP zones. *)
Definition lock : M (D := D) Z :=
  orfail lock_zone 0 ;;
  orfail lock_zone 1 ;;
  ret 1.

End Commands.

(** ** The remaining operations of the driver *)

Section Keys.

Context {D : Type} {W : TwoWire D}.

Definition generatePrivateKey (slot : Z) (publicKey : list Z)
  : M (D := D) (Z * list Z) :=
  awake <- wakeup ;;
  if awake =? 0 then ret (0, publicKey)
  else
    sent <- sendCommand 0x40 0x04 slot [] ;;
    if sent =? 0 then ret (0, publicKey)
    else
      delay 115 ;;;
      r <- receiveResponse publicKey 64 ;;
      let '(ok, publicKey) := r in
      if ok =? 0 then ret (0, publicKey)
      else
        delay 1 ;;;
        idle ;;;
        ret (1, publicKey).

Definition generatePublicKey (slot : Z) (publicKey : list Z)
  : M (D := D) (Z * list Z) :=
  awake <- wakeup ;;
  if awake =? 0 then ret (0, publicKey)
  else
    sent <- sendCommand 0x40 0x00 slot [] ;;
    if sent =? 0 then ret (0, publicKey)
    else
      delay 115 ;;;
      r <- receiveResponse publicKey 64 ;;
      let '(ok, publicKey) := r in
      if ok =? 0 then ret (0, publicKey)
      else
        delay 1 ;;;
        idle ;;;
        ret (1, publicKey).

(** [byte data[128]] filled by the two [memcpy] of [verify]. *)
Definition verify_data (signature pubkey : list Z) : list Z :=
  let data := repeat 0 128%nat in
  let data := store data 0 (firstn 64 signature) in
  store data 64 (firstn 64 pubkey).

Definition verify (signature pubkey : list Z) : M (D := D) Z :=
  orfail wakeup ;;
  let data := verify_data signature pubkey in
  orfail sendCommand 0x45 0x02 0x0004 data ;;
  delay 58 ;;;
  r <- receiveResponse [0] 1 ;;
  let '(ok, status) := r in
  if ok =? 0 then ret 0
  else
    delay 1 ;;;
    idle ;;;
    if negb (nth 0 status 0 =? 0) then ret 0 else ret 1.

Definition ecdsaVerify (message signature pubkey : list Z) : M (D := D) Z :=
  orfail challenge message ;;
  orfail verify signature pubkey ;;
  ret 1.

(** The [for (int i = 0; i < 128; i += 32)] loop of [readConfiguration],
    entered with the loop variable at [i]; [&data[i]] is the part of [data]
    from [i] on, and what [read] made of it is put back in place. *)
Fixpoint readConfiguration_loop (fuel : nat) (i : Z) (data : list Z)
  : M (D := D) (Z * list Z) :=
  match fuel with
  | O => ret (1, data)
  | S fuel' =>
      if i <? 128 then
        r <- read 0 (i / 4) (skipn (Z.to_nat i) data) 32 ;;
        let '(ok, rest) := r in
        let data := firstn (Z.to_nat i) data ++ rest in
        if ok =? 0 then ret (0, data)
        else readConfiguration_loop fuel' (i + 32) data
      else ret (1, data)
  end.

Definition readConfiguration (data : list Z) : M (D := D) (Z * list Z) :=
  readConfiguration_loop 5 0 data.

End Keys.

(** *** The serial number *)

(** One hexadecimal digit, lower case. *)
Definition hex_digit (d : Z) : Ascii.ascii :=
  if d <? 10 then Ascii.ascii_of_nat (48 + Z.to_nat d)
  else Ascii.ascii_of_nat (87 + Z.to_nat d).

(** Modelled from the spec: [String(b, HEX)], the constructor of the
    Arduino core that renders a byte in base 16, is not part of the driver;
    it writes the digits of [b] in lower case without leading zeros. *)
Definition String_HEX (b : Z) : String.string :=
  if b <? 16 then String.String (hex_digit b) String.EmptyString
  else String.String (hex_digit (b / 16))
         (String.String (hex_digit (b mod 16)) String.EmptyString).

(** The [for (int i = 0; i < 8; i++)] loop of [serialNumber] over the bytes
    it visits: [if (b < 16) result += "0"; result += String(b, HEX);]. *)
Fixpoint serial_digits (bytes : list Z) (result : String.string) : String.string :=
  match bytes with
  | [] => result
  | b :: rest =>
      let result :=
        if b <? 16
        then String.append result (String.String (hex_digit 0) String.EmptyString)
        else result in
      serial_digits rest (String.append result (String_HEX b))
  end.

Section SerialNumber.

Context {D : Type} {W : TwoWire D}.

(** [serialNumber()]: [None] is the [String] built from the null pointer. *)
Definition serialNumber : M (D := D) (option String.string) :=
  let sn := repeat 0 12%nat in
  r0 <- read 0 0 (skipn 0 sn) 4 ;;
  let sn := firstn 0 sn ++ snd r0 in
  if fst r0 =? 0 then ret None
  else
    r1 <- read 0 2 (skipn 4 sn) 4 ;;
    let sn := firstn 4 sn ++ snd r1 in
    if fst r1 =? 0 then ret None
    else
      r2 <- read 0 3 (skipn 8 sn) 4 ;;
      let sn := firstn 8 sn ++ snd r2 in
      if fst r2 =? 0 then ret None
      else ret (Some (serial_digits (firstn 8 sn) String.EmptyString)).

End SerialNumber.

(** ** Response frames *)

(** A well-formed response frame for a payload: the length byte (payload
    length plus 3), the payload, and the checksum of both, low byte first;
    this is what [receiveResponse] accepts. *)
Definition response_frame (payload : list Z) : list Z :=
  let body := Z.of_nat (length payload + 3) :: payload in
  body ++ le16 (crc16 (Some body) (length body)).

(** ** A simulated device behind the bus

    A transport double that answers like the coprocessor: the general call
    arms the wake code, a command frame arms the reply of its opcode, and a
    read of the right size returns the armed reply, framed and checksummed. *)
Module Sim.

Record Device : Type := mkDevice {
  acks : bool;               (* does the device acknowledge [sendTo]? *)
  version_reply : list Z;    (* 4 bytes answered to opcode 0x30 *)
  random_reply : list Z;     (* 32 bytes answered to opcode 0x1b *)
  signature_reply : list Z;  (* 64 bytes answered to opcode 0x41 *)
  config : list Z;           (* the 128 bytes of the configuration zone *)
  lock_status : Z -> Z;      (* status answered to opcode 0x17, by param1 *)
  nonce_status : Z;          (* status answered to opcode 0x16 *)
  garble : list Z -> list Z; (* what the line does to a response frame *)
  pending : list Z           (* payload of the reply that is armed *)
}.

Definition arm (payload : list Z) (d : Device) : Device :=
  mkDevice (acks d) (version_reply d) (random_reply d) (signature_reply d)
           (config d) (lock_status d) (nonce_status d) (garble d) payload.

Definition reply_to (frame : list Z) (d : Device) : list Z :=
  let opcode := frame_opcode frame in
  if opcode =? 0x30 then version_reply d
  else if opcode =? 0x1b then random_reply d
  else if opcode =? 0x41 then signature_reply d
  else if opcode =? 0x17 then [lock_status d (frame_param1 frame)]
  else if opcode =? 0x16 then [nonce_status d]
  else if opcode =? 0x02 then
    let n := if Z.testbit (frame_param1 frame) 7 then 32%nat else 4%nat in
    firstn n (skipn (Z.to_nat (4 * frame_address frame)) (config d))
  else [0].

#[global] Instance wire : TwoWire Device := {
  wireBegin d := d;
  setClock _ d := d;
  endTransmission address bytes d :=
    if address =? 0 then (2, arm [0x11] d) else (0, d);
  sendTo address frame d :=
    if acks d then (0, arm (reply_to frame d) d) else (4, d);
  requestFrom address quantity d :=
    if (quantity =? length (pending d) + 3)%nat
    then ((Z.of_nat quantity, garble d (response_frame (pending d))), d)
    else ((0, []), d)
}.

Definition ramp (n : nat) : list Z := map Z.of_nat (seq 1 n).

Definition clean (frame : list Z) : list Z := frame.

(** A blank, unlocked part that reports revision 0x500000. *)
Definition device : Device :=
  mkDevice true [0x00; 0x00; 0x50; 0x00] (repeat 0xA5 32) (ramp 64)
           (repeat 0x55 128) (fun _ => 0) 0 clean [].

(** The same part with its bus writes never acknowledged. *)
Definition deaf : Device :=
  mkDevice false [0x00; 0x00; 0x50; 0x00] (repeat 0xA5 32) (ramp 64)
           (repeat 0x55 128) (fun _ => 0) 0 clean [].

(** A part of another revision. *)
Definition other_revision : Device :=
  mkDevice true [0x00; 0x00; 0x60; 0x02] (repeat 0xA5 32) (ramp 64)
           (repeat 0x55 128) (fun _ => 0) 0 clean [].

(** A part that refuses to lock its configuration zone. *)
Definition unlockable : Device :=
  mkDevice true [0x00; 0x00; 0x50; 0x00] (repeat 0xA5 32) (ramp 64)
           (repeat 0x55 128) (fun p1 => if p1 =? 0x80 then 0x0F else 0) 0
           clean [].

(** A part that refuses the challenge. *)
Definition unchallengeable : Device :=
  mkDevice true [0x00; 0x00; 0x50; 0x00] (repeat 0xA5 32) (ramp 64)
           (repeat 0x55 128) (fun _ => 0) 0x0F clean [].

(** A part whose configuration and data zones are locked. *)
Definition locked_part : Device :=
  mkDevice true [0x00; 0x00; 0x50; 0x00] (repeat 0xA5 32) (ramp 64)
           (repeat 0x00 128) (fun _ => 0) 0 clean [].

(** A line that spoils the length byte of every response. *)
Definition bad_length : Device :=
  mkDevice true [0x00; 0x00; 0x50; 0x00] (repeat 0xA5 32) (ramp 64)
           (repeat 0x55 128) (fun _ => 0) 0
           (fun f => (hd 0 f + 1) :: tl f) [].

(** A line that spoils the last checksum byte of every response. *)
Definition bad_checksum : Device :=
  mkDevice true [0x00; 0x00; 0x50; 0x00] (repeat 0xA5 32) (ramp 64)
           (repeat 0x55 128) (fun _ => 0) 0
           (fun f => removelast f ++ [Z.lxor (last f 0) 0x01]) [].

(** [ECC508Class ECC508(Wire, 0x60);] *)
Definition ECC508 (d : Device) : ECC508Class Device := mkECC508 d 0x60 [].

End Sim.

(** ** A bus with no device on it: nothing is acknowledged, every read is
    short and leaves the buffer as zeros. *)
Module Absent.

#[global] Instance wire : TwoWire unit := {
  wireBegin d := d;
  setClock _ d := d;
  endTransmission address bytes d := (2, d);
  sendTo address frame d := (2, d);
  requestFrom address quantity d := ((0, []), d)
}.

Definition ECC508 : ECC508Class unit := mkECC508 tt 0x60 [].

End Absent.

(** ** Vocabulary of the statements *)

Section Vocabulary.

Context {D : Type} {W : TwoWire D}.

(** [issues m Q]: from any state, [m] leaves the device address alone and
    hands the bus a list [fs] of further command frames such that
    [Q result fs]. *)
Definition issues {A : Type} (m : M (D := D) A) (Q : A -> list (list Z) -> Prop)
  : Prop :=
  forall s,
    _address (snd (m s)) = _address s
    /\ exists fs, commands (trace (snd (m s))) = commands (trace s) ++ fs
                  /\ Q (fst (m s)) fs.

End Vocabulary.

Definition is_byte (b : Z) : Prop := 0 <= b < 256.

(** A command exchange sends its frame once, or gives up before sending. *)
Definition at_most (frame : list Z) (result : Z) (fs : list (list Z)) : Prop :=
  (fs = [] \/ fs = [frame]) /\ (result <> 0 -> fs = [frame]) /\ (result = 0 \/ result = 1).

(** The frames of the commands the operations send. *)
Definition write_frame (data : list Z) (i : Z) : list Z :=
  command_frame 0x12 0 (i / 4) (firstn 4 (skipn (Z.to_nat i) data)).
Definition lock_frame (zone : Z) : list Z :=
  command_frame 0x17 (Z.lor 0x80 zone) 0x0000 [].
Definition random_frame : list Z := command_frame 0x1b 0x00 0x0000 [].
Definition nonce_frame (message : list Z) : list Z :=
  command_frame 0x16 0x03 0x0000 (firstn 32 message).
Definition sign_frame (slot : Z) : list Z := command_frame 0x41 0x80 slot [].

(** The byte offsets [writeConfiguration] writes a word at, when its loop is
    entered with the loop variable at [i]. *)
Fixpoint offsets_from (fuel : nat) (i : Z) : list Z :=
  match fuel with
  | O => []
  | S fuel' =>
      if i <? 128 then
        if i =? 84 then offsets_from fuel' (i + 4)
        else i :: offsets_from fuel' (i + 4)
      else []
  end.

(** Every 4-byte word of the 128-byte zone but those at offsets 0, 4, 8, 12
    and 84. *)
Definition writable_offsets : list Z :=
  [16; 20; 24; 28; 32; 36; 40; 44; 48; 52; 56; 60; 64; 68; 72; 76; 80;
   88; 92; 96; 100; 104; 108; 112; 116; 120; 124].

(** Further command frames. *)
Definition read_frame (zone address : Z) : list Z :=
  command_frame 0x02 zone address [].
Definition genkey_frame (mode slot : Z) : list Z :=
  command_frame 0x40 mode slot [].
Definition verify_frame (signature pubkey : list Z) : list Z :=
  command_frame 0x45 0x02 0x0004 (verify_data signature pubkey).

(** A byte with its bit [i] flipped, and a buffer with one bit of its byte
    [j] flipped. *)
Definition flip_bit (b i : Z) : Z := Z.lxor b (2 ^ i).
Definition flip_at (j : nat) (i : Z) (l : list Z) : list Z :=
  firstn j l ++ flip_bit (nth j l 0) i :: skipn (S j) l.

(** The value of a hexadecimal digit, and the bytes a string of digit pairs
    stands for. *)
Definition hex_value (c : Ascii.ascii) : option Z :=
  let n := Z.of_nat (Ascii.nat_of_ascii c) in
  if (48 <=? n) && (n <=? 57) then Some (n - 48)
  else if (97 <=? n) && (n <=? 102) then Some (n - 87)
  else None.

Fixpoint hex_decode (s : String.string) : option (list Z) :=
  match s with
  | String.EmptyString => Some []
  | String.String hi (String.String lo rest) =>
      match hex_value hi, hex_value lo, hex_decode rest with
      | Some h, Some l, Some bytes => Some (16 * h + l :: bytes)
      | _, _, _ => None
      end
  | String.String _ String.EmptyString => None
  end.

Section ExchangeVocabulary.

Context {D : Type} {W : TwoWire D}.




End ExchangeVocabulary.

(** * Properties *)

(** ** Machine integers and bits *)

Lemma uint16_range (z : Z) : 0 <= uint16 z < 65536.
Proof. unfold uint16. apply Z.mod_pos_bound. lia. Qed.

Lemma uint8_range (z : Z) : 0 <= uint8 z < 256.
Proof. unfold uint8. apply Z.mod_pos_bound. lia. Qed.

Lemma uint8_small (z : Z) : 0 <= z < 256 -> uint8 z = z.
Proof. intros H. unfold uint8. now apply Z.mod_small. Qed.

Lemma uint16_small (z : Z) : 0 <= z < 65536 -> uint16 z = z.
Proof. intros H. unfold uint16. now apply Z.mod_small. Qed.

(** Testing a byte against the mask [2^i] reads its bit [i]. *)
Lemma land_pow2_is_zero (b i : Z) :
  0 <= i -> (Z.land b (2 ^ i) =? 0) = negb (Z.testbit b i).
Proof.
  intros Hi. destruct (Z.testbit b i) eqn:Hb; simpl.
  - apply Z.eqb_neq. intros H0.
    assert (Hbit : Z.testbit (Z.land b (2 ^ i)) i = true).
    { rewrite Z.land_spec, Hb, Z.pow2_bits_eqb, Z.eqb_refl by assumption.
      reflexivity. }
    rewrite H0, Z.bits_0 in Hbit. discriminate.
  - apply Z.eqb_eq. apply Z.bits_inj'. intros n Hn.
    rewrite Z.land_spec, Z.bits_0, Z.pow2_bits_eqb by assumption.
    destruct (Z.eqb_spec i n) as [->|_].
    + now rewrite Hb.
    + apply andb_false_r.
Qed.

(** The top bit of a 16-bit accumulator. *)
Lemma top_bit (crc : Z) :
  0 <= crc < 65536 -> uint8 (Z.shiftr crc 15) = Z.b2z (Z.testbit crc 15).
Proof.
  intros H. rewrite Z.testbit_spec' by lia. rewrite Z.shiftr_div_pow2 by lia.
  assert (0 <= crc / 2 ^ 15 < 2).
  { split; [apply Z.div_pos; lia | apply Z.div_lt_upper_bound; lia]. }
  rewrite (Z.mod_small (crc / 2 ^ 15) 2) by assumption.
  apply uint8_small. lia.
Qed.

Lemma lxor_16_bits (x y : Z) :
  0 <= x < 65536 -> 0 <= y < 65536 -> 0 <= Z.lxor x y < 65536.
Proof.
  intros Hx Hy.
  assert (Hnn : 0 <= Z.lxor x y) by (apply Z.lxor_nonneg; lia).
  split; [assumption|].
  destruct (Z.eq_dec (Z.lxor x y) 0) as [->|Hne]; [lia|].
  change 65536 with (2 ^ 16). apply Z.log2_lt_pow2; [lia|].
  pose proof (Z.log2_lxor x y (proj1 Hx) (proj1 Hy)) as Hl.
  assert (Z.log2 x < 16).
  { destruct (Z.eq_dec x 0) as [->|]; [simpl; lia|].
    apply Z.log2_lt_pow2; lia. }
  assert (Z.log2 y < 16).
  { destruct (Z.eq_dec y 0) as [->|]; [simpl; lia|].
    apply Z.log2_lt_pow2; lia. }
  lia.
Qed.

(** A low byte and a high byte shifted by 8 do not overlap. *)
Lemma lor_shiftl_8 (lo hi : Z) :
  0 <= lo < 256 -> 0 <= hi -> Z.lor lo (Z.shiftl hi 8) = lo + 256 * hi.
Proof.
  intros Hlo Hhi.
  assert (Hdisj : Z.land lo (Z.shiftl hi 8) = 0).
  { apply Z.bits_inj'. intros n Hn. rewrite Z.land_spec, Z.bits_0.
    destruct (Z.lt_ge_cases n 8) as [Hlt|Hge].
    - rewrite Z.shiftl_spec_low by assumption. apply andb_false_r.
    - destruct (Z.eq_dec lo 0) as [->|Hne]; [now rewrite Z.bits_0|].
      rewrite (Z.bits_above_log2 lo n); [reflexivity | lia |].
      assert (Z.log2 lo < 8) by (apply Z.log2_lt_pow2; lia). lia. }
  pose proof (Z.add_lor_land lo (Z.shiftl hi 8)) as Hadd.
  rewrite Hdisj, Z.add_0_r in Hadd. rewrite Hadd.
  rewrite Z.shiftl_mul_pow2 by lia. change (2 ^ 8) with 256. lia.
Qed.

(** ** The checksum unit *)

Arguments crc16_step : simpl never.
Arguments crc16 : simpl never.
Arguments command_frame : simpl never.

Lemma crc_spec_step_range (acc : Z) (bit : bool) :
  0 <= acc < 65536 -> 0 <= crc_spec_step acc bit < 65536.
Proof.
  intros H. unfold crc_spec_step.
  assert (0 <= (2 * acc) mod 2 ^ 16 < 65536) by (apply Z.mod_pos_bound; lia).
  destruct (xorb bit (Z.testbit acc 15)); [apply lxor_16_bits; lia | assumption].
Qed.

(** One pass of the source's loop body is one step of the stated algorithm. *)
Lemma crc16_step_spec (b i shift crc : Z) :
  0 <= i -> shift = 2 ^ i -> 0 <= crc < 65536 ->
  crc16_step b shift crc = crc_spec_step crc (Z.testbit b i).
Proof.
  intros Hi -> Hcrc. unfold crc16_step, crc_spec_step.
  rewrite land_pow2_is_zero, top_bit by assumption.
  rewrite Z.shiftl_mul_pow2 by lia.
  assert (Eshift : uint16 (crc * 2 ^ 1) = (2 * crc) mod 2 ^ 16).
  { unfold uint16. f_equal. lia. }
  rewrite Eshift.
  assert (Hs : 0 <= (2 * crc) mod 2 ^ 16 < 65536) by (apply Z.mod_pos_bound; lia).
  remember ((2 * crc) mod 2 ^ 16) as shifted eqn:Eshifted.
  destruct (Z.testbit b i), (Z.testbit crc 15); cbn; try reflexivity;
    apply uint16_small; apply lxor_16_bits; lia.
Qed.

Lemma crc16_bits_unfold (fuel : nat) (b shift crc : Z) :
  0 < shift ->
  crc16_bits (S fuel) b shift crc
  = crc16_bits fuel b (uint8 (Z.shiftl shift 1)) (crc16_step b shift crc).
Proof. intros H. simpl. apply Z.ltb_lt in H. now rewrite H. Qed.

(** The loop makes exactly eight passes, with the masks 1, 2, ..., 128:
    any fuel from 8 on gives the same result. *)
Lemma crc16_bits_passes (extra : nat) (b crc : Z) :
  crc16_bits (8 + extra) b 0x01 crc
  = crc16_step b 128 (crc16_step b 64 (crc16_step b 32 (crc16_step b 16
      (crc16_step b 8 (crc16_step b 4 (crc16_step b 2 (crc16_step b 1 crc))))))).
Proof.
  change (8 + extra)%nat with (S (S (S (S (S (S (S (S extra)))))))).
  do 8 (rewrite crc16_bits_unfold by (vm_compute; reflexivity);
        match goal with
        | |- context [uint8 (Z.shiftl ?s 1)] =>
            let v := eval vm_compute in (uint8 (Z.shiftl s 1)) in
            change (uint8 (Z.shiftl s 1)) with v
        end).
  destruct extra; reflexivity.
Qed.

(** The eight passes over one byte. *)
Lemma crc16_bits_byte (extra : nat) (b crc : Z) :
  0 <= crc < 65536 ->
  crc16_bits (8 + extra) b 0x01 crc = crc_spec_byte crc b.
Proof.
  intros Hcrc. rewrite crc16_bits_passes. unfold crc_spec_byte. cbn [fold_left].
  rewrite (crc16_step_spec b 0 1) by (lia || reflexivity).
  pose proof (crc_spec_step_range crc (Z.testbit b 0) Hcrc) as H0.
  rewrite (crc16_step_spec b 1 2) by (lia || reflexivity).
  pose proof (crc_spec_step_range _ (Z.testbit b 1) H0) as H1.
  rewrite (crc16_step_spec b 2 4) by (lia || reflexivity).
  pose proof (crc_spec_step_range _ (Z.testbit b 2) H1) as H2.
  rewrite (crc16_step_spec b 3 8) by (lia || reflexivity).
  pose proof (crc_spec_step_range _ (Z.testbit b 3) H2) as H3.
  rewrite (crc16_step_spec b 4 16) by (lia || reflexivity).
  pose proof (crc_spec_step_range _ (Z.testbit b 4) H3) as H4.
  rewrite (crc16_step_spec b 5 32) by (lia || reflexivity).
  pose proof (crc_spec_step_range _ (Z.testbit b 5) H4) as H5.
  rewrite (crc16_step_spec b 6 64) by (lia || reflexivity).
  pose proof (crc_spec_step_range _ (Z.testbit b 6) H5) as H6.
  rewrite (crc16_step_spec b 7 128) by (lia || reflexivity).
  reflexivity.
Qed.

Lemma crc_spec_byte_range (acc b : Z) :
  0 <= acc < 65536 -> 0 <= crc_spec_byte acc b < 65536.
Proof.
  intros H. unfold crc_spec_byte. cbn [fold_left].
  repeat apply crc_spec_step_range. assumption.
Qed.

Lemma crc16_loop_spec (bytes : list Z) (crc : Z) :
  0 <= crc < 65536 ->
  crc16_loop bytes (length bytes) crc = fold_left crc_spec_byte bytes crc.
Proof.
  revert crc. induction bytes as [|b rest IH]; intros crc Hcrc; [reflexivity|].
  cbn [length crc16_loop hd tl fold_left].
  rewrite (crc16_bits_byte 1) by assumption.
  apply IH. now apply crc_spec_byte_range.
Qed.

Lemma crc_spec_fold_range (bytes : list Z) (acc : Z) :
  0 <= acc < 65536 -> 0 <= fold_left crc_spec_byte bytes acc < 65536.
Proof.
  revert acc. induction bytes as [|b rest IH]; intros acc H; [exact H|].
  cbn [fold_left]. apply IH. now apply crc_spec_byte_range.
Qed.

Lemma crc16_length (bytes : list Z) :
  crc16 (Some bytes) (length bytes) = crc_spec bytes.
Proof.
  unfold crc16, crc_spec. destruct bytes as [|b rest]; [reflexivity|].
  cbn [length Nat.eqb]. apply crc16_loop_spec. lia.
Qed.

Lemma crc16_range (bytes : list Z) :
  0 <= crc16 (Some bytes) (length bytes) < 65536.
Proof. rewrite crc16_length. apply crc_spec_fold_range. lia. Qed.

(** C2. The checksum is 0 on the null pointer and on a length of 0, and on
    every byte sequence it is the value of the stated bit-serial algorithm
    (accumulator from 0; per byte, bits from least to most significant:
    compare the data bit with the top bit, shift left, exclusive-or 0x8005
    when they differ). It is a function of its input alone, its value fits
    16 bits, and the inner loop ends after its eight passes whatever fuel
    it is given beyond them. *)
Theorem crc16_bit_serial :
  (forall length, crc16 None length = 0)
  /\ (forall data, crc16 data 0 = 0)
  /\ (forall bytes, crc16 (Some bytes) (length bytes) = crc_spec bytes)
  /\ (forall bytes, 0 <= crc16 (Some bytes) (length bytes) < 65536)
  /\ (forall extra b crc,
        crc16_bits (8 + extra) b 0x01 crc = crc16_bits 8 b 0x01 crc).
Proof.
  repeat split.
  - intros [bytes|]; reflexivity.
  - apply crc16_length.
  - apply crc16_range.
  - apply crc16_range.
  - intros extra b crc.
    rewrite (crc16_bits_passes extra), (crc16_bits_passes 0). reflexivity.
Qed.

(** ** Command frames *)

Lemma skipn_zeros (n m : nat) : skipn n (repeat 0 (m + n)) = repeat 0 m.
Proof.
  rewrite Nat.add_comm, repeat_app, skipn_app, repeat_length, Nat.sub_diag.
  rewrite skipn_all2 by (rewrite repeat_length; lia). reflexivity.
Qed.

(** The checksum reads [length] bytes and nothing behind them. *)
Lemma crc16_loop_prefix (bytes tail : list Z) (crc : Z) :
  crc16_loop (bytes ++ tail) (length bytes) crc = crc16_loop bytes (length bytes) crc.
Proof.
  revert crc. induction bytes as [|b rest IH]; intros crc; [reflexivity|].
  cbn [app length crc16_loop hd tl]. apply IH.
Qed.

Lemma crc16_prefix (bytes tail : list Z) :
  crc16 (Some (bytes ++ tail)) (length bytes) = crc16 (Some bytes) (length bytes).
Proof. unfold crc16. now rewrite crc16_loop_prefix. Qed.

Lemma command_frame_layout (opcode param1 param2 : Z) (data : list Z) :
  command_frame opcode param1 param2 data
  = 0x03 :: command_body opcode param1 param2 data
      ++ le16 (crc16 (Some (command_body opcode param1 param2 data))
                     (length (command_body opcode param1 param2 data))).
Proof.
  unfold command_frame, store, le16.
  cbn [repeat Nat.add firstn skipn app length].
  change (0 :: 0 :: repeat 0 (length data)) with (repeat 0 (2 + length data)).
  rewrite skipn_zeros. cbn [repeat].
  change (8 - 3 + length data)%nat
    with (length (command_body opcode param1 param2 data)).
  pose proof (crc16_prefix (command_body opcode param1 param2 data) [0; 0]) as E.
  unfold command_body at 1 in E. unfold le16 in E. cbn [app Nat.add] in E.
  rewrite E. clear E.
  rewrite firstn_app, firstn_all, Nat.sub_diag, app_nil_r.
  rewrite skipn_all2 by (rewrite length_app; cbn; lia).
  unfold command_body, le16. cbn [app]. reflexivity.
Qed.

Lemma command_frame_length (opcode param1 param2 : Z) (data : list Z) :
  length (command_frame opcode param1 param2 data) = (8 + length data)%nat.
Proof.
  rewrite command_frame_layout. unfold command_body, le16.
  cbn [length app]. rewrite length_app. cbn [length]. lia.
Qed.

Lemma le16_small (z : Z) :
  0 <= z < 65536 -> le16 z = [z mod 256; z / 256].
Proof.
  intros H. unfold le16. rewrite Z.shiftr_div_pow2 by lia.
  change (2 ^ 8) with 256. unfold uint8 at 1.
  rewrite (uint8_small (z / 256)); [reflexivity|].
  split; [apply Z.div_pos; lia | apply Z.div_lt_upper_bound; lia].
Qed.

Section SendCommand.

Context {D : Type} {W : TwoWire D}.

Lemma sendCommand_trace (opcode param1 param2 : Z) (data : list Z)
      (s : ECC508Class D) :
  trace (snd (sendCommand opcode param1 param2 data s))
  = trace s ++ [SendTo (_address s) (command_frame opcode param1 param2 data)].
Proof.
  unfold sendCommand, bind, address, wire_sendTo, ret.
  destruct (sendTo _ _ _) as [status d].
  destruct (negb (status =? 0)); reflexivity.
Qed.

(** C3, amended. For a payload of at most 248 bytes, the frame
    [sendCommand] builds and hands to the bus is: the type byte 0x03; a
    length byte equal to the frame size minus the type byte; the opcode;
    param1; param2, low byte first; the payload; and the checksum of
    everything from the length byte to the end of the payload, low byte
    first. The opcode and the parameters range over their C types. *)
Theorem sendCommand_frame_layout (opcode param1 param2 : Z) (data : list Z)
        (s : ECC508Class D) :
  0 <= opcode < 256 -> 0 <= param1 < 256 -> 0 <= param2 < 65536 ->
  (length data <= 248)%nat ->
  let frame := command_frame opcode param1 param2 data in
  let covered :=
    [Z.of_nat (length frame) - 1; opcode; param1; param2 mod 256; param2 / 256]
      ++ data in
  let crc := crc16 (Some covered) (length covered) in
  frame = 0x03 :: covered ++ [crc mod 256; crc / 256]
  /\ length frame = (8 + length data)%nat
  /\ trace (snd (sendCommand opcode param1 param2 data s))
     = trace s ++ [SendTo (_address s) frame].
Proof.
  intros Hop Hp1 Hp2 Hlen frame covered crc.
  assert (Ecov : command_body opcode param1 param2 data = covered).
  { unfold command_body, covered, frame.
    rewrite command_frame_length, (uint16_small param2), le16_small by assumption.
    rewrite !uint8_small by lia. reflexivity. }
  split; [|split].
  - unfold frame at 1. rewrite command_frame_layout, Ecov.
    fold crc. rewrite le16_small by apply crc16_range. reflexivity.
  - apply command_frame_length.
  - apply sendCommand_trace.
Qed.

End SendCommand.

(** The version query of the data sheet: [03 07 30 00 00 00 03 5d]. *)
Lemma sendCommand_frame_layout_witness :
  command_frame 0x30 0x00 0x0000 []
  = 0x03 :: ([7; 0x30; 0x00; 0x00; 0x00] ++ []) ++ [0x03; 0x5d]
  /\ trace (snd (sendCommand 0x30 0x00 0x0000 [] (Sim.ECC508 Sim.device)))
     = [SendTo 0x60 [0x03; 0x07; 0x30; 0x00; 0x00; 0x00; 0x03; 0x5d]].
Proof.
  pose proof (sendCommand_frame_layout 0x30 0x00 0x0000 [] (Sim.ECC508 Sim.device)
                ltac:(lia) ltac:(lia) ltac:(lia) ltac:(simpl; lia)) as [H1 [_ H3]].
  split; [exact H1 | exact H3].
Defined.

(** A payload of 249 bytes makes a frame of 257 bytes, and the length byte,
    which should then hold 256, holds 0. *)
Lemma command_frame_length_byte_wraps :
  nth 1 (command_frame 0x12 0x00 0x0000 (repeat 0 249)) 0 = 0
  /\ Z.of_nat (length (command_frame 0x12 0x00 0x0000 (repeat 0 249))) - 1 = 256.
Proof. vm_compute. split; reflexivity. Qed.

(** ** What each operation puts on the bus *)

Lemma commands_app (a b : list BusEvent) :
  commands (a ++ b) = commands a ++ commands b.
Proof. unfold commands. apply flat_map_app. Qed.

Section Issues.

Context {D : Type} {W : TwoWire D}.

Lemma issues_ret {A : Type} (a : A) (Q : A -> list (list Z) -> Prop) :
  Q a [] -> issues (D := D) (ret a) Q.
Proof.
  intros H s. split; [reflexivity|]. exists []. now rewrite app_nil_r.
Qed.

Lemma issues_bind {A B : Type} (m : M A) (k : A -> M (D := D) B)
      (P : A -> list (list Z) -> Prop) (Q : B -> list (list Z) -> Prop) :
  issues m P ->
  (forall a f1, P a f1 -> issues (k a) (fun b f2 => Q b (f1 ++ f2))) ->
  issues (bind m k) Q.
Proof.
  intros Hm Hk s. unfold bind. specialize (Hm s).
  destruct (m s) as [a s1]. cbn [fst snd] in Hm.
  destruct Hm as [Ha [f1 [Hc HP]]].
  destruct (Hk a f1 HP s1) as [Ha2 [f2 [Hc2 HQ]]].
  split; [congruence|]. exists (f1 ++ f2).
  rewrite Hc2, Hc, app_assoc. auto.
Qed.

Lemma issues_weaken {A : Type} (m : M (D := D) A)
      (P Q : A -> list (list Z) -> Prop) :
  issues m P -> (forall a fs, P a fs -> Q a fs) -> issues m Q.
Proof.
  intros Hm HPQ s. destruct (Hm s) as [Ha [fs [Hc HP]]].
  split; [exact Ha|]. exists fs. auto.
Qed.

(** An event that is no [SendTo] adds no frame. *)
Lemma emit_quiet (e : BusEvent) (d : D) (s : ECC508Class D) :
  commands [e] = [] ->
  commands (trace (emit e d s)) = commands (trace s) ++ [].
Proof. intros H. cbn [emit trace]. now rewrite commands_app, H. Qed.

Lemma issues_delay (ms : Z) : issues (D := D) (delay ms) (fun _ fs => fs = []).
Proof.
  intros s. split; [reflexivity|]. exists []. split; [|reflexivity].
  now apply emit_quiet.
Qed.

Lemma issues_delayMicroseconds (us : Z) :
  issues (D := D) (delayMicroseconds us) (fun _ fs => fs = []).
Proof.
  intros s. split; [reflexivity|]. exists []. split; [|reflexivity].
  now apply emit_quiet.
Qed.

Lemma issues_wire_begin : issues (D := D) wire_begin (fun _ fs => fs = []).
Proof.
  intros s. split; [reflexivity|]. exists []. split; [|reflexivity].
  now apply emit_quiet.
Qed.

Lemma issues_wire_setClock (hz : Z) :
  issues (D := D) (wire_setClock hz) (fun _ fs => fs = []).
Proof.
  intros s. split; [reflexivity|]. exists []. split; [|reflexivity].
  now apply emit_quiet.
Qed.

Lemma issues_wire_transmission (a : Z) (bytes : list Z) :
  issues (D := D) (wire_transmission a bytes) (fun _ fs => fs = []).
Proof.
  intros s. unfold wire_transmission. destruct (endTransmission _ _ _) as [st d].
  split; [reflexivity|]. exists []. split; [|reflexivity].
  now apply emit_quiet.
Qed.

Lemma issues_wire_requestFrom (a : Z) (quantity : nat) :
  issues (D := D) (wire_requestFrom a quantity) (fun _ fs => fs = []).
Proof.
  intros s. unfold wire_requestFrom.
  destruct (requestFrom _ _ _) as [[n bytes] d].
  split; [reflexivity|]. exists []. split; [|reflexivity].
  now apply emit_quiet.
Qed.

Lemma issues_wire_sendTo (a : Z) (frame : list Z) :
  issues (D := D) (wire_sendTo a frame) (fun _ fs => fs = [frame]).
Proof.
  intros s. unfold wire_sendTo. destruct (sendTo _ _ _) as [st d].
  split; [reflexivity|]. exists [frame]. split; [|reflexivity].
  cbn [snd emit trace]. now rewrite commands_app.
Qed.

Lemma issues_address : issues (D := D) address (fun _ fs => fs = []).
Proof.
  intros s. split; [reflexivity|]. exists []. cbn [address snd].
  now rewrite app_nil_r.
Qed.

Lemma issues_poll (retries responseSize : nat) :
  issues (D := D) (poll retries responseSize) (fun _ fs => fs = []).
Proof.
  induction retries as [|retries IH]; intros s; cbn [poll];
    pose proof (issues_wire_requestFrom (_address s) responseSize s) as Hr;
    destruct (wire_requestFrom _ _ s) as [[n buf] s1]; cbn [fst snd] in Hr;
    destruct (n =? Z.of_nat responseSize); try exact Hr.
  destruct Hr as [Ha [f1 [Hc ->]]]. destruct (IH s1) as [Ha2 [f2 [Hc2 ->]]].
  split; [congruence|]. exists []. split; [|reflexivity].
  rewrite Hc2, Hc. now rewrite !app_nil_r.
Qed.

End Issues.

Create HintDb issues.
#[export] Hint Resolve issues_delay issues_delayMicroseconds issues_wire_begin
  issues_wire_setClock issues_wire_transmission issues_wire_requestFrom
  issues_wire_sendTo issues_address issues_poll : issues.

(** One step through a driver computation: a bind whose first part is a
    known operation, a return, a test, or the opening of a pair. *)
Ltac issues_step :=
  lazymatch goal with
  | |- issues (bind _ _) _ =>
      eapply issues_bind;
      [ solve [eauto with issues]
      | intros ? ? ?; unfold at_most in *; cbn beta in *;
        repeat match goal with H : _ /\ _ |- _ => destruct H end;
        subst; cbn [app] ]
  | |- issues (ret _) _ => apply issues_ret
  | |- issues (if ?c then _ else _) _ => destruct c eqn:?
  | |- issues (let '(_, _) := ?r in _) _ => destruct r as [? ?]
  end.

Ltac issues_done :=
  lazymatch goal with |- issues _ _ => fail | _ => idtac end;
  unfold at_most; cbn [fst snd app];
  repeat match goal with
         | H : _ \/ _ |- _ => destruct H
         | H : (_ =? _) = _ |- _ =>
             first [apply Z.eqb_eq in H | apply Z.eqb_neq in H]
         end;
  subst;
  repeat match goal with
         | H : _ <> _ -> _ |- _ => first [specialize (H ltac:(lia)) | clear H]
         end;
  subst;
  try (exfalso; lia);
  repeat split; intros;
  first [lia | reflexivity | left; reflexivity | right; reflexivity | assumption].

Section Exchanges.

Context {D : Type} {W : TwoWire D}.

Lemma issues_receiveResponse (response : list Z) (length : nat) :
  issues (D := D) (receiveResponse response length) (fun _ fs => fs = []).
Proof. unfold receiveResponse. repeat issues_step; reflexivity. Qed.

Lemma issues_idle : issues (D := D) idle (fun _ fs => fs = []).
Proof. unfold idle. repeat issues_step; reflexivity. Qed.

Hint Resolve issues_receiveResponse issues_idle : issues.

Lemma issues_wakeup :
  issues (D := D) wakeup (fun r fs => fs = [] /\ (r = 0 \/ r = 1)).
Proof. unfold wakeup. repeat issues_step; auto. Qed.

Lemma issues_sendCommand (opcode param1 param2 : Z) (data : list Z) :
  issues (D := D) (sendCommand opcode param1 param2 data)
         (fun r fs => fs = [command_frame opcode param1 param2 data]
                      /\ (r = 0 \/ r = 1)).
Proof. unfold sendCommand. repeat issues_step; auto. Qed.

Hint Resolve issues_wakeup issues_sendCommand : issues.

Lemma issues_lock_zone (zone : Z) :
  issues (D := D) (lock_zone zone) (at_most (lock_frame zone)).
Proof. unfold lock_zone, lock_frame. repeat issues_step; issues_done. Qed.

Lemma issues_challenge (message : list Z) :
  issues (D := D) (challenge message) (at_most (nonce_frame message)).
Proof. unfold challenge, nonce_frame. repeat issues_step; issues_done. Qed.

Lemma issues_sign (slot : Z) (signature : list Z) :
  issues (D := D) (sign slot signature)
         (fun r fs => at_most (sign_frame slot) (fst r) fs).
Proof. unfold sign, sign_frame. repeat issues_step; issues_done. Qed.

(** A write of a length other than 4 and 32 sends no command frame. *)
Lemma issues_write (zone address : Z) (buffer : list Z) (length : Z) :
  issues (D := D) (write zone address buffer length)
    (fun r fs =>
       if negb (length =? 4) && negb (length =? 32) then fs = [] /\ r = 0
       else at_most (command_frame 0x12
                       (if length =? 32 then Z.lor zone 0x80 else zone)
                       address (firstn (Z.to_nat length) buffer)) r fs).
Proof.
  unfold write.
  destruct (negb (length =? 4) && negb (length =? 32)) eqn:Hlen;
    repeat issues_step; issues_done.
Qed.

Lemma issues_read (zone address : Z) (buffer : list Z) (length : Z) :
  issues (D := D) (read zone address buffer length)
    (fun r fs =>
       if negb (length =? 4) && negb (length =? 32) then fs = [] /\ fst r = 0
       else (fs = [] \/ fs = [command_frame 0x02
                       (if length =? 32 then Z.lor zone 0x80 else zone)
                       address []])
            /\ (fst r = 0 \/ fst r = length)).
Proof.
  unfold read.
  destruct (negb (length =? 4) && negb (length =? 32)) eqn:Hlen;
    repeat issues_step; issues_done.
Qed.

End Exchanges.

#[export] Hint Resolve issues_receiveResponse issues_idle issues_wakeup
  issues_sendCommand issues_lock_zone issues_challenge issues_sign
  issues_write issues_read : issues.

Section Composites.

Context {D : Type} {W : TwoWire D}.

Lemma issues_random_loop_32 (data : list Z) :
  issues (D := D) (random_loop 32 data 0 32)
         (fun r fs => at_most random_frame (fst r) fs).
Proof.
  unfold random_frame.
  cbn [random_loop Nat.eqb Nat.min Nat.sub Nat.add].
  repeat issues_step; issues_done.
Qed.

Lemma issues_random_32 (data : list Z) :
  issues (D := D) (random data 32)
         (fun r fs => at_most random_frame (fst r) fs).
Proof.
  unfold random.
  issues_step. issues_step; [issues_step; issues_done|].
  eapply issues_bind; [apply issues_random_loop_32|].
  intros [ok d] f1 [Hf [Hs Hr]]. cbn [fst] in *.
  destruct (ok =? 0) eqn:E.
  - apply issues_ret. rewrite app_nil_r. cbn [fst].
    split; [exact Hf | split; [intros Hne; now elim Hne | auto]].
  - apply Z.eqb_neq in E. rewrite (Hs E).
    repeat issues_step; issues_done.
Qed.

(** The loop of [writeConfiguration] writes the words at [offsets_from],
    in that order, up to the first write that fails. *)
Lemma issues_writeConfiguration_loop (data : list Z) (fuel : nat) :
  forall i,
    issues (D := D) (writeConfiguration_loop fuel i data)
      (fun r fs => exists k,
           fs = firstn k (map (write_frame data) (offsets_from fuel i))
           /\ (r = 1 -> k = length (offsets_from fuel i))
           /\ (r = 0 \/ r = 1)).
Proof.
  induction fuel as [|fuel IH]; intros i;
    cbn [writeConfiguration_loop offsets_from].
  - apply issues_ret. exists 0%nat. auto.
  - destruct (i <? 128); [|apply issues_ret; exists 0%nat; auto].
    destruct (i =? 84); [apply IH|].
    eapply issues_bind; [apply issues_write|].
    intros a f1 H. change (at_most (write_frame data i) a f1) in H.
    destruct H as [Hf [Hs Hr]].
    destruct (a =? 0) eqn:E.
    + apply issues_ret. rewrite app_nil_r.
      destruct Hf as [-> | ->]; [exists 0%nat | exists 1%nat];
        (split; [reflexivity | split; [intros H01; discriminate H01 | auto]]).
    + apply Z.eqb_neq in E. rewrite (Hs E).
      eapply issues_weaken; [apply IH|].
      intros r fs [k [-> [Hk Hr']]]. exists (S k).
      split; [reflexivity | split; [|exact Hr']].
      intros Hr1. cbn [length]. now rewrite (Hk Hr1).
Qed.

End Composites.

Section Fuel.

Context {D : Type} {W : TwoWire D}.

(** The loop of [writeConfiguration] leaves by its own test [i < 128]:
    fuel beyond the passes it makes changes nothing. *)
Lemma writeConfiguration_loop_fuel (data : list Z) (fuel extra : nat) :
  forall (i : Z) (s : ECC508Class D),
    128 <= i + 4 * Z.of_nat fuel ->
    writeConfiguration_loop (fuel + extra) i data s
    = writeConfiguration_loop fuel i data s.
Proof.
  induction fuel as [|fuel IH]; intros i s Hi.
  - cbn [Nat.add writeConfiguration_loop].
    destruct extra as [|extra]; [reflexivity|].
    cbn [writeConfiguration_loop].
    destruct (Z.ltb_spec i 128) as [Hlt | Hge]; [lia | reflexivity].
  - cbn [Nat.add writeConfiguration_loop].
    destruct (i <? 128); [|reflexivity].
    destruct (i =? 84); [apply IH; lia|].
    unfold bind. destruct (write 0 (i / 4) (skipn (Z.to_nat i) data) 4 s) as [r s1].
    destruct (r =? 0); [reflexivity | apply IH; lia].
Qed.

(** The loop of [random] leaves by its own test [length != 0]. *)
Lemma random_loop_fuel (fuel extra : nat) :
  forall (data : list Z) (offset length : nat) (s : ECC508Class D),
    (length <= fuel)%nat ->
    random_loop (fuel + extra) data offset length s
    = random_loop fuel data offset length s.
Proof.
  induction fuel as [|fuel IH]; intros data offset length s Hl.
  - assert (length = 0%nat) as -> by lia.
    cbn [Nat.add random_loop]. destruct extra; reflexivity.
  - cbn [Nat.add random_loop].
    destruct (length =? 0)%nat eqn:E0; [reflexivity|].
    apply Nat.eqb_neq in E0.
    unfold bind. destruct (sendCommand 27 0 0 [] s) as [sent s1].
    destruct (sent =? 0); [reflexivity|].
    destruct (delay 23 s1) as [[] s2].
    destruct (receiveResponse (repeat 0 32%nat) 32 s2) as [[ok response] s3].
    destruct (ok =? 0); [reflexivity|].
    apply IH. lia.
Qed.

End Fuel.

(** The fields of a command frame, read back. *)
Lemma command_frame_fields (opcode param1 param2 : Z) (data : list Z) :
  0 <= opcode < 256 -> 0 <= param1 < 256 -> 0 <= param2 < 65536 ->
  frame_opcode (command_frame opcode param1 param2 data) = opcode
  /\ frame_param1 (command_frame opcode param1 param2 data) = param1
  /\ frame_address (command_frame opcode param1 param2 data) = param2.
Proof.
  intros Ho Hp1 Hp2. rewrite command_frame_layout.
  unfold frame_opcode, frame_param1, frame_address, command_body.
  rewrite (uint16_small param2), le16_small by assumption.
  cbn [nth app]. rewrite !uint8_small by lia.
  split; [reflexivity | split; [reflexivity|]].
  pose proof (Z.div_mod param2 256). lia.
Qed.

Lemma write_frame_fields (data : list Z) (i : Z) :
  0 <= i < 128 ->
  frame_opcode (write_frame data i) = 0x12
  /\ frame_address (write_frame data i) = i / 4.
Proof.
  intros Hi. unfold write_frame.
  assert (Hq : 0 <= i / 4 < 65536).
  { split; [apply Z.div_pos; lia | apply Z.div_lt_upper_bound; lia]. }
  destruct (command_frame_fields 0x12 0 (i / 4)
              (firstn 4 (skipn (Z.to_nat i) data))) as [Ho [_ Ha]];
    [lia | lia | exact Hq |].
  split; [exact Ho | exact Ha].
Qed.

(** ** Locking *)

Section Lock.

Context {D : Type} {W : TwoWire D}.

Lemma lock_zone_result (zone : Z) (s : ECC508Class D) :
  fst (lock_zone zone s) = 0 \/ fst (lock_zone zone s) = 1.
Proof.
  destruct (issues_lock_zone zone s) as [_ [fs [_ [_ [_ H]]]]]. exact H.
Qed.

(** C6. [lock()] runs the zone lock of zone 0 and then, only when that one
    succeeded, the zone lock of zone 1: when zone 0 fails the result is 0
    and the driver is left where the zone-0 lock left it; otherwise the
    result and the final state are those of the zone-1 lock run from
    there. On the bus, the lock frames sent are an initial part of
    [zone 0; zone 1]: never the frame of zone 1 without the frame of
    zone 0 before it, at most the frame of zone 0 when zone 0 fails, and
    both when [lock()] succeeds. *)
Theorem lock_config_before_data (s : ECC508Class D) :
  let r0 := lock_zone 0 s in
  let r1 := lock_zone 1 (snd r0) in
  (fst r0 = 0 -> lock s = (0, snd r0))
  /\ (fst r0 <> 0 -> lock s = r1)
  /\ (exists k,
        commands (trace (snd (lock s)))
        = commands (trace s) ++ firstn k [lock_frame 0; lock_frame 1]
        /\ (fst r0 = 0 -> (k <= 1)%nat)
        /\ (fst (lock s) = 1 -> k = 2%nat))
  /\ frame_opcode (lock_frame 0) = 0x17 /\ frame_param1 (lock_frame 0) = 0x80
  /\ frame_opcode (lock_frame 1) = 0x17 /\ frame_param1 (lock_frame 1) = 0x81.
Proof.
  intros r0 r1.
  assert (Hfail : fst r0 = 0 -> lock s = (0, snd r0)).
  { intros H0. unfold lock, bind. fold r0. destruct r0 as [a s0].
    cbn [fst snd] in *. subst a. reflexivity. }
  assert (Hok : fst r0 <> 0 -> lock s = r1).
  { intros H0. unfold lock, bind. subst r1. fold r0. destruct r0 as [a s0].
    cbn [fst snd] in *. apply Z.eqb_neq in H0. rewrite H0.
    pose proof (lock_zone_result 1 s0) as Hr.
    destruct (lock_zone 1 s0) as [b s1]. cbn [fst] in Hr.
    destruct Hr as [-> | ->]; reflexivity. }
  split; [exact Hfail | split; [exact Hok | split; [|repeat split]]].
  destruct (issues_lock_zone 0 s) as [_ [f0 [Hc0 [Hf0 [Hs0 _]]]]].
  fold r0 in Hc0, Hs0.
  destruct (Z.eq_dec (fst r0) 0) as [E0 | E0].
  - rewrite (Hfail E0). cbn [fst snd]. rewrite Hc0.
    destruct Hf0 as [-> | ->]; [exists 0%nat | exists 1%nat];
      (split; [reflexivity | split; [intros; lia | intros H01; discriminate H01]]).
  - rewrite (Hok E0). rewrite (Hs0 E0) in Hc0.
    destruct (issues_lock_zone 1 (snd r0)) as [_ [f1 [Hc1 [Hf1 [Hs1 _]]]]].
    fold r1 in Hc1, Hs1. rewrite Hc1, Hc0, <- app_assoc.
    destruct Hf1 as [-> | ->]; [exists 1%nat | exists 2%nat];
      (split; [reflexivity | split; [intros Hz; now elim E0|]]).
    + intros H1. assert (Hne : fst r1 <> 0) by lia.
      specialize (Hs1 Hne). discriminate Hs1.
    + reflexivity.
Qed.

End Lock.

(** A part that refuses the configuration lock is never asked for the data
    lock; a willing part is asked for both, configuration first. *)
Lemma lock_config_before_data_witness :
  lock (Sim.ECC508 Sim.unlockable)
  = (0, snd (lock_zone 0 (Sim.ECC508 Sim.unlockable)))
  /\ lock (Sim.ECC508 Sim.device)
     = lock_zone 1 (snd (lock_zone 0 (Sim.ECC508 Sim.device))).
Proof.
  split.
  - apply (lock_config_before_data (Sim.ECC508 Sim.unlockable)).
    vm_compute. reflexivity.
  - apply (lock_config_before_data (Sim.ECC508 Sim.device)).
    vm_compute. discriminate.
Defined.

(** ** Writing the configuration zone *)

Lemma offsets_from_entry : offsets_from 29 16 = writable_offsets.
Proof. reflexivity. Qed.

(** Among the 32 words of the zone, the writable ones are all but the four
    words of the header and the word at offset 84. *)
Lemma writable_offsets_spec (word : Z) :
  0 <= word < 32 ->
  (In (4 * word) writable_offsets <-> 4 <= word /\ word <> 21).
Proof.
  intros H.
  assert (Hcases : In word (map Z.of_nat (seq 0 32))).
  { replace word with (Z.of_nat (Z.to_nat word)) by lia.
    apply in_map, in_seq. lia. }
  cbn in Hcases.
  repeat (destruct Hcases as [<- | Hcases];
          [ cbn; split; [intros Hin; repeat (destruct Hin as [Hin | Hin]; try lia)
                        | intros [? ?]; try lia; tauto ] | ]).
  contradiction.
Qed.

Section WriteConfiguration.

Context {D : Type} {W : TwoWire D}.

(** C5, amended. Whatever the buffer holds and whatever the bus does,
    [writeConfiguration] sends write commands (opcode 0x12, one 4-byte
    word each) for the words at the writable offsets only, in ascending
    order; it never sends one for a word of [0,16) or for the word
    [84,88). It stops at the first write that fails; when it returns 1 it
    has sent the write of every one of the 27 writable words. It returns 0
    or 1, and its loop ends by its own test. *)
Theorem writeConfiguration_writes_writable_words (data : list Z)
        (s : ECC508Class D) :
  (exists k,
      commands (trace (snd (writeConfiguration data s)))
      = commands (trace s) ++ firstn k (map (write_frame data) writable_offsets)
      /\ (fst (writeConfiguration data s) = 1 -> k = length writable_offsets))
  /\ (fst (writeConfiguration data s) = 0 \/ fst (writeConfiguration data s) = 1)
  /\ Forall (fun i => 16 <= i /\ i + 4 <= 128 /\ (i + 4 <= 84 \/ 88 <= i)
                      /\ i mod 4 = 0
                      /\ frame_opcode (write_frame data i) = 0x12
                      /\ frame_address (write_frame data i) = i / 4)
            writable_offsets
  /\ (forall word, 0 <= word < 32 ->
        (In (4 * word) writable_offsets <-> 4 <= word /\ word <> 21))
  /\ (forall extra,
        writeConfiguration_loop (29 + extra) 16 data s = writeConfiguration data s).
Proof.
  unfold writeConfiguration.
  destruct (issues_writeConfiguration_loop data 29 16 s)
    as [_ [fs [Hc [k [-> [Hk Hr]]]]]].
  rewrite offsets_from_entry in *.
  split; [exists k; split; assumption | split; [exact Hr | split; [|split]]].
  - unfold writable_offsets.
    repeat (apply Forall_cons;
            [ split; [lia | split; [lia | split; [lia | split; [reflexivity|]]]];
              apply write_frame_fields; lia
            | ]).
    apply Forall_nil.
  - apply writable_offsets_spec.
  - intros extra. apply writeConfiguration_loop_fuel. lia.
Qed.

End WriteConfiguration.

(** On a part that answers every write, all 27 writable words are written. *)
Lemma writeConfiguration_complete_on_success :
  fst (writeConfiguration (repeat 0xFF 128) (Sim.ECC508 Sim.device)) = 1
  /\ map frame_address
       (commands (trace (snd (writeConfiguration (repeat 0xFF 128)
                                                 (Sim.ECC508 Sim.device)))))
     = map (fun i => i / 4) writable_offsets.
Proof. vm_compute. split; reflexivity. Qed.

(** When the bus does not acknowledge the first write, the words behind it
    are not written although none of them is masked. *)
Lemma writeConfiguration_stops_at_failed_write :
  fst (writeConfiguration (repeat 0xFF 128) (Sim.ECC508 Sim.deaf)) = 0
  /\ map frame_address
       (commands (trace (snd (writeConfiguration (repeat 0xFF 128)
                                                 (Sim.ECC508 Sim.deaf)))))
     = [4]
  /\ ~ In (write_frame (repeat 0xFF 128) 20)
          (commands (trace (snd (writeConfiguration (repeat 0xFF 128)
                                                    (Sim.ECC508 Sim.deaf))))).
Proof.
  split; [vm_compute; reflexivity | split; [vm_compute; reflexivity|]].
  vm_compute. intros [H | []]. discriminate.
Qed.

Lemma writeConfiguration_writes_writable_words_witness :
  exists k,
    commands (trace (snd (writeConfiguration (repeat 0xFF 128)
                                             (Sim.ECC508 Sim.device))))
    = commands (trace (Sim.ECC508 Sim.device))
        ++ firstn k (map (write_frame (repeat 0xFF 128)) writable_offsets)
    /\ k = 27%nat.
Proof.
  destruct (writeConfiguration_writes_writable_words
              (repeat 0xFF 128) (Sim.ECC508 Sim.device)) as [[k [Hc Hk]] _].
  exists k. split; [exact Hc | apply Hk; vm_compute; reflexivity].
Defined.

(** ** Signing *)

Section Sign.

Context {D : Type} {W : TwoWire D}.

Lemma sign_result (slot : Z) (signature : list Z) (s : ECC508Class D) :
  fst (fst (sign slot signature s)) = 0 \/ fst (fst (sign slot signature s)) = 1.
Proof.
  destruct (issues_sign slot signature s) as [_ [fs [_ [_ [_ H]]]]]. exact H.
Qed.

(** A successful [sign] went through the wake sequence, had its command
    acknowledged, and returns the 64 payload bytes of the response frame
    the device answered with. *)
Lemma sign_success (slot : Z) (signature signature' : list Z)
      (s s' : ECC508Class D) :
  sign slot signature s = ((1, signature'), s') ->
  exists s1 s2 responseBuffer s3,
    wakeup s = (1, s1)
    /\ sendCommand 0x41 0x80 slot [] s1 = (1, s2)
    /\ poll 20 67 (snd (delay 50 s2)) = (responseBuffer, s3)
    /\ nth 0 responseBuffer 0 = 67
    /\ signature' = memcpy signature (skipn 1 responseBuffer) 64.
Proof.
  unfold sign, bind, ret.
  pose proof (issues_wakeup s) as [_ [? [_ [_ Hw]]]].
  destruct (wakeup s) as [awake s1] eqn:Ew. cbn [fst] in Hw.
  destruct Hw as [-> | ->]; cbn [Z.eqb]; [intros H; discriminate H|].
  pose proof (issues_sendCommand 0x41 0x80 slot [] s1) as [_ [? [_ [_ Hs]]]].
  destruct (sendCommand 0x41 0x80 slot [] s1) as [sent s2] eqn:Es.
  cbn [fst] in Hs.
  destruct Hs as [-> | ->]; cbn [Z.eqb]; [intros H; discriminate H|].
  unfold receiveResponse, bind, ret. cbn [Nat.add].
  destruct (delay 50 s2) as [[] s2'] eqn:Ed.
  destruct (poll 20 67 s2') as [responseBuffer s3] eqn:Ep.
  destruct (nth 0 responseBuffer 0 =? Z.of_nat 67) eqn:Elen; cbn [negb];
    [|intros H; discriminate H].
  match goal with
  | |- context [if negb ?c then _ else _] => destruct c; cbn [negb]
  end; [|intros H; discriminate H].
  cbn [Z.eqb]. destruct (delay 1 s3) as [[] s4]. destruct (idle s4) as [i s5].
  intros H. injection H as <- <-.
  exists s1, s2, responseBuffer, s3. apply Z.eqb_eq in Elen.
  rewrite Ed. cbn [snd].
  split; [reflexivity | split; [exact Es | split; [exact Ep|]]].
  split; [exact Elen | reflexivity].
Qed.

(** C7. [ecSign] runs, in this order and each only when the one before it
    succeeded, the generation of 32 random bytes, the challenge (nonce)
    command loading the message, and the signature over the slot. A
    failing step makes the result 0, leaves the caller's signature buffer
    as it was and leaves the driver where that step left it. On the bus,
    the commands sent are an initial part of [random; nonce with the
    message; sign with the slot], all three when the result is 1; and on
    success the 64 bytes returned are the payload of the response frame
    read back after the sign command. *)
Theorem ecSign_three_steps (slot : Z) (message signature : list Z)
        (s : ECC508Class D) :
  let r := random (repeat 0 32%nat) 32 s in
  let c := challenge message (snd r) in
  let g := sign slot signature (snd c) in
  (fst (fst r) = 0 -> ecSign slot message signature s = ((0, signature), snd r))
  /\ (fst (fst r) <> 0 -> fst c = 0 ->
      ecSign slot message signature s = ((0, signature), snd c))
  /\ (fst (fst r) <> 0 -> fst c <> 0 ->
      ecSign slot message signature s = g)
  /\ (fst (fst g) = 0 -> snd (fst g) = signature)
  /\ (exists k,
        commands (trace (snd (ecSign slot message signature s)))
        = commands (trace s)
            ++ firstn k [random_frame; nonce_frame message; sign_frame slot]
        /\ (fst (fst (ecSign slot message signature s)) = 1 -> k = 3%nat))
  /\ (fst (fst (ecSign slot message signature s)) = 1 ->
      exists s1 s2 responseBuffer s3,
        wakeup (snd c) = (1, s1)
        /\ sendCommand 0x41 0x80 slot [] s1 = (1, s2)
        /\ poll 20 67 (snd (delay 50 s2)) = (responseBuffer, s3)
        /\ nth 0 responseBuffer 0 = 67
        /\ snd (fst (ecSign slot message signature s))
           = memcpy signature (skipn 1 responseBuffer) 64).
Proof.
  intros r c g.
  assert (H1 : fst (fst r) = 0 ->
               ecSign slot message signature s = ((0, signature), snd r)).
  { intros E. unfold ecSign, bind. fold r. destruct r as [[ok rnd] s1].
    cbn [fst snd] in *. subst ok. reflexivity. }
  assert (H2 : fst (fst r) <> 0 -> fst c = 0 ->
               ecSign slot message signature s = ((0, signature), snd c)).
  { intros E Ec. unfold ecSign, bind. subst c. fold r.
    destruct r as [[ok rnd] s1]. cbn [fst snd] in *.
    apply Z.eqb_neq in E. rewrite E.
    destruct (challenge message s1) as [cr s2]. cbn [fst snd] in *.
    subst cr. reflexivity. }
  assert (Hg0 : fst (fst g) = 0 -> snd (fst g) = signature).
  { subst g. generalize (snd c). intros s2. unfold sign, bind, ret.
    destruct (wakeup s2) as [awake s3].
    destruct (awake =? 0); [reflexivity|].
    destruct (sendCommand 65 128 slot [] s3) as [sent s4].
    destruct (sent =? 0); [reflexivity|].
    destruct (delay 50 s4) as [[] s5].
    unfold receiveResponse, bind, ret.
    destruct (poll 20 (64 + 3) s5) as [buf s6].
    destruct (negb _); [reflexivity|].
    destruct (negb _); [reflexivity|].
    cbn [Z.eqb]. destruct (delay 1 s6) as [[] s7].
    destruct (idle s7) as [i s8]. cbn [fst snd]. intros H; discriminate H. }
  assert (H3 : fst (fst r) <> 0 -> fst c <> 0 ->
               ecSign slot message signature s = g).
  { intros E Ec. unfold ecSign, bind. subst g c. fold r.
    destruct r as [[ok rnd] s1]. cbn [fst snd] in *.
    apply Z.eqb_neq in E. rewrite E.
    destruct (challenge message s1) as [cr s2]. cbn [fst snd] in *.
    apply Z.eqb_neq in Ec. rewrite Ec.
    pose proof (sign_result slot signature s2) as Hr.
    destruct (sign slot signature s2) as [[ok' sig'] s3]. cbn [fst snd] in *.
    destruct Hr as [-> | ->]; cbn [Z.eqb]; [|reflexivity].
    now rewrite (Hg0 eq_refl). }
  split; [exact H1 | split; [exact H2 | split; [exact H3 | split; [exact Hg0|]]]].
  destruct (issues_random_32 (repeat 0 32%nat) s) as [_ [f1 [Hc1 [Hf1 [Hs1 _]]]]].
  fold r in Hc1, Hs1.
  destruct (issues_challenge message (snd r)) as [_ [f2 [Hc2 [Hf2 [Hs2 _]]]]].
  fold c in Hc2, Hs2.
  destruct (issues_sign slot signature (snd c)) as [_ [f3 [Hc3 [Hf3 [Hs3 _]]]]].
  fold g in Hc3, Hs3.
  destruct (Z.eq_dec (fst (fst r)) 0) as [E | E].
  { rewrite (H1 E). cbn [fst snd]. split; [|intros H01; discriminate H01].
    rewrite Hc1.
    destruct Hf1 as [-> | ->]; [exists 0%nat | exists 1%nat];
      (split; [reflexivity | intros H01; discriminate H01]). }
  rewrite (Hs1 E) in Hc1.
  destruct (Z.eq_dec (fst c) 0) as [Ec | Ec].
  { rewrite (H2 E Ec). cbn [fst snd]. split; [|intros H01; discriminate H01].
    rewrite Hc2, Hc1, <- app_assoc.
    destruct Hf2 as [-> | ->]; [exists 1%nat | exists 2%nat];
      (split; [reflexivity | intros H01; discriminate H01]). }
  rewrite (Hs2 Ec) in Hc2. rewrite (H3 E Ec). split.
  - rewrite Hc3, Hc2, Hc1, <- !app_assoc.
    destruct Hf3 as [-> | ->]; [exists 2%nat | exists 3%nat];
      (split; [reflexivity|]).
    + intros Hg1. assert (Hne : fst (fst g) <> 0) by lia.
      specialize (Hs3 Hne). discriminate Hs3.
    + reflexivity.
  - intros Hg1. destruct g as [[ok sig'] s'] eqn:Eg. cbn [fst snd] in *.
    subst ok. exact (sign_success slot signature sig' (snd c) s' Eg).
Qed.

End Sign.

(** ** Receiving a response *)

Lemma as_buffer_bytes (quantity : nat) (bytes : list Z) :
  Forall is_byte (as_buffer quantity bytes).
Proof.
  unfold as_buffer. apply Forall_map. apply Forall_forall.
  intros x _. apply uint8_range.
Qed.

Lemma as_buffer_length (quantity : nat) (bytes : list Z) :
  length (as_buffer quantity bytes) = quantity.
Proof.
  unfold as_buffer. rewrite length_map, firstn_length_le; [reflexivity|].
  rewrite length_app, repeat_length. lia.
Qed.

Lemma nth_byte (l : list Z) (i : nat) : Forall is_byte l -> is_byte (nth i l 0).
Proof.
  intros H. destruct (Nat.lt_ge_cases i (length l)) as [Hlt | Hge].
  - apply (proj1 (Forall_forall _ _) H). now apply nth_In.
  - rewrite nth_overflow by assumption. unfold is_byte. lia.
Qed.

Section Receive.

Context {D : Type} {W : TwoWire D}.

Lemma poll_buffer (retries responseSize : nat) (s : ECC508Class D) :
  Forall is_byte (fst (poll retries responseSize s))
  /\ length (fst (poll retries responseSize s)) = responseSize.
Proof.
  revert s. induction retries as [|retries IH]; intros s; cbn [poll];
    unfold wire_requestFrom;
    destruct (requestFrom _ _ _) as [[n bytes] d];
    destruct (n =? Z.of_nat responseSize); cbn [fst];
    try (split; [apply as_buffer_bytes | apply as_buffer_length]).
  apply IH.
Qed.

(** A read that returns the whole frame is not repeated. *)
Lemma poll_complete_read (retries responseSize : nat) (s : ECC508Class D) :
  fst (fst (wire_requestFrom (_address s) responseSize s)) = Z.of_nat responseSize ->
  poll retries responseSize s
  = (snd (fst (wire_requestFrom (_address s) responseSize s)),
     snd (wire_requestFrom (_address s) responseSize s)).
Proof.
  intros H. destruct retries; cbn [poll];
    destruct (wire_requestFrom _ _ s) as [[n buf] s1]; cbn [fst snd] in *;
    apply Z.eqb_eq in H; rewrite H; reflexivity.
Qed.

Lemma wire_requestFrom_trace (a : Z) (quantity : nat) (s : ECC508Class D) :
  trace (snd (wire_requestFrom a quantity s)) = trace s ++ [RequestFrom a quantity].
Proof.
  unfold wire_requestFrom. destruct (requestFrom _ _ _) as [[n bytes] d].
  reflexivity.
Qed.

(** [receiveResponse] as a judgement on the polled buffer. *)
Lemma receiveResponse_judges (response : list Z) (length : nat)
      (s : ECC508Class D) :
  let polled := poll 20 (length + 3) s in
  let responseBuffer := fst polled in
  let trailing :=
    nth (length + 1) responseBuffer 0 + 256 * nth (length + 2) responseBuffer 0 in
  let computed := crc16 (Some (firstn (length + 1) responseBuffer)) (length + 1) in
  receiveResponse response length s
  = (if negb (nth 0 responseBuffer 0 =? Z.of_nat (length + 3)) then (0, response)
     else if negb (trailing =? computed) then (0, response)
     else (1, firstn length (skipn 1 responseBuffer) ++ skipn length response),
     snd polled).
Proof.
  intros polled responseBuffer trailing computed.
  destruct (poll_buffer 20 (length + 3) s) as [Hbytes Hlen].
  fold polled in Hbytes, Hlen. fold responseBuffer in Hbytes, Hlen.
  assert (Hcrc : crc16 (Some responseBuffer) (length + 3 - 2) = computed).
  { unfold computed.
    replace (length + 3 - 2)%nat with (length + 1)%nat by lia.
    assert (Hl : List.length (firstn (length + 1) responseBuffer) = (length + 1)%nat).
    { apply firstn_length_le. lia. }
    pose proof (crc16_prefix (firstn (length + 1) responseBuffer)
                             (skipn (length + 1) responseBuffer)) as E.
    rewrite firstn_skipn, Hl in E. exact E. }
  assert (Htrail :
            uint16 (Z.lor (nth (length + 1) responseBuffer 0)
                          (Z.shiftl (nth (length + 2) responseBuffer 0) 8))
            = trailing).
  { pose proof (nth_byte responseBuffer (length + 1) Hbytes) as Hlo.
    pose proof (nth_byte responseBuffer (length + 2) Hbytes) as Hhi.
    unfold is_byte in Hlo, Hhi. rewrite lor_shiftl_8 by lia.
    apply uint16_small. unfold trailing. lia. }
  assert (Hcopy : memcpy response (skipn 1 responseBuffer) length
                  = firstn length (skipn 1 responseBuffer) ++ skipn length response).
  { unfold memcpy, store. cbn [firstn app Nat.add].
    rewrite firstn_length_le; [reflexivity|]. rewrite length_skipn. lia. }
  unfold receiveResponse, bind, ret. fold polled.
  rewrite (surjective_pairing polled). fold responseBuffer.
  rewrite Htrail, Hcrc, Hcopy.
  destruct (negb (nth 0 responseBuffer 0 =? Z.of_nat (length + 3)));
    [reflexivity|].
  destruct (negb (trailing =? computed)); reflexivity.
Qed.

(** C4. [receiveResponse] polls the bus for the frame and then judges the
    buffer without touching the bus again: it returns 0 and leaves the
    caller's buffer alone when the length byte is not the payload length
    plus 3, and when the two trailing bytes, low byte first, are not the
    checksum of the length byte and payload; it returns 1 with the payload
    copied out when both hold. A frame that was read whole on the first
    attempt and fails a check is rejected after that one read. *)
Theorem receiveResponse_validates (response : list Z) (length : nat)
        (s : ECC508Class D) :
  let responseSize := (length + 3)%nat in
  let polled := poll 20 responseSize s in
  let responseBuffer := fst polled in
  let declared := nth 0 responseBuffer 0 in
  let trailing :=
    nth (length + 1) responseBuffer 0 + 256 * nth (length + 2) responseBuffer 0 in
  let computed := crc16 (Some (firstn (length + 1) responseBuffer)) (length + 1) in
  let result := receiveResponse response length s in
  snd result = snd polled
  /\ (declared <> Z.of_nat length + 3 -> fst result = (0, response))
  /\ (trailing <> computed -> fst result = (0, response))
  /\ (declared = Z.of_nat length + 3 -> trailing = computed ->
      fst result
      = (1, firstn length (skipn 1 responseBuffer) ++ skipn length response))
  /\ (fst (fst (wire_requestFrom (_address s) responseSize s))
      = Z.of_nat responseSize ->
      (declared <> Z.of_nat length + 3 \/ trailing <> computed) ->
      fst result = (0, response)
      /\ trace (snd result) = trace s ++ [RequestFrom (_address s) responseSize]).
Proof.
  intros responseSize polled responseBuffer declared trailing computed result.
  pose proof (receiveResponse_judges response length s) as Hres.
  cbv zeta in Hres. fold responseSize polled in Hres.
  fold responseBuffer in Hres. fold declared trailing computed result in Hres.
  assert (Hsize : Z.of_nat responseSize = Z.of_nat length + 3)
    by (unfold responseSize; lia).
  assert (Hbad : declared <> Z.of_nat length + 3 \/ trailing <> computed ->
                 fst result = (0, response)).
  { intros Hor. rewrite Hres. cbn [fst].
    destruct (Z.eqb_spec declared (Z.of_nat responseSize)) as [E | E];
      cbn [negb]; [|reflexivity].
    destruct (Z.eqb_spec trailing computed) as [E' | E'];
      cbn [negb]; [|reflexivity].
    destruct Hor as [Hd | Ht]; [lia | now elim Ht]. }
  split; [rewrite Hres; reflexivity|].
  split; [intros; apply Hbad; now left|].
  split; [intros; apply Hbad; now right|].
  split.
  - intros Hd Ht. rewrite Hres. cbn [fst].
    rewrite <- Hsize in Hd. apply Z.eqb_eq in Hd, Ht. rewrite Hd, Ht.
    reflexivity.
  - intros Hfull Hor. split; [now apply Hbad|].
    rewrite Hres. cbn [snd]. unfold polled.
    rewrite (poll_complete_read 20 responseSize s Hfull). cbn [snd].
    apply wire_requestFrom_trace.
Qed.

End Receive.

(** ** Zone reads and writes *)

Section ZoneAccess.

Context {D : Type} {W : TwoWire D}.

Lemma poll_address (retries responseSize : nat) (s : ECC508Class D) :
  _address (snd (poll retries responseSize s)) = _address s.
Proof. apply (issues_poll retries responseSize s). Qed.

(** Polling makes between one and [retries + 1] reads, and nothing else. *)
Lemma poll_trace (retries responseSize : nat) (s : ECC508Class D) :
  exists n,
    (1 <= n <= S retries)%nat
    /\ trace (snd (poll retries responseSize s))
       = trace s ++ repeat (RequestFrom (_address s) responseSize) n.
Proof.
  revert s. induction retries as [|retries IH]; intros s; cbn [poll];
    pose proof (wire_requestFrom_trace (_address s) responseSize s) as Ht;
    pose proof (proj1 (issues_wire_requestFrom (_address s) responseSize s)) as Ha;
    destruct (wire_requestFrom _ _ s) as [[n buf] s1]; cbn [snd] in Ht, Ha;
    destruct (n =? Z.of_nat responseSize);
    try (exists 1%nat; split; [lia | exact Ht]).
  destruct (IH s1) as [m [Hm Hs1]]. exists (S m). split; [lia|].
  rewrite Hs1, Ht, Ha, <- app_assoc. reflexivity.
Qed.

(** The wake sequence: the general call, the settle time, and the polling
    of the one-byte wake response. *)
Lemma wakeup_trace (s : ECC508Class D) :
  exists n,
    (1 <= n <= 21)%nat
    /\ trace (snd (wakeup s))
       = trace s ++ [Transmission 0x00 []; DelayMicroseconds 800]
           ++ repeat (RequestFrom (_address s) 4) n.
Proof.
  unfold wakeup, bind, wire_transmission, delayMicroseconds.
  destruct (endTransmission 0 [] (_wire s)) as [status d].
  rewrite receiveResponse_judges. cbn [Nat.add].
  set (s1 := emit (DelayMicroseconds 800) _ _).
  destruct (poll_trace 20 4 s1) as [n [Hn Ht]].
  exists n. split; [exact Hn|].
  assert (Hfinal : forall r : Z * list Z,
             trace (snd ((let '(ok, response) := r in
                          if (ok =? 0) || negb (nth 0 response 0 =? 17)
                          then ret 0 else ret 1) (snd (poll 20 4 s1))))
             = trace (snd (poll 20 4 s1))).
  { intros [ok response]. destruct (_ || _); reflexivity. }
  rewrite Hfinal, Ht. subst s1. cbn [emit trace _address _wire].
  rewrite <- !app_assoc. reflexivity.
Qed.

Lemma wakeup_commands (s : ECC508Class D) :
  commands (trace (snd (wakeup s))) = commands (trace s).
Proof.
  destruct (issues_wakeup s) as [_ [fs [Hc [-> _]]]].
  now rewrite app_nil_r in Hc.
Qed.

(** C1, amended. A zone read or write whose length is neither 4 nor 32
    fails, and sends no command frame: the driver is left exactly where
    the wake sequence leaves it. The wake sequence itself is run first
    (the general call, the settle delay and one to 21 reads of the
    one-byte wake response), so the rejection is not free of bus
    traffic. *)
Theorem zone_length_rejected_after_wake (zone address : Z) (buffer : list Z)
        (length : Z) (s : ECC508Class D) :
  length <> 4 -> length <> 32 ->
  read zone address buffer length s = ((0, buffer), snd (wakeup s))
  /\ write zone address buffer length s = (0, snd (wakeup s))
  /\ commands (trace (snd (wakeup s))) = commands (trace s)
  /\ exists n,
      (1 <= n <= 21)%nat
      /\ trace (snd (wakeup s))
         = trace s ++ [Transmission 0x00 []; DelayMicroseconds 800]
             ++ repeat (RequestFrom (_address s) 4) n.
Proof.
  intros H4 H32.
  apply Z.eqb_neq in H4, H32.
  split; [|split; [|split; [apply wakeup_commands | apply wakeup_trace]]].
  - unfold read, bind, ret. destruct (wakeup s) as [awake s1]. cbn [snd].
    rewrite H4, H32. cbn [negb andb]. destruct (awake =? 0); reflexivity.
  - unfold write, bind, ret. destruct (wakeup s) as [awake s1]. cbn [snd].
    rewrite H4, H32. cbn [negb andb]. destruct (awake =? 0); reflexivity.
Qed.

End ZoneAccess.

Lemma zone_length_rejected_after_wake_witness :
  read 0 0 [] 5 (Sim.ECC508 Sim.device)
  = ((0, []), snd (wakeup (Sim.ECC508 Sim.device)))
  /\ write 0 0 [1; 2; 3; 4; 5] 5 (Sim.ECC508 Sim.device)
     = (0, snd (wakeup (Sim.ECC508 Sim.device))).
Proof.
  split.
  - apply (zone_length_rejected_after_wake 0 0 [] 5 (Sim.ECC508 Sim.device));
      lia.
  - apply (zone_length_rejected_after_wake 0 0 [1; 2; 3; 4; 5] 5
             (Sim.ECC508 Sim.device)); lia.
Defined.

(** A 5-byte read and a 5-byte write are rejected, but only after the wake
    sequence has gone over the bus. *)
Lemma zone_length_rejected_with_bus_traffic :
  fst (read 0 0 [] 5 (Sim.ECC508 Sim.device)) = (0, [])
  /\ trace (snd (read 0 0 [] 5 (Sim.ECC508 Sim.device)))
     = [Transmission 0x00 []; DelayMicroseconds 800; RequestFrom 0x60 4]
  /\ fst (write 0 0 [1; 2; 3; 4; 5] 5 (Sim.ECC508 Sim.device)) = 0
  /\ trace (snd (write 0 0 [1; 2; 3; 4; 5] 5 (Sim.ECC508 Sim.device)))
     = [Transmission 0x00 []; DelayMicroseconds 800; RequestFrom 0x60 4]
  /\ trace (snd (read 0 0 [] 5 (Sim.ECC508 Sim.device)))
     <> trace (Sim.ECC508 Sim.device).
Proof.
  repeat split; try (vm_compute; reflexivity).
  vm_compute. intros H; discriminate H.
Qed.

(** ** Random bytes *)

Section Random.

Context {D : Type} {W : TwoWire D}.

Lemma wakeup_address (s : ECC508Class D) :
  _address (snd (wakeup s)) = _address s.
Proof. apply (issues_wakeup s). Qed.

(** C10. With a length of 0, and the wake sequence having succeeded,
    [random] returns 1 and the caller's buffer as it was; after the wake
    sequence it only waits a millisecond and idles the device, so no
    command frame (no random-generation command) goes out. When the wake
    sequence fails it returns 0 right there. *)
Theorem random_zero_length (data : list Z) (s : ECC508Class D) :
  (fst (wakeup s) <> 0 ->
   random data 0 s = ((1, data), snd (idle (snd (delay 1 (snd (wakeup s)))))))
  /\ (fst (wakeup s) <> 0 ->
      trace (snd (random data 0 s))
      = trace (snd (wakeup s)) ++ [Delay 1; Transmission (_address s) [0x02]])
  /\ (fst (wakeup s) <> 0 ->
      commands (trace (snd (random data 0 s))) = commands (trace s))
  /\ (fst (wakeup s) = 0 -> random data 0 s = ((0, data), snd (wakeup s))).
Proof.
  assert (Hrun : fst (wakeup s) <> 0 ->
                 random data 0 s
                 = ((1, data), snd (idle (snd (delay 1 (snd (wakeup s))))))).
  { intros Hw. unfold random. cbn [random_loop]. unfold bind, ret.
    destruct (wakeup s) as [awake s1]. cbn [fst snd] in *.
    apply Z.eqb_neq in Hw. rewrite Hw. cbv beta iota. cbn [Z.eqb].
    destruct (delay 1 s1) as [[] s2]. cbn [snd].
    destruct (idle s2) as [i s3]. reflexivity. }
  assert (Htrace : fst (wakeup s) <> 0 ->
                   trace (snd (random data 0 s))
                   = trace (snd (wakeup s))
                       ++ [Delay 1; Transmission (_address s) [0x02]]).
  { intros Hw. rewrite (Hrun Hw). cbn [snd].
    unfold idle, bind, address, wire_transmission, delay, ret.
    cbn [emit _address _wire trace snd].
    destruct (endTransmission _ _ _) as [status d].
    rewrite wakeup_address.
    destruct (negb (status =? 0)); cbn [snd emit trace];
      rewrite <- app_assoc; reflexivity. }
  split; [exact Hrun | split; [exact Htrace | split]].
  - intros Hw. rewrite (Htrace Hw), commands_app, wakeup_commands.
    apply app_nil_r.
  - intros Hw. unfold random, bind, ret.
    destruct (wakeup s) as [awake s1]. cbn [fst snd] in *. subst awake.
    reflexivity.
Qed.

End Random.

Lemma random_zero_length_witness :
  random [9; 9] 0 (Sim.ECC508 Sim.device)
  = ((1, [9; 9]),
     snd (idle (snd (delay 1 (snd (wakeup (Sim.ECC508 Sim.device)))))))
  /\ commands (trace (snd (random [9; 9] 0 (Sim.ECC508 Sim.device))))
     = commands (trace (Sim.ECC508 Sim.device)).
Proof.
  split.
  - apply (random_zero_length [9; 9] (Sim.ECC508 Sim.device)).
    vm_compute. intros H; discriminate H.
  - apply (random_zero_length [9; 9] (Sim.ECC508 Sim.device)).
    vm_compute. intros H; discriminate H.
Defined.

(** ** The lock status *)

Section Locked.

Context {D : Type} {W : TwoWire D}.

Lemma read_result (zone address : Z) (buffer : list Z) (s : ECC508Class D) :
  fst (fst (read zone address buffer 4 s)) = 0
  \/ fst (fst (read zone address buffer 4 s)) = 4.
Proof.
  destruct (issues_read zone address buffer 4 s) as [_ [fs [_ H]]].
  cbn in H. apply H.
Qed.

(** C9. [locked()] answers from one 4-byte read of the configuration zone
    at word 0x15: it returns 0 when that read fails (so also when the wake
    sequence fails: a failure looks like an unlocked device), and 1
    exactly when the read succeeds and the last two of the four bytes are
    both 0; it returns nothing but 0 or 1 and does nothing after the
    read. *)
Theorem locked_reports (s : ECC508Class D) :
  let r := read 0 0x15 (repeat 0 4%nat) 4 s in
  snd (locked s) = snd r
  /\ (fst (fst r) = 0 -> fst (locked s) = 0)
  /\ (fst (wakeup s) = 0 -> fst (locked s) = 0)
  /\ (fst (locked s) = 1 <->
      fst (fst r) = 4 /\ nth 2 (snd (fst r)) 0 = 0 /\ nth 3 (snd (fst r)) 0 = 0)
  /\ (fst (locked s) = 0 \/ fst (locked s) = 1).
Proof.
  intros r.
  assert (Hl : locked s
               = (if fst (fst r) =? 0 then 0
                  else if (nth 2 (snd (fst r)) 0 =? 0) && (nth 3 (snd (fst r)) 0 =? 0)
                       then 1 else 0, snd r)).
  { unfold locked, bind, ret. fold r. destruct r as [[ok config] s1].
    cbn [fst snd]. destruct (ok =? 0); [reflexivity|].
    destruct (_ && _); reflexivity. }
  pose proof (read_result 0 0x15 (repeat 0 4%nat) s) as Hr. fold r in Hr.
  rewrite Hl. cbn [fst snd].
  split; [reflexivity | split; [|split; [|split]]].
  - intros ->. reflexivity.
  - intros Hw.
    assert (Hr0 : fst (fst r) = 0).
    { subst r. unfold read, bind, ret. destruct (wakeup s) as [awake s1].
      cbn [fst] in Hw. subst awake. reflexivity. }
    rewrite Hr0. reflexivity.
  - destruct Hr as [-> | ->]; cbn [Z.eqb].
    + split; [intros H; discriminate H | intros [H _]; discriminate H].
    + destruct (Z.eqb_spec (nth 2 (snd (fst r)) 0) 0) as [E2 | E2];
        destruct (Z.eqb_spec (nth 3 (snd (fst r)) 0) 0) as [E3 | E3];
        cbn [andb]; split; auto;
        try (intros H; discriminate H);
        intros [_ [H2 H3]]; contradiction.
  - destruct (fst (fst r) =? 0); [now left|].
    destruct (_ && _); [now right | now left].
Qed.

End Locked.

(** A locked part reads as locked; a blank part and a part that cannot be
    talked to both read as not locked. *)
Lemma locked_reports_witness :
  fst (locked (Sim.ECC508 Sim.locked_part)) = 1
  /\ fst (locked (Sim.ECC508 Sim.device)) = 0
  /\ fst (locked (Sim.ECC508 Sim.deaf)) = 0.
Proof.
  split; [|split].
  - apply (locked_reports (Sim.ECC508 Sim.locked_part)).
    vm_compute. repeat split.
  - vm_compute. reflexivity.
  - apply (proj1 (proj2 (locked_reports (Sim.ECC508 Sim.deaf)))).
    vm_compute. reflexivity.
Defined.

(** ** Opening the device *)

(** Among 7-byte buffers, the one frame that passes the checks of
    [receiveResponse] and decodes to revision 0x500000. *)
Lemma version_buffer (responseBuffer : list Z) :
  length responseBuffer = 7%nat -> Forall is_byte responseBuffer ->
  (nth 0 responseBuffer 0 = 7
   /\ nth 5 responseBuffer 0 + 256 * nth 6 responseBuffer 0
      = crc16 (Some (firstn 5 responseBuffer)) 5
   /\ int32 (le32_decode (firstn 4 (skipn 1 responseBuffer) ++ skipn 4 [0; 0; 0; 0]))
      = 0x500000)
  <-> responseBuffer = response_frame [0x00; 0x00; 0x50; 0x00].
Proof.
  intros Hlen Hbytes.
  let v := eval vm_compute in (response_frame [0x00; 0x00; 0x50; 0x00]) in
  change (response_frame [0x00; 0x00; 0x50; 0x00]) with v.
  split.
  - destruct responseBuffer as [|b0 [|b1 [|b2 [|b3 [|b4 [|b5 [|b6 [|]]]]]]]];
      try discriminate Hlen.
    pose proof (nth_byte _ 1 Hbytes) as H1. pose proof (nth_byte _ 2 Hbytes) as H2.
    pose proof (nth_byte _ 3 Hbytes) as H3. pose proof (nth_byte _ 4 Hbytes) as H4.
    pose proof (nth_byte _ 5 Hbytes) as H5. pose proof (nth_byte _ 6 Hbytes) as H6.
    unfold is_byte in *. cbn [nth firstn skipn app] in *.
    intros [E0 [Ecrc Ever]]. unfold int32, le32_decode in Ever.
    cbn [nth] in Ever.
    assert (Esum : b1 + 256 * b2 + 65536 * b3 + 16777216 * b4 = 5242880).
    { set (x := b1 + 256 * b2 + 65536 * b3 + 16777216 * b4) in *.
      assert (Hx : 0 <= x < 4294967296) by (subst x; lia).
      destruct (Z.lt_ge_cases x 2147483648) as [Hlow | Hhigh].
      - rewrite Z.mod_small in Ever by lia. lia.
      - replace (x + 2147483648) with (x - 2147483648 + 1 * 4294967296) in Ever
          by lia.
        rewrite Z.mod_add, Z.mod_small in Ever by lia. lia. }
    assert (b4 = 0) by lia. assert (b3 = 80) by lia.
    assert (b2 = 0) by lia. assert (b1 = 0) by lia. subst b1 b2 b3 b4.
    subst b0.
    let c := eval vm_compute in (crc16 (Some [7; 0; 0; 80; 0]) 5) in
    change (crc16 (Some [7; 0; 0; 80; 0]) 5) with c in Ecrc.
    repeat f_equal; lia.
  - intros ->. vm_compute. repeat split.
Qed.

Section Begin.

Context {D : Type} {W : TwoWire D}.

Lemma wakeup_result (s : ECC508Class D) :
  fst (wakeup s) = 0 \/ fst (wakeup s) = 1.
Proof. destruct (issues_wakeup s) as [_ [fs [_ [_ H]]]]. exact H. Qed.

Lemma sendCommand_result (opcode param1 param2 : Z) (data : list Z)
      (s : ECC508Class D) :
  fst (sendCommand opcode param1 param2 data s) = 0
  \/ fst (sendCommand opcode param1 param2 data s) = 1.
Proof.
  destruct (issues_sendCommand opcode param1 param2 data s)
    as [_ [fs [_ [_ H]]]]. exact H.
Qed.

(** C8. [begin()] returns 1 exactly when, the bus being opened at
    100 kHz, the wake sequence succeeds, the version query (opcode 0x30,
    frame [03 07 30 00 00 00 03 5d]) is acknowledged, and the 7 bytes
    read back are the well-formed response frame of the four bytes
    [00 00 50 00], the value 0x500000; in every other case (a failed
    exchange, a malformed frame, any other value) it returns 0. *)
Theorem begin_checks_version (s : ECC508Class D) :
  let s0 := snd (wire_setClock 100000 (snd (wire_begin s))) in
  (fst (begin s) = 1 <->
   exists s1 s2,
     wakeup s0 = (1, s1)
     /\ sendCommand 0x30 0x00 0x0000 [] s1 = (1, s2)
     /\ fst (poll 20 7 (snd (delay 1 s2)))
        = response_frame [0x00; 0x00; 0x50; 0x00])
  /\ (fst (begin s) = 0 \/ fst (begin s) = 1)
  /\ command_frame 0x30 0x00 0x0000 []
     = [0x03; 0x07; 0x30; 0x00; 0x00; 0x00; 0x03; 0x5d]
  /\ response_frame [0x00; 0x00; 0x50; 0x00]
     = [0x07; 0x00; 0x00; 0x50; 0x00; 0x03; 0x91]
  /\ le32_decode [0x00; 0x00; 0x50; 0x00] = 0x500000.
Proof.
  intros s0.
  split; [|split; [|repeat split]].
  2: { unfold begin, bind, ret.
       destruct (wire_begin s) as [[] sa]. destruct (wire_setClock 100000 sa) as [[] sb].
       destruct (version sb) as [v sc]. destruct (negb (v =? 5242880)); auto. }
  assert (Hb : begin s
               = (if negb (fst (version s0) =? 0x500000) then 0 else 1,
                  snd (version s0))).
  { unfold begin, bind, ret. subst s0.
    destruct (wire_begin s) as [[] sa]. cbn [snd].
    destruct (wire_setClock 100000 sa) as [[] sb]. cbn [snd].
    destruct (version sb) as [v sc]. cbn [fst snd].
    destruct (negb (v =? 5242880)); reflexivity. }
  rewrite Hb. cbn [fst]. clear Hb. generalize s0. clear s s0. intros s0.
  unfold version, bind, ret.
  pose proof (wakeup_result s0) as Hw.
  destruct (wakeup s0) as [awake s1] eqn:Ew. cbn [fst] in Hw.
  destruct Hw as [-> | ->]; cbn [Z.eqb negb].
  { split; [intros H; discriminate H|].
    intros [s1' [s2' [H _]]]. discriminate H. }
  pose proof (sendCommand_result 0x30 0x00 0x0000 [] s1) as Hs.
  destruct (sendCommand 0x30 0x00 0x0000 [] s1) as [sent s2] eqn:Es.
  cbn [fst] in Hs.
  destruct Hs as [-> | ->]; cbn [Z.eqb negb].
  { split; [intros H; discriminate H|].
    intros [s1' [s2' [H1 [H2 _]]]]. injection H1 as <-.
    rewrite Es in H2. discriminate H2. }
  destruct (delay 1 s2) as [[] s2'] eqn:Ed.
  rewrite receiveResponse_judges. cbn [Nat.add].
  destruct (poll_buffer 20 7 s2') as [Hbytes Hlen].
  set (responseBuffer := fst (poll 20 7 s2')) in *.
  pose proof (version_buffer responseBuffer Hlen Hbytes) as Hv.
  assert (Hgoal :
            (exists s1' s2'',
                (1, s1) = (1, s1')
                /\ sendCommand 0x30 0x00 0x0000 [] s1' = (1, s2'')
                /\ fst (poll 20 7 (snd (delay 1 s2'')))
                   = response_frame [0x00; 0x00; 0x50; 0x00])
            <-> responseBuffer = response_frame [0x00; 0x00; 0x50; 0x00]).
  { split.
    - intros [s1' [s2'' [H1 [H2 H3]]]]. injection H1 as <-.
      rewrite Es in H2. injection H2 as <-. rewrite Ed in H3. exact H3.
    - intros H. exists s1, s2. rewrite Ed. auto. }
  rewrite Hgoal, <- Hv. clear Hgoal Hv.
  destruct (Z.eqb_spec (nth 0 responseBuffer 0) (Z.of_nat 7)) as [E0 | E0];
    cbn [negb].
  2: { cbn [Z.eqb negb]. split; [intros H; discriminate H|].
       intros [H _]. now elim E0. }
  destruct (Z.eqb_spec (nth 5 responseBuffer 0 + 256 * nth 6 responseBuffer 0)
                       (crc16 (Some (firstn 5 responseBuffer)) 5)) as [Ec | Ec];
    cbn [negb].
  2: { cbn [Z.eqb negb]. split; [intros H; discriminate H|].
       intros [_ [H _]]. now elim Ec. }
  cbn [Z.eqb]. destruct (delay 1 (snd (poll 20 7 s2'))) as [[] s4].
  destruct (idle s4) as [i s5]. cbn [fst].
  destruct (Z.eqb_spec
              (int32 (le32_decode (firstn 4 (skipn 1 responseBuffer)
                                     ++ skipn 4 [0; 0; 0; 0])))
              5242880) as [Ev | Ev]; cbn [negb].
  - split; [intros _; auto | reflexivity].
  - split; [intros H; discriminate H | intros [_ [_ H]]; now elim Ev].
Qed.

End Begin.

(** A part of revision 0x500000 opens; a part of another revision, and a
    part that does not acknowledge the query, do not. *)
Lemma begin_on_simulated_devices :
  fst (begin (Sim.ECC508 Sim.device)) = 1
  /\ fst (begin (Sim.ECC508 Sim.other_revision)) = 0
  /\ fst (begin (Sim.ECC508 Sim.deaf)) = 0
  /\ fst (begin (Sim.ECC508 Sim.bad_checksum)) = 0.
Proof. vm_compute. repeat split. Qed.

(** ** The theorems on the simulated device *)

(** A response with a spoiled length byte and one with a spoiled checksum
    byte are rejected after the single read that delivered them; the clean
    response is accepted and its payload handed over. *)
Lemma receiveResponse_validates_witness :
  fst (receiveResponse [0] 1 (Sim.ECC508 (Sim.arm [0x11] Sim.bad_length)))
  = (0, [0])
  /\ (fst (receiveResponse [0] 1 (Sim.ECC508 (Sim.arm [0x11] Sim.bad_checksum)))
      = (0, [0])
      /\ trace (snd (receiveResponse [0] 1
                       (Sim.ECC508 (Sim.arm [0x11] Sim.bad_checksum))))
         = [] ++ [RequestFrom 0x60 4])
  /\ fst (receiveResponse [0] 1 (Sim.ECC508 (Sim.arm [0x11] Sim.device)))
     = (1, [0x11]).
Proof.
  split; [|split].
  - apply (proj1 (proj2 (receiveResponse_validates
                           [0] 1 (Sim.ECC508 (Sim.arm [0x11] Sim.bad_length))))).
    vm_compute. intros H; discriminate H.
  - apply (proj2 (proj2 (proj2 (proj2 (receiveResponse_validates
             [0] 1 (Sim.ECC508 (Sim.arm [0x11] Sim.bad_checksum))))))).
    + vm_compute. reflexivity.
    + right. vm_compute. intros H; discriminate H.
  - refine (eq_trans
              (proj1 (proj2 (proj2 (proj2 (receiveResponse_validates
                 [0] 1 (Sim.ECC508 (Sim.arm [0x11] Sim.device)))))) _ _) _).
    + vm_compute. reflexivity.
    + vm_compute. reflexivity.
    + vm_compute. reflexivity.
Defined.

(** Signing on the simulated device: the three commands go out in order and
    the signature that comes back is the one the device holds; a part that
    does not acknowledge its commands stops the operation at the random
    step, a part that refuses the challenge stops it there. *)
Lemma ecSign_three_steps_witness :
  ecSign 0 (repeat 7 32) (repeat 0 64) (Sim.ECC508 Sim.deaf)
  = ((0, repeat 0 64), snd (random (repeat 0 32) 32 (Sim.ECC508 Sim.deaf)))
  /\ ecSign 0 (repeat 7 32) (repeat 0 64) (Sim.ECC508 Sim.unchallengeable)
     = ((0, repeat 0 64),
        snd (challenge (repeat 7 32)
               (snd (random (repeat 0 32) 32 (Sim.ECC508 Sim.unchallengeable)))))
  /\ ecSign 0 (repeat 7 32) (repeat 0 64) (Sim.ECC508 Sim.device)
     = sign 0 (repeat 0 64)
         (snd (challenge (repeat 7 32)
                 (snd (random (repeat 0 32) 32 (Sim.ECC508 Sim.device))))).
Proof.
  split; [|split].
  - apply (proj1 (ecSign_three_steps 0 (repeat 7 32) (repeat 0 64)
                    (Sim.ECC508 Sim.deaf))).
    vm_compute. reflexivity.
  - apply (proj1 (proj2 (ecSign_three_steps 0 (repeat 7 32) (repeat 0 64)
                           (Sim.ECC508 Sim.unchallengeable)))).
    + vm_compute. intros H; discriminate H.
    + vm_compute. reflexivity.
  - apply (proj1 (proj2 (proj2 (ecSign_three_steps 0 (repeat 7 32) (repeat 0 64)
                                  (Sim.ECC508 Sim.device))))).
    + vm_compute. intros H; discriminate H.
    + vm_compute. intros H; discriminate H.
Defined.

Example ecSign_returns_the_device_signature :
  fst (ecSign 0 (repeat 7 32) (repeat 0 64) (Sim.ECC508 Sim.device))
  = (1, Sim.signature_reply Sim.device)
  /\ commands (trace (snd (ecSign 0 (repeat 7 32) (repeat 0 64)
                             (Sim.ECC508 Sim.device))))
     = [random_frame; nonce_frame (repeat 7 32); sign_frame 0]
  /\ map frame_opcode [random_frame; nonce_frame (repeat 7 32); sign_frame 0]
     = [0x1b; 0x16; 0x41].
Proof. vm_compute. repeat split. Qed.

Example lock_on_simulated_devices :
  commands (trace (snd (lock (Sim.ECC508 Sim.unlockable)))) = [lock_frame 0]
  /\ fst (lock (Sim.ECC508 Sim.unlockable)) = 0
  /\ commands (trace (snd (lock (Sim.ECC508 Sim.device))))
     = [lock_frame 0; lock_frame 1]
  /\ fst (lock (Sim.ECC508 Sim.device)) = 1.
Proof. vm_compute. repeat split. Qed.

(** * Further properties of the driver *)

(** ** Well-formed response frames *)

Lemma response_frame_length (payload : list Z) :
  length (response_frame payload) = (length payload + 3)%nat.
Proof.
  unfold response_frame, le16. rewrite length_app. cbn [length]. lia.
Qed.

Lemma response_frame_bytes (payload : list Z) :
  Forall is_byte payload -> (length payload + 3 < 256)%nat ->
  Forall is_byte (response_frame payload).
Proof.
  intros Hp Hlen. unfold response_frame, le16. apply Forall_app. split.
  - apply Forall_cons; [unfold is_byte; lia | exact Hp].
  - repeat apply Forall_cons; try apply Forall_nil; apply uint8_range.
Qed.

Lemma map_uint8_bytes (l : list Z) : Forall is_byte l -> map uint8 l = l.
Proof.
  induction 1 as [|b l Hb _ IH]; [reflexivity|].
  cbn [map]. rewrite IH, uint8_small by exact Hb. reflexivity.
Qed.

(** A buffer filled with exactly [quantity] bytes holds them. *)
Lemma as_buffer_exact (quantity : nat) (bytes : list Z) :
  Forall is_byte bytes -> length bytes = quantity ->
  as_buffer quantity bytes = bytes.
Proof.
  intros Hb Hl. unfold as_buffer.
  rewrite firstn_app, Hl, Nat.sub_diag. cbn [firstn]. rewrite app_nil_r.
  rewrite <- Hl, firstn_all. now apply map_uint8_bytes.
Qed.

(** The two checksum bytes of a frame, read back as [receiveResponse]
    reads them. *)
Lemma le16_recombine (z : Z) :
  0 <= z < 65536 -> nth 0 (le16 z) 0 + 256 * nth 1 (le16 z) 0 = z.
Proof.
  intros H. rewrite le16_small by exact H. cbn [nth].
  pose proof (Z.div_mod z 256). lia.
Qed.

(** What [receiveResponse] looks at in a well-formed frame. *)
Lemma response_frame_parts (payload : list Z) :
  let frame := response_frame payload in
  let n := length payload in
  nth 0 frame 0 = Z.of_nat (n + 3)
  /\ firstn (n + 1) frame = Z.of_nat (n + 3) :: payload
  /\ firstn n (skipn 1 frame) = payload
  /\ nth (n + 1) frame 0 + 256 * nth (n + 2) frame 0
     = crc16 (Some (firstn (n + 1) frame)) (n + 1).
Proof.
  intros frame n. subst frame n. unfold response_frame.
  set (body := Z.of_nat (length payload + 3) :: payload).
  assert (Hbody : length body = (length payload + 1)%nat)
    by (subst body; cbn [length]; lia).
  assert (Hfirst : firstn (length payload + 1) (body ++ le16 (crc16 (Some body) (length body)))
                   = body).
  { rewrite <- Hbody, firstn_app, firstn_all, Nat.sub_diag. cbn [firstn].
    apply app_nil_r. }
  split; [reflexivity | split; [exact Hfirst | split]].
  - subst body. cbn [app skipn].
    rewrite firstn_app, firstn_all, Nat.sub_diag. cbn [firstn]. apply app_nil_r.
  - rewrite Hfirst.
    rewrite !app_nth2 by lia.
    replace (length payload + 1 - length body)%nat with 0%nat by lia.
    replace (length payload + 2 - length body)%nat with 1%nat by lia.
    rewrite <- Hbody. apply le16_recombine. apply crc16_range.
Qed.

(** A buffer of the right size that passes the two checks is the
    well-formed frame of its payload. *)
Lemma accepted_buffer_is_response_frame (n : nat) (buffer : list Z) :
  length buffer = (n + 3)%nat -> Forall is_byte buffer ->
  nth 0 buffer 0 = Z.of_nat (n + 3) ->
  nth (n + 1) buffer 0 + 256 * nth (n + 2) buffer 0
  = crc16 (Some (firstn (n + 1) buffer)) (n + 1) ->
  buffer = response_frame (firstn n (skipn 1 buffer)).
Proof.
  intros Hlen Hbytes H0 Hcrc.
  set (payload := firstn n (skipn 1 buffer)).
  assert (Hpl : length payload = n).
  { subst payload. rewrite firstn_length_le; [reflexivity|].
    rewrite length_skipn. lia. }
  assert (Hbody : firstn (n + 1) buffer = Z.of_nat (n + 3) :: payload).
  { destruct buffer as [|b0 rest]; [cbn in Hlen; lia|].
    cbn [nth] in H0. subst b0. subst payload.
    replace (n + 1)%nat with (S n) by lia. reflexivity. }
  assert (Htail : skipn (n + 1) buffer
                  = [nth (n + 1) buffer 0; nth (n + 2) buffer 0]).
  { rewrite <- (firstn_skipn (n + 1) buffer) at 2 3.
    assert (Hfl : length (firstn (n + 1) buffer) = (n + 1)%nat)
      by (apply firstn_length_le; lia).
    rewrite !app_nth2 by lia. rewrite Hfl.
    replace (n + 1 - (n + 1))%nat with 0%nat by lia.
    replace (n + 2 - (n + 1))%nat with 1%nat by lia.
    assert (Hsl : length (skipn (n + 1) buffer) = 2%nat)
      by (rewrite length_skipn; lia).
    destruct (skipn (n + 1) buffer) as [|x [|y [|z t]]]; try discriminate Hsl.
    reflexivity. }
  pose proof (nth_byte buffer (n + 1) Hbytes) as Hlo.
  pose proof (nth_byte buffer (n + 2) Hbytes) as Hhi.
  unfold is_byte in Hlo, Hhi.
  rewrite <- (firstn_skipn (n + 1) buffer) at 1. rewrite Hbody, Htail.
  unfold response_frame. rewrite Hpl. f_equal.
  rewrite Hbody in Hcrc.
  replace (length (Z.of_nat (n + 3) :: payload)) with (n + 1)%nat
    by (cbn [length]; lia).
  rewrite <- Hcrc.
  set (lo := nth (n + 1) buffer 0) in *. set (hi := nth (n + 2) buffer 0) in *.
  rewrite le16_small by lia.
  f_equal; [|f_equal].
  - apply Z.mod_unique with hi; lia.
  - apply Z.div_unique with lo; lia.
Qed.

Section ReceiveMore.

Context {D : Type} {W : TwoWire D}.

Lemma receiveResponse_result (response : list Z) (length : nat)
      (s : ECC508Class D) :
  fst (fst (receiveResponse response length s)) = 0
  \/ fst (fst (receiveResponse response length s)) = 1.
Proof.
  rewrite receiveResponse_judges. cbn [fst].
  destruct (negb _); [now left|]. destruct (negb _); [now left | now right].
Qed.

(** [receiveResponse] succeeds exactly on the well-formed frames. *)
Lemma receiveResponse_success_iff (response : list Z) (length : nat)
      (s : ECC508Class D) :
  let responseBuffer := fst (poll 20 (length + 3) s) in
  fst (fst (receiveResponse response length s)) = 1
  <-> responseBuffer = response_frame (firstn length (skipn 1 responseBuffer)).
Proof.
  intros responseBuffer.
  destruct (poll_buffer 20 (length + 3) s) as [Hbytes Hlen].
  fold responseBuffer in Hbytes, Hlen.
  rewrite receiveResponse_judges. cbv zeta. fold responseBuffer. cbn [fst].
  assert (Hpl : List.length (firstn length (skipn 1 responseBuffer)) = length).
  { rewrite firstn_length_le; [reflexivity|]. rewrite length_skipn. lia. }
  split.
  - destruct (Z.eqb_spec (nth 0 responseBuffer 0) (Z.of_nat (length + 3)))
      as [E0 | E0]; cbn [negb]; [|intros H; discriminate H].
    match goal with
    | |- context [negb (?a =? ?b)] =>
        destruct (Z.eqb_spec a b) as [Ec | Ec]; cbn [negb fst];
          [|intros H; discriminate H]
    end.
    intros _. now apply accepted_buffer_is_response_frame.
  - intros Hframe.
    pose proof (response_frame_parts (firstn length (skipn 1 responseBuffer)))
      as [P0 [_ [_ Pcrc]]].
    rewrite Hpl, <- Hframe in P0, Pcrc.
    apply Z.eqb_eq in P0, Pcrc. rewrite P0, Pcrc. reflexivity.
Qed.

(** What an accepted response leaves in the caller's buffer. *)
Lemma receiveResponse_success_output (response : list Z) (length : nat)
      (s : ECC508Class D) :
  fst (fst (receiveResponse response length s)) = 1 ->
  snd (fst (receiveResponse response length s))
  = firstn length (skipn 1 (fst (poll 20 (length + 3) s))) ++ skipn length response.
Proof.
  rewrite receiveResponse_judges. cbv zeta. cbn [fst].
  destruct (negb _); cbn [fst snd]; [intros H; discriminate H|].
  destruct (negb _); cbn [fst snd]; [intros H; discriminate H | reflexivity].
Qed.

(** X1. [receiveResponse] accepts exactly the well-formed response frames:
    it returns 1 if and only if the buffer it polled is the frame (length
    byte, payload, checksum low byte first) of the payload it carries, and
    then it hands that payload to the caller; in every other case it
    returns 0 and the caller's buffer keeps its content. *)
Theorem receiveResponse_accepts_exactly_well_formed_frames
        (response : list Z) (length : nat) (s : ECC508Class D) :
  let responseBuffer := fst (poll 20 (length + 3) s) in
  let payload := firstn length (skipn 1 responseBuffer) in
  let result := fst (receiveResponse response length s) in
  (fst result = 1 <-> responseBuffer = response_frame payload)
  /\ (fst result = 1 -> snd result = payload ++ skipn length response)
  /\ (fst result <> 1 -> result = (0, response)).
Proof.
  intros responseBuffer payload result.
  split; [apply receiveResponse_success_iff|].
  split; [apply receiveResponse_success_output|].
  subst result. rewrite receiveResponse_judges. cbv zeta.
  fold responseBuffer. fold payload. cbn [fst].
  destruct (negb _); [reflexivity|].
  destruct (negb _); [reflexivity|].
  cbn [fst]. intros H. now elim H.
Qed.

(** X2. Round trip with the framing of the device: when the first read on the
    bus is complete and brings the well-formed frame of a payload of
    [length] bytes, [receiveResponse] returns 1, gives the caller exactly
    that payload, and has made that single read. *)
Theorem receiveResponse_round_trip (response payload : list Z) (d : D)
        (s : ECC508Class D) :
  Forall is_byte payload -> (length payload + 3 < 256)%nat ->
  requestFrom (_address s) (length payload + 3) (_wire s)
  = ((Z.of_nat (length payload + 3), response_frame payload), d) ->
  fst (receiveResponse response (length payload) s)
  = (1, payload ++ skipn (length payload) response)
  /\ trace (snd (receiveResponse response (length payload) s))
     = trace s ++ [RequestFrom (_address s) (length payload + 3)].
Proof.
  intros Hp Hlen Hread.
  assert (Hw : wire_requestFrom (_address s) (length payload + 3) s
               = ((Z.of_nat (length payload + 3), response_frame payload),
                  emit (RequestFrom (_address s) (length payload + 3)) d s)).
  { unfold wire_requestFrom. rewrite Hread.
    rewrite as_buffer_exact;
      [reflexivity | now apply response_frame_bytes | apply response_frame_length]. }
  assert (Hpoll : poll 20 (length payload + 3) s
                  = (response_frame payload,
                     emit (RequestFrom (_address s) (length payload + 3)) d s)).
  { rewrite poll_complete_read; rewrite Hw; reflexivity. }
  rewrite receiveResponse_judges. cbv zeta. rewrite Hpoll. cbn [fst snd].
  pose proof (response_frame_parts payload) as [P0 [_ [Ppl Pcrc]]].
  cbv zeta in Ppl. rewrite Ppl.
  apply Z.eqb_eq in P0, Pcrc. rewrite P0, Pcrc. cbn [negb].
  split; reflexivity.
Qed.

(** X3. No response of more than 252 payload bytes can be received: the
    length byte cannot hold the frame size, so [receiveResponse] returns 0
    and leaves the caller's buffer alone whatever the bus delivers. *)
Theorem receiveResponse_long_response_never_accepted
        (response : list Z) (length : nat) (s : ECC508Class D) :
  (253 <= length)%nat ->
  fst (receiveResponse response length s) = (0, response).
Proof.
  intros Hlong. rewrite receiveResponse_judges. cbv zeta. cbn [fst].
  destruct (poll_buffer 20 (length + 3) s) as [Hbytes _].
  pose proof (nth_byte _ 0 Hbytes) as H0. unfold is_byte in H0.
  destruct (Z.eqb_spec (nth 0 (fst (poll 20 (length + 3) s)) 0)
                       (Z.of_nat (length + 3))) as [E | E];
    [lia | reflexivity].
Qed.

(** Polling when no read is ever complete. *)
Lemma poll_exhausted (retries responseSize : nat) :
  (forall a d, fst (fst (requestFrom a responseSize d)) <> Z.of_nat responseSize) ->
  forall s : ECC508Class D,
    trace (snd (poll retries responseSize s))
    = trace s ++ repeat (RequestFrom (_address s) responseSize) (S retries).
Proof.
  intros Hshort. induction retries as [|retries IH]; intros s; cbn [poll];
    pose proof (wire_requestFrom_trace (_address s) responseSize s) as Ht;
    pose proof (proj1 (issues_wire_requestFrom (_address s) responseSize s)) as Ha;
    assert (Hn : fst (fst (wire_requestFrom (_address s) responseSize s))
                 <> Z.of_nat responseSize)
      by (unfold wire_requestFrom;
          pose proof (Hshort (_address s) (_wire s)) as Hs;
          destruct (requestFrom _ _ _) as [[n bytes] d]; exact Hs);
    destruct (wire_requestFrom _ _ s) as [[n buf] s1]; cbn [fst snd] in *;
    apply Z.eqb_neq in Hn; rewrite Hn.
  - exact Ht.
  - rewrite IH, Ht, Ha, <- app_assoc. reflexivity.
Qed.

(** X4. The response poll is bounded: on a bus whose reads of the frame are
    never complete, [receiveResponse] asks 21 times (the first attempt and
    20 retries), does nothing else on the bus, and then judges the buffer
    as it stands; it never asks more than 21 times. *)
Theorem receiveResponse_poll_is_bounded (response : list Z) (length : nat)
        (s : ECC508Class D) :
  ((forall a d, fst (fst (requestFrom a (length + 3) d)) <> Z.of_nat (length + 3)) ->
   trace (snd (receiveResponse response length s))
   = trace s ++ repeat (RequestFrom (_address s) (length + 3)) 21)
  /\ exists n, (1 <= n <= 21)%nat
               /\ trace (snd (receiveResponse response length s))
                  = trace s ++ repeat (RequestFrom (_address s) (length + 3)) n.
Proof.
  rewrite receiveResponse_judges. cbv zeta. cbn [snd]. split.
  - intros Hshort. now apply poll_exhausted.
  - apply poll_trace.
Qed.

End ReceiveMore.

(** The simulated device answers the wake call with the frame
    [04 11 33 43]; a bus without a device is asked 21 times. *)
Lemma receiveResponse_round_trip_witness :
  fst (receiveResponse [0] 1 (Sim.ECC508 (Sim.arm [0x11] Sim.device)))
  = (1, [0x11] ++ skipn 1 [0])
  /\ trace (snd (receiveResponse [0] 1 (Sim.ECC508 (Sim.arm [0x11] Sim.device))))
     = [] ++ [RequestFrom 0x60 4].
Proof.
  apply (receiveResponse_round_trip [0] [0x11] (Sim.arm [0x11] Sim.device)
           (Sim.ECC508 (Sim.arm [0x11] Sim.device))).
  - repeat constructor; unfold is_byte; lia.
  - cbn. lia.
  - reflexivity.
Defined.

Lemma receiveResponse_accepts_exactly_well_formed_frames_witness :
  snd (fst (receiveResponse [0] 1 (Sim.ECC508 (Sim.arm [0x11] Sim.device))))
  = [0x11]
  /\ fst (receiveResponse [0] 1 (Sim.ECC508 (Sim.arm [0x11] Sim.bad_checksum)))
     = (0, [0]).
Proof.
  split.
  - refine (eq_trans
              (proj1 (proj2 (receiveResponse_accepts_exactly_well_formed_frames
                 [0] 1 (Sim.ECC508 (Sim.arm [0x11] Sim.device)))) _) _);
      vm_compute; reflexivity.
  - apply (proj2 (proj2 (receiveResponse_accepts_exactly_well_formed_frames
             [0] 1 (Sim.ECC508 (Sim.arm [0x11] Sim.bad_checksum))))).
    vm_compute. intros H; discriminate H.
Defined.

Lemma receiveResponse_long_response_never_accepted_witness :
  fst (receiveResponse [] 253 (Sim.ECC508 Sim.device)) = (0, []).
Proof.
  apply (receiveResponse_long_response_never_accepted [] 253
           (Sim.ECC508 Sim.device)). lia.
Defined.

Lemma receiveResponse_poll_is_bounded_witness :
  trace (snd (receiveResponse [0] 1 Absent.ECC508))
  = trace Absent.ECC508 ++ repeat (RequestFrom (_address Absent.ECC508) 4) 21.
Proof.
  apply (proj1 (receiveResponse_poll_is_bounded [0] 1 Absent.ECC508)).
  intros a d. cbn. intros H; discriminate H.
Defined.

(** ** Command exchanges *)

Section ExchangesMore.

Context {D : Type} {W : TwoWire D}.

(** A one-byte response is accepted with the value [v] exactly when the
    buffer polled is the well-formed frame of [v]. *)
Lemma single_byte_response (v : Z) (s : ECC508Class D) :
  (fst (fst (receiveResponse [0] 1 s)) = 1
   /\ nth 0 (snd (fst (receiveResponse [0] 1 s))) 0 = v)
  <-> fst (poll 20 4 s) = response_frame [v].
Proof.
  pose proof (receiveResponse_success_iff [0] 1 s) as Hiff.
  pose proof (receiveResponse_success_output [0] 1 s) as Hok.
  cbv zeta in Hiff. cbn [Nat.add] in Hiff, Hok.
  destruct (poll_buffer 20 4 s) as [_ Hlen].
  set (buf := fst (poll 20 4 s)) in *.
  destruct buf as [|b0 [|b1 [|b2 [|b3 [|]]]]]; try discriminate Hlen.
  cbn [firstn skipn] in *. split.
  - intros [H1 Hv]. rewrite (Hok H1) in Hv. cbn [app nth] in Hv. subst b1.
    now apply Hiff.
  - intros Hb.
    assert (Hb1 : b1 = v).
    { pose proof (f_equal (fun l => nth 1 l 0) Hb) as E. exact E. }
    subst b1. pose proof (proj2 Hiff Hb) as H1. split; [exact H1|].
    rewrite (Hok H1). reflexivity.
Qed.

End ExchangesMore.

Section ExchangeShapes.

Context {D : Type} {W : TwoWire D}.


(** X5. The wake sequence succeeds exactly when, after the general call
    and the 800 microsecond settle time, the four bytes polled are the
    well-formed frame of the wake code 0x11, [04 11 33 43]; it returns 0
    otherwise. *)
Theorem wakeup_succeeds_iff (s : ECC508Class D) :
  let called := snd (delayMicroseconds 800 (snd (wire_transmission 0x00 [] s))) in
  (fst (wakeup s) = 1 <-> fst (poll 20 4 called) = response_frame [0x11])
  /\ (fst (wakeup s) = 0 \/ fst (wakeup s) = 1)
  /\ response_frame [0x11] = [0x04; 0x11; 0x33; 0x43].
Proof.
  intros called. split; [|split; [apply wakeup_result | reflexivity]].
  rewrite <- (single_byte_response 0x11 called).
  unfold wakeup, bind, ret. subst called.
  destruct (wire_transmission 0 [] s) as [st sa]. cbn [snd].
  destruct (delayMicroseconds 800 sa) as [[] sb]. cbn [snd].
  pose proof (receiveResponse_result [0] 1 sb) as Hr.
  destruct (receiveResponse [0] 1 sb) as [[ok response] sc].
  cbn [fst snd] in *.
  destruct Hr as [-> | ->]; cbn [Z.eqb orb].
  - split; [intros H; discriminate H | intros [H _]; discriminate H].
  - destruct (Z.eqb_spec (nth 0 response 0) 17) as [E | E]; cbn [negb fst].
    + split; auto.
    + split; [intros H; discriminate H | intros [_ H]; now elim E].
Qed.



End ExchangeShapes.

Section CommandExchanges.

Context {D : Type} {W : TwoWire D}.




End CommandExchanges.

(** ** Nothing is commanded before the device is awake *)

Section WakeFirst.

Context {D : Type} {W : TwoWire D}.

(** One pass of the loop of [writeConfiguration] that writes a word. *)
Lemma writeConfiguration_loop_step (data : list Z) (fuel : nat) (i : Z) :
  (i <? 128) = true -> (i =? 84) = false ->
  writeConfiguration_loop (S fuel) i data
  = bind (write 0 (i / 4) (skipn (Z.to_nat i) data) 4)
         (fun r => if r =? 0 then ret 0
                   else writeConfiguration_loop fuel (i + 4) data).
Proof.
  intros H1 H2. cbn [writeConfiguration_loop]. rewrite H1, H2. reflexivity.
Qed.

Ltac wake_failed Hw :=
  unfold bind, ret;
  destruct (wakeup _) as [awake s1]; cbn [fst snd] in Hw |- *; subst awake;
  reflexivity.

(** X9. When the wake sequence fails, every operation of the driver fails
    at once: it returns its failure value, leaves the caller's buffers as
    they were, and the driver is where the failed wake sequence left it, so
    that no command frame has been sent. *)
Theorem no_command_without_wake
        (slot zone address length : Z) (count : nat)
        (data message signature pubkey : list Z) (s : ECC508Class D) :
  fst (wakeup s) = 0 ->
  let asleep := snd (wakeup s) in
  version s = (0, asleep)
  /\ random data count s = ((0, data), asleep)
  /\ generatePrivateKey slot data s = ((0, data), asleep)
  /\ generatePublicKey slot data s = ((0, data), asleep)
  /\ challenge message s = (0, asleep)
  /\ verify signature pubkey s = (0, asleep)
  /\ sign slot signature s = ((0, signature), asleep)
  /\ read zone address data length s = ((0, data), asleep)
  /\ write zone address data length s = (0, asleep)
  /\ lock_zone zone s = (0, asleep)
  /\ ecSign slot message signature s = ((0, signature), asleep)
  /\ ecdsaVerify message signature pubkey s = (0, asleep)
  /\ locked s = (0, asleep)
  /\ lock s = (0, asleep)
  /\ writeConfiguration data s = (0, asleep)
  /\ fst (readConfiguration data s) = (0, data)
  /\ snd (readConfiguration data s) = asleep
  /\ serialNumber s = (None, asleep)
  /\ commands (trace asleep) = commands (trace s).
Proof.
  intros Hw asleep. subst asleep.
  assert (Hread : forall z a b l, read z a b l s = ((0, b), snd (wakeup s))).
  { intros. unfold read. wake_failed Hw. }
  assert (Hwrite : forall z a b l, write z a b l s = (0, snd (wakeup s))).
  { intros. unfold write. wake_failed Hw. }
  assert (Hlock : forall z, lock_zone z s = (0, snd (wakeup s))).
  { intros. unfold lock_zone. wake_failed Hw. }
  assert (Hchallenge : challenge message s = (0, snd (wakeup s))).
  { unfold challenge. wake_failed Hw. }
  assert (Hrandom : forall d n, random d n s = ((0, d), snd (wakeup s))).
  { intros. unfold random. wake_failed Hw. }
  assert (Hconf : readConfiguration data s = ((0, data), snd (wakeup s))).
  { unfold readConfiguration.
    change (readConfiguration_loop 5 0 data)
      with (bind (read 0 (0 / 4) (skipn (Z.to_nat 0) data) 32)
                 (fun r => let '(ok, rest) := r in
                           let data := firstn (Z.to_nat 0) data ++ rest in
                           if ok =? 0 then ret (0, data)
                           else readConfiguration_loop 4 (0 + 32) data)).
    unfold bind. rewrite Hread. reflexivity. }
  repeat match goal with |- _ /\ _ => split end.
  - unfold version. wake_failed Hw.
  - apply Hrandom.
  - unfold generatePrivateKey. wake_failed Hw.
  - unfold generatePublicKey. wake_failed Hw.
  - exact Hchallenge.
  - unfold verify. wake_failed Hw.
  - unfold sign. wake_failed Hw.
  - apply Hread.
  - apply Hwrite.
  - apply Hlock.
  - unfold ecSign, bind. rewrite Hrandom. reflexivity.
  - unfold ecdsaVerify, bind. rewrite Hchallenge. reflexivity.
  - unfold locked, bind. rewrite Hread. reflexivity.
  - unfold lock, bind. rewrite Hlock. reflexivity.
  - unfold writeConfiguration.
    rewrite (writeConfiguration_loop_step data 28 16) by reflexivity.
    unfold bind. rewrite Hwrite. reflexivity.
  - rewrite Hconf. reflexivity.
  - rewrite Hconf. reflexivity.
  - unfold serialNumber, bind. cbn [skipn]. rewrite Hread. reflexivity.
  - apply wakeup_commands.
Qed.

End WakeFirst.

(** On a bus with no device, the serial number is the null string and a
    signature is refused, after the 21 reads of the wake sequence. *)
Lemma no_command_without_wake_witness :
  serialNumber Absent.ECC508 = (None, snd (wakeup Absent.ECC508))
  /\ ecSign 0 (repeat 7 32) (repeat 0 64) Absent.ECC508
     = ((0, repeat 0 64), snd (wakeup Absent.ECC508))
  /\ commands (trace (snd (wakeup Absent.ECC508))) = commands (trace Absent.ECC508).
Proof.
  assert (Hw : fst (wakeup Absent.ECC508) = 0) by (vm_compute; reflexivity).
  pose proof (no_command_without_wake 0 0 0 0 0 [] (repeat 7 32) (repeat 0 64) []
                Absent.ECC508 Hw) as H.
  cbv zeta in H.
  repeat match type of H with _ /\ _ => destruct H as [? H] end.
  repeat match goal with |- _ /\ _ => split end; assumption.
Defined.

(** ** Random bytes of any length *)

Lemma store_length (dst : list Z) (off : nat) (src : list Z) :
  (off + length src <= length dst)%nat ->
  length (store dst off src) = length dst.
Proof.
  intros H. unfold store. rewrite !length_app, length_skipn, firstn_length_le by lia.
  lia.
Qed.

Lemma store_skipn (dst : list Z) (off n : nat) (src : list Z) :
  (off + length src <= n)%nat -> (off <= length dst)%nat ->
  skipn n (store dst off src) = skipn n dst.
Proof.
  intros H Hoff. unfold store.
  assert (Hf : length (firstn off dst) = off) by (apply firstn_length_le; lia).
  rewrite skipn_app, Hf. rewrite (skipn_all2 (firstn off dst)) by lia.
  cbn [app]. rewrite skipn_app. rewrite (skipn_all2 src) by lia.
  cbn [app]. rewrite skipn_skipn. f_equal. lia.
Qed.

Lemma store_firstn (dst : list Z) (off n : nat) (src : list Z) :
  (n <= off)%nat -> (off <= length dst)%nat ->
  firstn n (store dst off src) = firstn n dst.
Proof.
  intros H Hoff. unfold store.
  assert (Hf : length (firstn off dst) = off) by (apply firstn_length_le; lia).
  rewrite firstn_app, Hf. replace (n - off)%nat with 0%nat by lia.
  cbn [firstn]. rewrite app_nil_r, firstn_firstn. f_equal. lia.
Qed.

Section RandomAnyLength.

Context {D : Type} {W : TwoWire D}.

(** An accepted response fills [length] bytes of a buffer that has room for
    them; a rejected one changes nothing. *)
Lemma issues_receiveResponse_length (response : list Z) (length : nat) :
  (length <= List.length response)%nat ->
  issues (D := D) (receiveResponse response length)
         (fun r fs => fs = [] /\ (fst r = 0 \/ fst r = 1)
                      /\ List.length (snd r) = List.length response).
Proof.
  intros Hl s.
  destruct (issues_receiveResponse response length s) as [Ha [fs [Hc ->]]].
  split; [exact Ha|]. exists []. split; [exact Hc|].
  split; [reflexivity | split; [apply receiveResponse_result|]].
  destruct (poll_buffer 20 (length + 3) s) as [_ Hlen].
  rewrite receiveResponse_judges. cbv zeta. cbn [fst].
  destruct (negb _); [reflexivity|]. destruct (negb _); [reflexivity|].
  cbn [snd]. rewrite length_app, length_skipn, firstn_length_le;
    [lia | rewrite length_skipn; lia].
Qed.

(** The number of 32-byte blocks that cover [length] bytes. *)
Lemma blocks_step (length : nat) :
  length <> 0%nat ->
  ((length + 31) / 32 = S ((length - Nat.min 32 length + 31) / 32))%nat.
Proof.
  intros H0. destruct (Nat.le_gt_cases length 32) as [Hle | Hgt].
  - rewrite Nat.min_r by exact Hle. rewrite Nat.sub_diag. cbn [Nat.add].
    change (31 / 32)%nat with 0%nat.
    assert (H1 : ((length + 31) / 32 = 1)%nat).
    { symmetry. apply (Nat.div_unique (length + 31) 32 1 (length - 1)); lia. }
    exact H1.
  - rewrite Nat.min_l by lia.
    replace (length + 31)%nat with ((length - 32 + 31) + 1 * 32)%nat by lia.
    rewrite Nat.div_add by lia. lia.
Qed.

Lemma issues_random_loop (fuel : nat) :
  forall (data : list Z) (offset length : nat),
    (offset + length <= List.length data)%nat -> (length <= fuel)%nat ->
    issues (D := D) (random_loop fuel data offset length)
      (fun r fs =>
         exists k,
           fs = repeat random_frame k
           /\ (k <= (length + 31) / 32)%nat
           /\ (fst r = 1 -> k = ((length + 31) / 32)%nat)
           /\ (fst r = 0 \/ fst r = 1)
           /\ List.length (snd r) = List.length data
           /\ skipn (offset + length) (snd r) = skipn (offset + length) data
           /\ firstn offset (snd r) = firstn offset data).
Proof.
  induction fuel as [|fuel IH]; intros data offset length Hroom Hfuel.
  - assert (length = 0%nat) as -> by lia. cbn [random_loop].
    apply issues_ret. exists 0%nat. cbn [fst snd repeat].
    repeat match goal with |- _ /\ _ => split end; auto; lia.
  - cbn [random_loop]. destruct (Nat.eqb_spec length 0) as [-> | Hne].
    { apply issues_ret. exists 0%nat. cbn [fst snd repeat].
      repeat match goal with |- _ /\ _ => split end; auto; lia. }
    pose proof (blocks_step length Hne) as Hblocks.
    eapply issues_bind; [apply issues_sendCommand|].
    intros sent f1 [-> Hsent]. fold random_frame.
    destruct (sent =? 0) eqn:Es.
    { apply issues_ret. exists 1%nat. cbn [fst snd repeat app].
      repeat match goal with |- _ /\ _ => split end; auto; try lia. }
    eapply issues_bind; [apply issues_delay|]. intros [] f2 ->.
    eapply issues_bind;
      [apply (issues_receiveResponse_length (repeat 0 32%nat) 32);
       rewrite repeat_length; lia|].
    intros [ok response] f3 [-> [Hok Hlen]]. cbn [fst snd] in Hok, Hlen.
    rewrite repeat_length in Hlen. cbn [app].
    destruct (ok =? 0) eqn:Eok.
    { apply issues_ret. exists 1%nat. cbn [fst snd repeat app].
      repeat match goal with |- _ /\ _ => split end; auto; try lia. }
    set (copyLength := Nat.min 32 length) in *.
    assert (Hchunk : List.length (firstn copyLength response) = copyLength).
    { apply firstn_length_le. subst copyLength. lia. }
    assert (Hc : (copyLength <= length)%nat) by (subst copyLength; lia).
    set (data1 := store data offset (firstn copyLength response)).
    assert (Hl1 : List.length data1 = List.length data).
    { subst data1. apply store_length. lia. }
    eapply issues_weaken.
    { apply (IH data1 (offset + copyLength)%nat (length - copyLength)%nat).
      - rewrite Hl1. lia.
      - subst copyLength. lia. }
    intros r fs [k [-> [Hk [Hk1 [Hr [Hlen' [Hskip Hfirst]]]]]]].
    exists (S k). cbn [repeat app].
    replace (offset + copyLength + (length - copyLength))%nat
      with (offset + length)%nat in Hskip by lia.
    repeat match goal with |- _ /\ _ => split end.
    + reflexivity.
    + lia.
    + intros H1. rewrite (Hk1 H1). lia.
    + exact Hr.
    + lia.
    + rewrite Hskip. subst data1. apply store_skipn; lia.
    + assert (Hcut : forall l : list Z,
                 firstn offset l = firstn offset (firstn (offset + copyLength) l)).
      { intros l. rewrite firstn_firstn. f_equal. lia. }
      rewrite (Hcut (snd r)), Hfirst, <- Hcut. subst data1.
      apply store_firstn; lia.
Qed.

(** X10. [random] asks the device for one 32-byte block per started 32
    bytes: the command frames it sends are the random command and nothing
    else, at most [(length + 31) / 32] of them and exactly that many when
    it returns 1. It writes only into the first [length] bytes of the
    caller's buffer: the buffer keeps its size and everything from
    [length] on, also when a block fails midway. *)
Theorem random_fills_in_blocks (data : list Z) (length : nat)
        (s : ECC508Class D) :
  (length <= List.length data)%nat ->
  let r := random data length s in
  (exists k,
      commands (trace (snd r)) = commands (trace s) ++ repeat random_frame k
      /\ (k <= (length + 31) / 32)%nat
      /\ (fst (fst r) = 1 -> k = ((length + 31) / 32)%nat))
  /\ (fst (fst r) = 0 \/ fst (fst r) = 1)
  /\ List.length (snd (fst r)) = List.length data
  /\ skipn length (snd (fst r)) = skipn length data.
Proof.
  intros Hroom r.
  assert (Hissues :
            issues (D := D) (random data length)
              (fun r fs =>
                 exists k,
                   fs = repeat random_frame k
                   /\ (k <= (length + 31) / 32)%nat
                   /\ (fst r = 1 -> k = ((length + 31) / 32)%nat)
                   /\ (fst r = 0 \/ fst r = 1)
                   /\ List.length (snd r) = List.length data
                   /\ skipn length (snd r) = skipn length data)).
  { unfold random.
    eapply issues_bind; [apply issues_wakeup|]. intros awake f0 [-> Haw].
    destruct (awake =? 0).
    { apply issues_ret. exists 0%nat. cbn [fst snd repeat app].
      repeat match goal with |- _ /\ _ => split end; auto; try lia. }
    eapply issues_bind; [apply (issues_random_loop length data 0 length); lia|].
    intros [ok data'] f1 [k [-> [Hk [Hk1 [Hr [Hlen [Hskip _]]]]]]].
    cbn [fst snd Nat.add] in *. cbn [app].
    destruct (Z.eqb_spec ok 0) as [-> | Hne].
    { apply issues_ret. exists k. rewrite app_nil_r. cbn [fst snd].
      repeat match goal with |- _ /\ _ => split end; auto;
        intros H; discriminate H. }
    eapply issues_bind; [apply issues_delay|]. intros [] f2 ->.
    eapply issues_bind; [apply issues_idle|]. intros i f3 ->.
    apply issues_ret. exists k. rewrite !app_nil_r. cbn [fst snd].
    repeat match goal with |- _ /\ _ => split end; auto.
    intros _. apply Hk1. lia. }
  destruct (Hissues s) as [_ [fs [Hc [k [-> [Hk [Hk1 [Hr [Hlen Hskip]]]]]]]]].
  fold r in Hc, Hk1, Hr, Hlen, Hskip.
  split; [exists k; auto | auto].
Qed.

End RandomAnyLength.

(** Forty bytes take two blocks; the bytes behind them are not touched. *)
Lemma random_fills_in_blocks_witness :
  (exists k,
      commands (trace (snd (random (repeat 9 44) 40 (Sim.ECC508 Sim.device))))
      = commands (trace (Sim.ECC508 Sim.device)) ++ repeat random_frame k
      /\ (k <= (40 + 31) / 32)%nat
      /\ (fst (fst (random (repeat 9 44) 40 (Sim.ECC508 Sim.device))) = 1 ->
          k = ((40 + 31) / 32)%nat))
  /\ skipn 40 (snd (fst (random (repeat 9 44) 40 (Sim.ECC508 Sim.device))))
     = skipn 40 (repeat 9 44).
Proof.
  pose proof (random_fills_in_blocks (repeat 9 44) 40 (Sim.ECC508 Sim.device))
    as H.
  cbv zeta in H. rewrite repeat_length in H.
  destruct (H ltac:(lia)) as [Hk [_ [_ Hskip]]].
  split; [exact Hk | exact Hskip].
Defined.

(** ** Verification of a signature *)

(** The two [memcpy] of [verify] fill the 128 bytes with the signature
    followed by the public key. *)
Lemma verify_data_layout (signature pubkey : list Z) :
  (64 <= length signature)%nat -> (64 <= length pubkey)%nat ->
  verify_data signature pubkey = firstn 64 signature ++ firstn 64 pubkey.
Proof.
  intros Hs Hp. unfold verify_data, store.
  assert (Ls : length (firstn 64 signature) = 64%nat)
    by (apply firstn_length_le; exact Hs).
  assert (Lp : length (firstn 64 pubkey) = 64%nat)
    by (apply firstn_length_le; exact Hp).
  rewrite Ls, Lp.
  assert (E1 : firstn 0 (repeat 0 128) ++ firstn 64 signature
                 ++ skipn (0 + 64) (repeat 0 128)
               = firstn 64 signature ++ repeat 0 64) by reflexivity.
  rewrite E1.
  rewrite firstn_app, Ls, Nat.sub_diag, firstn_O, app_nil_r.
  rewrite firstn_all2 by lia.
  rewrite skipn_all2 by (rewrite length_app, Ls, repeat_length; lia).
  rewrite app_nil_r. reflexivity.
Qed.

Section Verification.

Context {D : Type} {W : TwoWire D}.

Lemma issues_verify (signature pubkey : list Z) :
  issues (D := D) (verify signature pubkey)
         (at_most (verify_frame signature pubkey)).
Proof. unfold verify, verify_frame. repeat issues_step; issues_done. Qed.

(** X11. [ecdsaVerify] loads the message with the nonce command and then
    has the device check the signature, the second step only when the
    first returned 1: it returns 1 exactly when both do, and 0 otherwise.
    The commands it sends are an initial part of [nonce with the message;
    verify], both when the result is 1. For a 64-byte signature and a
    64-byte public key the verify command carries the signature followed
    by the key, in a frame of 136 bytes. *)
Theorem ecdsaVerify_challenge_then_verify (message signature pubkey : list Z)
        (s : ECC508Class D) :
  (64 <= length signature)%nat -> (64 <= length pubkey)%nat ->
  let c := challenge message s in
  let v := verify signature pubkey (snd c) in
  let r := ecdsaVerify message signature pubkey s in
  (fst r = 1 <-> fst c = 1 /\ fst v = 1)
  /\ (fst r = 0 \/ fst r = 1)
  /\ (fst c = 0 -> r = (0, snd c))
  /\ (fst c = 1 -> snd r = snd v)
  /\ (exists k,
         commands (trace (snd r))
         = commands (trace s)
             ++ firstn k [nonce_frame message; verify_frame signature pubkey]
         /\ (fst r = 1 -> k = 2%nat))
  /\ verify_frame signature pubkey
     = command_frame 0x45 0x02 0x0004 (firstn 64 signature ++ firstn 64 pubkey)
  /\ length (verify_frame signature pubkey) = 136%nat.
Proof.
  intros Hs Hp c v r.
  destruct (issues_challenge message s) as [_ [fc [Hfc Hc]]].
  destruct (issues_verify signature pubkey (snd c)) as [_ [fv [Hfv Hv]]].
  fold c in Hfc, Hc. fold v in Hfv, Hv.
  destruct Hc as [Hc1 [Hc2 Hc3]]. destruct Hv as [Hv1 [Hv2 Hv3]].
  assert (Hr : r = if fst c =? 0 then (0, snd c)
                   else if fst v =? 0 then (0, snd v) else (1, snd v)).
  { subst r v. unfold ecdsaVerify, bind, ret. fold c.
    destruct c as [cr s1]. cbn [fst snd].
    destruct (cr =? 0); [reflexivity|].
    destruct (verify signature pubkey s1) as [vr s2]. cbn [fst snd].
    destruct (vr =? 0); reflexivity. }
  assert (Hlayout : verify_frame signature pubkey
                    = command_frame 0x45 0x02 0x0004
                        (firstn 64 signature ++ firstn 64 pubkey)).
  { unfold verify_frame. rewrite verify_data_layout by assumption. reflexivity. }
  assert (Hlength : length (verify_frame signature pubkey) = 136%nat).
  { rewrite Hlayout, command_frame_length, length_app.
    rewrite !firstn_length_le by assumption. reflexivity. }
  assert (Hiff : fst r = 1 <-> fst c = 1 /\ fst v = 1).
  { rewrite Hr. destruct Hc3 as [Ec | Ec]; rewrite Ec; cbn [Z.eqb fst].
    - split; [intros H; discriminate H | intros [H _]; discriminate H].
    - destruct Hv3 as [Ev | Ev]; rewrite Ev; cbn [Z.eqb fst].
      + split; [intros H; discriminate H | intros [_ H]; discriminate H].
      + split; [intros _; split; reflexivity | reflexivity]. }
  assert (H01 : fst r = 0 \/ fst r = 1).
  { rewrite Hr. destruct (fst c =? 0); [left; reflexivity|].
    destruct (fst v =? 0); [left | right]; reflexivity. }
  assert (Hfail : fst c = 0 -> r = (0, snd c)).
  { intros Ec. rewrite Hr, Ec. reflexivity. }
  assert (Hstate : fst c = 1 -> snd r = snd v).
  { intros Ec. rewrite Hr, Ec. cbn [Z.eqb].
    destruct (fst v =? 0); reflexivity. }
  assert (Hsent : exists k,
             commands (trace (snd r))
             = commands (trace s)
                 ++ firstn k [nonce_frame message; verify_frame signature pubkey]
             /\ (fst r = 1 -> k = 2%nat)).
  { destruct Hc3 as [Ec | Ec].
    - rewrite (Hfail Ec). cbn [fst snd].
      destruct Hc1 as [-> | ->].
      + exists 0%nat. split; [exact Hfc | intros H; discriminate H].
      + exists 1%nat. split; [exact Hfc | intros H; discriminate H].
    - rewrite (Hstate Ec), Hfv, Hfc, <- app_assoc.
      rewrite (Hc2 ltac:(rewrite Ec; intros H; discriminate H)).
      destruct Hv1 as [Efv | Efv]; rewrite Efv.
      + exists 1%nat. split; [reflexivity|].
        intros H1. apply Hiff in H1. destruct H1 as [_ H1].
        assert (Hne : fst v <> 0) by (rewrite H1; intros H; discriminate H).
        specialize (Hv2 Hne). rewrite Efv in Hv2. discriminate Hv2.
      + exists 2%nat. split; reflexivity. }
  repeat match goal with |- _ /\ _ => split end; assumption.
Qed.

End Verification.

(** On the simulated part both steps succeed and both frames are sent. *)
Lemma ecdsaVerify_challenge_then_verify_witness :
  fst (ecdsaVerify (repeat 1 32) (repeat 2 64) (repeat 3 64)
         (Sim.ECC508 Sim.device)) = 1
  /\ (exists k,
         commands (trace (snd (ecdsaVerify (repeat 1 32) (repeat 2 64)
                                 (repeat 3 64) (Sim.ECC508 Sim.device))))
         = commands (trace (Sim.ECC508 Sim.device))
             ++ firstn k [nonce_frame (repeat 1 32);
                          verify_frame (repeat 2 64) (repeat 3 64)]
         /\ (fst (ecdsaVerify (repeat 1 32) (repeat 2 64) (repeat 3 64)
                    (Sim.ECC508 Sim.device)) = 1 -> k = 2%nat))
  /\ length (verify_frame (repeat 2 64) (repeat 3 64)) = 136%nat.
Proof.
  assert (Hs : (64 <= length (repeat 2 64))%nat) by (rewrite repeat_length; lia).
  assert (Hp : (64 <= length (repeat 3 64))%nat) by (rewrite repeat_length; lia).
  pose proof (ecdsaVerify_challenge_then_verify (repeat 1 32) (repeat 2 64)
                (repeat 3 64) (Sim.ECC508 Sim.device) Hs Hp) as H.
  cbv zeta in H. destruct H as [_ [_ [_ [_ [Hk [_ Hlen]]]]]].
  split; [vm_compute; reflexivity | split; [exact Hk | exact Hlen]].
Defined.

(** ** Reading the configuration zone back *)

Section ReadConfiguration.

Context {D : Type} {W : TwoWire D}.

(** [receiveResponse] writes to the first [length] bytes of its buffer
    only. *)
Lemma issues_receiveResponse_tail (response : list Z) (length : nat) :
  (length <= List.length response)%nat ->
  issues (D := D) (receiveResponse response length)
         (fun r fs => fs = [] /\ (fst r = 0 \/ fst r = 1)
                      /\ List.length (snd r) = List.length response
                      /\ skipn length (snd r) = skipn length response).
Proof.
  intros Hl s.
  destruct (issues_receiveResponse response length s) as [Ha [fs [Hc ->]]].
  split; [exact Ha|]. exists []. split; [exact Hc|].
  split; [reflexivity | split; [apply receiveResponse_result|]].
  destruct (poll_buffer 20 (length + 3) s) as [_ Hlen].
  rewrite receiveResponse_judges. cbv zeta. cbn [fst].
  destruct (negb _); [split; reflexivity|].
  destruct (negb _); [split; reflexivity|].
  cbn [snd].
  assert (Hpayload :
            List.length (firstn length (skipn 1 (fst (poll 20 (length + 3) s))))
            = length).
  { apply firstn_length_le. rewrite length_skipn. lia. }
  split.
  - rewrite length_app, length_skipn, Hpayload. lia.
  - rewrite skipn_app, Hpayload, Nat.sub_diag, skipn_all2 by lia.
    reflexivity.
Qed.

Lemma issues_read_block (zone address : Z) (buffer : list Z) :
  (32 <= length buffer)%nat ->
  issues (D := D) (read zone address buffer 32)
    (fun r fs =>
       (fs = [] \/ fs = [read_frame (Z.lor zone 0x80) address])
       /\ (fst r <> 0 -> fs = [read_frame (Z.lor zone 0x80) address])
       /\ (fst r = 0 \/ fst r = 32)
       /\ length (snd r) = length buffer
       /\ skipn 32 (snd r) = skipn 32 buffer).
Proof.
  intros Hl. unfold read, read_frame.
  eapply issues_bind; [apply issues_wakeup|]. intros awake f0 [-> _].
  destruct (awake =? 0).
  { apply issues_ret. cbn [fst snd app].
    repeat match goal with |- _ /\ _ => split end; auto.
    intros H; exfalso; apply H; reflexivity. }
  change (negb (32 =? 4) && negb (32 =? 32)) with false. cbv iota.
  change (32 =? 32) with true. cbv iota.
  eapply issues_bind; [apply issues_sendCommand|]. intros sent f1 [-> _].
  destruct (sent =? 0).
  { apply issues_ret. cbn [fst snd app].
    repeat match goal with |- _ /\ _ => split end; auto. }
  eapply issues_bind; [apply issues_delay|]. intros [] f2 ->.
  eapply issues_bind;
    [apply (issues_receiveResponse_tail buffer (Z.to_nat 32));
     change (Z.to_nat 32) with 32%nat; exact Hl|].
  intros [ok out] f3 [-> [_ [Hlen Hskip]]]. cbn [fst snd] in Hlen, Hskip.
  change (Z.to_nat 32) with 32%nat in Hskip.
  destruct (ok =? 0).
  { apply issues_ret. cbn [fst snd app].
    repeat match goal with |- _ /\ _ => split end; auto. }
  eapply issues_bind; [apply issues_delay|]. intros [] f4 ->.
  eapply issues_bind; [apply issues_idle|]. intros i f5 ->.
  apply issues_ret. cbn [fst snd app].
  repeat match goal with |- _ /\ _ => split end; auto.
Qed.

Lemma issues_readConfiguration_loop (n : nat) :
  forall (fuel : nat) (i : Z) (data : list Z),
    i = 128 - 32 * Z.of_nat n -> (n <= 4)%nat -> (n < fuel)%nat ->
    (128 <= length data)%nat ->
    issues (D := D) (readConfiguration_loop fuel i data)
      (fun r fs =>
         (exists k,
             fs = firstn k (map (fun j => read_frame 0x80 (8 * Z.of_nat j))
                                (seq (4 - n) n))
             /\ (fst r = 1 -> k = n))
         /\ (fst r = 0 \/ fst r = 1)
         /\ length (snd r) = length data
         /\ skipn 128 (snd r) = skipn 128 data).
Proof.
  induction n as [|n IH]; intros fuel i data Hi Hn Hfuel Hdata.
  - destruct fuel as [|fuel]; [lia|]. cbn [readConfiguration_loop].
    replace (i <? 128) with false by (symmetry; apply Z.ltb_ge; lia).
    apply issues_ret. cbn [fst snd].
    split; [exists 0%nat; split; [reflexivity | reflexivity]|].
    split; [right; reflexivity | split; reflexivity].
  - destruct fuel as [|fuel]; [lia|]. cbn [readConfiguration_loop].
    replace (i <? 128) with true by (symmetry; apply Z.ltb_lt; lia).
    assert (Hi0 : 0 <= i) by lia.
    assert (Hin : (Z.to_nat i + 32 <= length data)%nat) by lia.
    assert (Hframes :
              map (fun j => read_frame 0x80 (8 * Z.of_nat j)) (seq (4 - S n) (S n))
              = read_frame (Z.lor 0 0x80) (i / 4)
                  :: map (fun j => read_frame 0x80 (8 * Z.of_nat j))
                         (seq (4 - n) n)).
    { cbn [seq map]. replace (S (4 - S n)) with (4 - n)%nat by lia.
      assert (Ediv : i / 4 = 8 * Z.of_nat (4 - S n)).
      { symmetry. apply Z.div_unique_exact; lia. }
      rewrite Ediv.
      reflexivity. }
    rewrite Hframes.
    eapply issues_bind.
    { apply (issues_read_block 0 (i / 4) (skipn (Z.to_nat i) data)).
      rewrite length_skipn. lia. }
    intros [ok rest] f1 [Hf1 [Hsent [Hok [Hlen Hskip]]]].
    cbn [fst snd] in Hsent, Hok, Hlen, Hskip.
    rewrite length_skipn in Hlen. rewrite skipn_skipn in Hskip.
    set (data1 := firstn (Z.to_nat i) data ++ rest).
    assert (Hfirst : length (firstn (Z.to_nat i) data) = Z.to_nat i)
      by (apply firstn_length_le; lia).
    assert (Hl1 : length data1 = length data).
    { subst data1. rewrite length_app, Hfirst, Hlen. lia. }
    assert (Hs1 : skipn 128 data1 = skipn 128 data).
    { subst data1. rewrite skipn_app, Hfirst.
      rewrite (skipn_all2 (firstn (Z.to_nat i) data)) by lia.
      cbn [app].
      replace (128 - Z.to_nat i)%nat
        with ((128 - Z.to_nat i - 32) + 32)%nat by lia.
      rewrite <- (skipn_skipn (128 - Z.to_nat i - 32) 32 rest), Hskip.
      rewrite skipn_skipn. f_equal. lia. }
    destruct (Z.eqb_spec ok 0) as [-> | Hne].
    { apply issues_ret. cbn [fst snd]. rewrite app_nil_r.
      split.
      - destruct Hf1 as [-> | ->].
        + exists 0%nat. split; [reflexivity | intros H; discriminate H].
        + exists 1%nat. split; [reflexivity | intros H; discriminate H].
      - split; [left; reflexivity | split; assumption]. }
    rewrite (Hsent Hne).
    eapply issues_weaken.
    { apply (IH fuel (i + 32) data1); lia. }
    intros r fs [[k [-> Hk]] [Hr [Hlen' Hskip']]].
    split.
    + exists (S k). split; [reflexivity | intros H; rewrite (Hk H); reflexivity].
    + split; [exact Hr | split; [lia | rewrite Hskip'; exact Hs1]].
Qed.

(** X12. [readConfiguration] fetches the 128 bytes of the configuration
    zone with four 32-byte block reads, at the word addresses 0, 8, 16 and
    24 and in this order, and stops at the first block that fails: the
    command frames it sends are an initial part of these four block reads,
    all four when it returns 1. It returns 0 or 1, and it writes to the
    first 128 bytes of the caller's buffer only. *)
Theorem readConfiguration_reads_four_blocks (data : list Z)
        (s : ECC508Class D) :
  (128 <= length data)%nat ->
  let r := readConfiguration data s in
  (exists k,
      commands (trace (snd r))
      = commands (trace s)
          ++ firstn k [read_frame 0x80 0; read_frame 0x80 8;
                       read_frame 0x80 16; read_frame 0x80 24]
      /\ (fst (fst r) = 1 -> k = 4%nat))
  /\ (fst (fst r) = 0 \/ fst (fst r) = 1)
  /\ length (snd (fst r)) = length data
  /\ skipn 128 (snd (fst r)) = skipn 128 data.
Proof.
  intros Hdata r.
  destruct (issues_readConfiguration_loop 4 5 0 data eq_refl
              ltac:(lia) ltac:(lia) Hdata s)
    as [_ [fs [Hc [[k [-> Hk]] [Hr [Hlen Hskip]]]]]].
  fold (readConfiguration data) in Hc, Hk, Hr, Hlen, Hskip.
  fold r in Hc, Hk, Hr, Hlen, Hskip.
  split; [exists k; split; [exact Hc | exact Hk]|].
  split; [exact Hr | split; [exact Hlen | exact Hskip]].
Qed.

End ReadConfiguration.

(** The simulated part hands back its configuration zone in four blocks;
    the byte behind the 128 is the caller's. *)
Lemma readConfiguration_reads_four_blocks_witness :
  readConfiguration (repeat 0 129) (Sim.ECC508 Sim.device)
  = ((1, Sim.config Sim.device ++ [0]),
     snd (readConfiguration (repeat 0 129) (Sim.ECC508 Sim.device)))
  /\ (exists k,
         commands (trace (snd (readConfiguration (repeat 0 129)
                                 (Sim.ECC508 Sim.device))))
         = commands (trace (Sim.ECC508 Sim.device))
             ++ firstn k [read_frame 0x80 0; read_frame 0x80 8;
                          read_frame 0x80 16; read_frame 0x80 24]
         /\ (fst (fst (readConfiguration (repeat 0 129)
                         (Sim.ECC508 Sim.device))) = 1 -> k = 4%nat))
  /\ skipn 128 (snd (fst (readConfiguration (repeat 0 129)
                            (Sim.ECC508 Sim.device))))
     = skipn 128 (repeat 0 129).
Proof.
  assert (Hdata : (128 <= length (repeat 0 129))%nat)
    by (rewrite repeat_length; lia).
  pose proof (readConfiguration_reads_four_blocks (repeat 0 129)
                (Sim.ECC508 Sim.device) Hdata) as H.
  cbv zeta in H. destruct H as [Hk [_ [_ Hskip]]].
  split; [vm_compute; reflexivity | split; [exact Hk | exact Hskip]].
Defined.

(** ** The serial number *)

Section ReadWords.

Context {D : Type} {W : TwoWire D}.

(** What a 4-byte read does to a buffer of any size, told by the same read
    into a buffer of exactly four bytes: same result, same state of the
    driver, the payload at the front and the rest of the buffer kept. *)
Lemma read_word_any_buffer (zone address : Z) (buffer : list Z)
      (s : ECC508Class D) :
  (4 <= length buffer)%nat ->
  let w := read zone address (repeat 0 4) 4 s in
  read zone address buffer 4 s
  = ((fst (fst w),
      if fst (fst w) =? 0 then buffer else snd (fst w) ++ skipn 4 buffer),
     snd w)
  /\ (fst (fst w) = 0
      \/ (fst (fst w) = 4 /\ length (snd (fst w)) = 4%nat
          /\ Forall is_byte (snd (fst w)))).
Proof.
  intros Hl w. subst w. unfold read, bind, ret.
  destruct (wakeup s) as [awake s1].
  destruct (awake =? 0); [split; [reflexivity | left; reflexivity]|].
  change (negb (4 =? 4) && negb (4 =? 32)) with false.
  change (4 =? 32) with false. cbv beta iota zeta.
  destruct (sendCommand 2 zone address [] s1) as [sent s2].
  destruct (sent =? 0); [split; [reflexivity | left; reflexivity]|].
  destruct (delay 1 s2) as [[] s3].
  change (Z.to_nat 4) with 4%nat.
  rewrite (receiveResponse_judges buffer 4 s3).
  rewrite (receiveResponse_judges (repeat 0 4) 4 s3). cbv zeta.
  destruct (poll_buffer 20 (4 + 3) s3) as [Hbytes Hlen].
  destruct (negb _); [split; [reflexivity | left; reflexivity]|].
  destruct (negb _); [split; [reflexivity | left; reflexivity]|].
  change (1 =? 0) with false. cbv beta iota zeta. cbn [fst snd].
  destruct (delay 1 (snd (poll 20 (4 + 3) s3))) as [[] s4].
  destruct (idle s4) as [i s5]. cbn [fst snd].
  change (4 =? 0) with false. cbv iota.
  change (skipn 4 (repeat 0 4)) with (@nil Z). rewrite app_nil_r.
  split; [reflexivity | right].
  split; [reflexivity | split].
  - apply firstn_length_le. rewrite length_skipn. lia.
  - rewrite <- (firstn_skipn 1 (fst (poll 20 (4 + 3) s3))) in Hbytes.
    apply Forall_app in Hbytes. destruct Hbytes as [_ Hbytes].
    rewrite <- (firstn_skipn 4 (skipn 1 (fst (poll 20 (4 + 3) s3)))) in Hbytes.
    apply Forall_app in Hbytes. exact (proj1 Hbytes).
Qed.

End ReadWords.

(** *** The digits of the serial number *)

Lemma string_append_assoc (a b c : String.string) :
  String.append (String.append a b) c = String.append a (String.append b c).
Proof.
  induction a as [|ch a IH]; cbn [String.append]; [reflexivity|].
  rewrite IH. reflexivity.
Qed.

Lemma string_append_length (a b : String.string) :
  String.length (String.append a b) = (String.length a + String.length b)%nat.
Proof.
  induction a as [|ch a IH]; cbn [String.append String.length Nat.add];
    [reflexivity|]. rewrite IH. reflexivity.
Qed.

Lemma hex_value_digit (d : Z) :
  0 <= d < 16 -> hex_value (hex_digit d) = Some d.
Proof.
  intros H.
  assert (Hd : d = 0 \/ d = 1 \/ d = 2 \/ d = 3 \/ d = 4 \/ d = 5 \/ d = 6
               \/ d = 7 \/ d = 8 \/ d = 9 \/ d = 10 \/ d = 11 \/ d = 12
               \/ d = 13 \/ d = 14 \/ d = 15) by lia.
  repeat (destruct Hd as [-> | Hd]; [reflexivity|]). subst d. reflexivity.
Qed.

(** A byte always gives two digits: the zero the loop puts in front of a
    small byte makes up for the one the rendering leaves out. *)
Lemma serial_digits_cons (b : Z) (rest : list Z) (result : String.string) :
  is_byte b ->
  serial_digits (b :: rest) result
  = serial_digits rest
      (String.append result
         (String.String (hex_digit (b / 16))
            (String.String (hex_digit (b mod 16)) String.EmptyString))).
Proof.
  intros [H0 H1]. cbn [serial_digits]. unfold String_HEX.
  destruct (Z.ltb_spec b 16) as [Hlt | Hge]; [|reflexivity].
  rewrite string_append_assoc. cbn [String.append].
  rewrite Z.div_small, Z.mod_small by lia. reflexivity.
Qed.

Lemma serial_digits_append (bytes : list Z) :
  Forall is_byte bytes ->
  forall result,
    serial_digits bytes result
    = String.append result (serial_digits bytes String.EmptyString).
Proof.
  induction 1 as [|b rest Hb Hrest IH]; intros result.
  - cbn [serial_digits]. induction result as [|ch result IHr];
      cbn [String.append]; [reflexivity | rewrite <- IHr; reflexivity].
  - rewrite !serial_digits_cons by exact Hb.
    rewrite (IH (String.append result _)), (IH (String.append String.EmptyString _)).
    rewrite string_append_assoc. reflexivity.
Qed.

Lemma serial_digits_step (b : Z) (rest : list Z) :
  is_byte b -> Forall is_byte rest ->
  serial_digits (b :: rest) String.EmptyString
  = String.String (hex_digit (b / 16))
      (String.String (hex_digit (b mod 16))
         (serial_digits rest String.EmptyString)).
Proof.
  intros Hb Hrest. rewrite serial_digits_cons by exact Hb.
  rewrite (serial_digits_append rest Hrest). reflexivity.
Qed.

Lemma serial_digits_length (bytes : list Z) :
  Forall is_byte bytes ->
  String.length (serial_digits bytes String.EmptyString)
  = (2 * length bytes)%nat.
Proof.
  induction 1 as [|b rest Hb Hrest IH]; [reflexivity|].
  rewrite serial_digits_step by assumption.
  cbn [String.length length]. rewrite IH. lia.
Qed.

Lemma serial_digits_decode (bytes : list Z) :
  Forall is_byte bytes ->
  hex_decode (serial_digits bytes String.EmptyString) = Some bytes.
Proof.
  induction 1 as [|b rest Hb Hrest IH]; [reflexivity|].
  rewrite serial_digits_step by assumption. cbn [hex_decode].
  destruct Hb as [H0 H1].
  assert (Hq : 0 <= b / 16 < 16)
    by (split; [apply Z.div_pos; lia | apply Z.div_lt_upper_bound; lia]).
  assert (Hm : 0 <= b mod 16 < 16) by (apply Z.mod_pos_bound; lia).
  rewrite (hex_value_digit _ Hq), (hex_value_digit _ Hm), IH.
  rewrite <- (Z.div_mod b 16) by lia. reflexivity.
Qed.

(** X14. The serial number loop writes every byte as exactly two
    hexadecimal digits in lower case, high digit first: with the base-16
    rendering of the Arduino core, which leaves out a leading zero, the
    zero the loop puts in front of a byte below 16 restores it. So [n]
    bytes give [2 n] characters, and reading the characters back as digit
    pairs gives the bytes again: no two byte strings share a text. *)
Theorem serial_digits_two_per_byte (bytes : list Z) :
  Forall is_byte bytes ->
  String.length (serial_digits bytes String.EmptyString)
  = (2 * length bytes)%nat
  /\ hex_decode (serial_digits bytes String.EmptyString) = Some bytes
  /\ (forall other,
         Forall is_byte other ->
         serial_digits other String.EmptyString
         = serial_digits bytes String.EmptyString ->
         other = bytes).
Proof.
  intros Hbytes.
  split; [apply serial_digits_length; exact Hbytes|].
  split; [apply serial_digits_decode; exact Hbytes|].
  intros other Hother Heq.
  pose proof (serial_digits_decode other Hother) as Ho.
  rewrite Heq, (serial_digits_decode bytes Hbytes) in Ho.
  injection Ho as Ho. symmetry. exact Ho.
Qed.

(** The bytes [01 23 ee] read [0123ee]. *)
Lemma serial_digits_two_per_byte_witness :
  serial_digits [0x01; 0x23; 0xee] String.EmptyString
  = String.String (Ascii.ascii_of_nat 48) (String.String (Ascii.ascii_of_nat 49)
      (String.String (Ascii.ascii_of_nat 50) (String.String (Ascii.ascii_of_nat 51)
        (String.String (Ascii.ascii_of_nat 101) (String.String (Ascii.ascii_of_nat 101)
          String.EmptyString)))))
  /\ String.length (serial_digits [0x01; 0x23; 0xee] String.EmptyString) = 6%nat
  /\ hex_decode (serial_digits [0x01; 0x23; 0xee] String.EmptyString)
     = Some [0x01; 0x23; 0xee].
Proof.
  assert (Hb : Forall is_byte [0x01; 0x23; 0xee]).
  { repeat constructor; unfold is_byte; lia. }
  pose proof (serial_digits_two_per_byte [0x01; 0x23; 0xee] Hb) as [Hl [Hd _]].
  split; [reflexivity | split; [exact Hl | exact Hd]].
Defined.

(** *** Reading the serial number *)

Section SerialNumberReads.

Context {D : Type} {W : TwoWire D}.

Lemma issues_read_word (zone address : Z) (buffer : list Z) :
  issues (D := D) (read zone address buffer 4)
    (fun r fs =>
       (fs = [] \/ fs = [read_frame zone address])
       /\ (fst r <> 0 -> fs = [read_frame zone address])).
Proof.
  unfold read, read_frame.
  eapply issues_bind; [apply issues_wakeup|]. intros awake f0 [-> _].
  destruct (awake =? 0).
  { apply issues_ret. cbn [fst snd app].
    split; [left; reflexivity | intros H; exfalso; apply H; reflexivity]. }
  change (negb (4 =? 4) && negb (4 =? 32)) with false. cbv iota.
  change (4 =? 32) with false. cbv iota.
  eapply issues_bind; [apply issues_sendCommand|]. intros sent f1 [-> _].
  destruct (sent =? 0).
  { apply issues_ret. cbn [fst snd app]. split; auto. }
  eapply issues_bind; [apply issues_delay|]. intros [] f2 ->.
  eapply issues_bind; [apply issues_receiveResponse|].
  intros [ok out] f3 ->.
  destruct (ok =? 0).
  { apply issues_ret. cbn [fst snd app]. split; auto. }
  eapply issues_bind; [apply issues_delay|]. intros [] f4 ->.
  eapply issues_bind; [apply issues_idle|]. intros i f5 ->.
  apply issues_ret. cbn [fst snd app]. split; auto.
Qed.

Lemma issues_serialNumber :
  issues (D := D) serialNumber
    (fun r fs =>
       exists k,
         fs = firstn k [read_frame 0 0; read_frame 0 2; read_frame 0 3]
         /\ (r <> None -> k = 3%nat)).
Proof.
  unfold serialNumber.
  eapply issues_bind; [apply issues_read_word|]. intros r0 f0 [Hf0 Hs0].
  destruct (Z.eqb_spec (fst r0) 0) as [E0 | E0].
  { apply issues_ret. rewrite app_nil_r. destruct Hf0 as [-> | ->].
    - exists 0%nat. split; [reflexivity | intros H; exfalso; apply H; reflexivity].
    - exists 1%nat. split; [reflexivity | intros H; exfalso; apply H; reflexivity]. }
  rewrite (Hs0 E0).
  eapply issues_bind; [apply issues_read_word|]. intros r1 f1 [Hf1 Hs1].
  destruct (Z.eqb_spec (fst r1) 0) as [E1 | E1].
  { apply issues_ret. rewrite app_nil_r. destruct Hf1 as [-> | ->].
    - exists 1%nat. split; [reflexivity | intros H; exfalso; apply H; reflexivity].
    - exists 2%nat. split; [reflexivity | intros H; exfalso; apply H; reflexivity]. }
  rewrite (Hs1 E1).
  eapply issues_bind; [apply issues_read_word|]. intros r2 f2 [Hf2 Hs2].
  destruct (Z.eqb_spec (fst r2) 0) as [E2 | E2].
  { apply issues_ret. rewrite app_nil_r. destruct Hf2 as [-> | ->].
    - exists 2%nat. split; [reflexivity | intros H; exfalso; apply H; reflexivity].
    - exists 3%nat. split; [reflexivity | intros H; exfalso; apply H; reflexivity]. }
  rewrite (Hs2 E2). apply issues_ret. exists 3%nat. split; reflexivity.
Qed.

(** X13. [serialNumber] reads the words 0, 2 and 3 of the configuration
    zone, in this order and each only when the one before was read: a
    failed read ends it with the null string and the driver where that
    read left it. When all three succeed the text is the digits of the
    eight bytes of the words 0 and 2, sixteen characters that read back as
    these bytes; the word 3 is read, but no byte of it enters the text.
    The command frames sent are an initial part of the three word reads,
    all three whenever a text is returned. *)
Theorem serialNumber_reads_three_words (s : ECC508Class D) :
  let w0 := read 0 0 (repeat 0 4) 4 s in
  let w2 := read 0 2 (repeat 0 4) 4 (snd w0) in
  let w3 := read 0 3 (repeat 0 4) 4 (snd w2) in
  let text := serial_digits (snd (fst w0) ++ snd (fst w2)) String.EmptyString in
  let r := serialNumber s in
  (fst (fst w0) = 0 -> r = (None, snd w0))
  /\ (fst (fst w0) <> 0 -> fst (fst w2) = 0 -> r = (None, snd w2))
  /\ (fst (fst w0) <> 0 -> fst (fst w2) <> 0 -> fst (fst w3) = 0 ->
      r = (None, snd w3))
  /\ (fst (fst w0) <> 0 -> fst (fst w2) <> 0 -> fst (fst w3) <> 0 ->
      r = (Some text, snd w3)
      /\ String.length text = 16%nat
      /\ hex_decode text = Some (snd (fst w0) ++ snd (fst w2)))
  /\ (exists k,
         commands (trace (snd r))
         = commands (trace s)
             ++ firstn k [read_frame 0 0; read_frame 0 2; read_frame 0 3]
         /\ (fst r <> None -> k = 3%nat)).
Proof.
  intros w0 w2 w3 text r.
  assert (Hsent : exists k,
             commands (trace (snd r))
             = commands (trace s)
                 ++ firstn k [read_frame 0 0; read_frame 0 2; read_frame 0 3]
             /\ (fst r <> None -> k = 3%nat)).
  { destruct (issues_serialNumber s) as [_ [fs [Hc [k [-> Hk]]]]].
    exists k. split; [exact Hc | exact Hk]. }
  destruct (read_word_any_buffer 0 0 (repeat 0 12) s
              ltac:(rewrite repeat_length; lia)) as [R0 S0].
  fold w0 in R0, S0.
  assert (Hr : r = serialNumber s) by reflexivity.
  unfold serialNumber, bind in Hr.
  change (skipn 0 (repeat 0 12)) with (repeat 0 12) in Hr.
  rewrite R0 in Hr. cbn [fst snd] in Hr.
  destruct S0 as [E0 | [E0 [L0 B0]]]; rewrite E0 in Hr; cbn [Z.eqb] in Hr.
  { unfold ret in Hr.
    split; [intros _; exact Hr|].
    split; [intros H; elim H; exact E0|].
    split; [intros H; elim H; exact E0|].
    split; [intros H; elim H; exact E0 | exact Hsent]. }
  change (firstn 0 (repeat 0 12)) with (@nil Z) in Hr. cbn [app] in Hr.
  change (skipn 4 (repeat 0 12)) with (repeat 0 8) in Hr.
  assert (K0 : skipn 4 (snd (fst w0) ++ repeat 0 8) = repeat 0 8).
  { rewrite skipn_app, L0, Nat.sub_diag, skipn_all2 by lia. reflexivity. }
  assert (F0 : firstn 4 (snd (fst w0) ++ repeat 0 8) = snd (fst w0)).
  { rewrite firstn_app, L0, Nat.sub_diag, firstn_all2 by lia.
    cbn [firstn]. apply app_nil_r. }
  rewrite K0, F0 in Hr.
  destruct (read_word_any_buffer 0 2 (repeat 0 8) (snd w0)
              ltac:(rewrite repeat_length; lia)) as [R2 S2].
  fold w2 in R2, S2.
  rewrite R2 in Hr. cbn [fst snd] in Hr.
  destruct S2 as [E2 | [E2 [L2 B2]]]; rewrite E2 in Hr; cbn [Z.eqb] in Hr.
  { unfold ret in Hr.
    split; [intros H; rewrite E0 in H; discriminate H|].
    split; [intros _ _; exact Hr|].
    split; [intros _ H; elim H; exact E2|].
    split; [intros _ H; elim H; exact E2 | exact Hsent]. }
  change (skipn 4 (repeat 0 8)) with (repeat 0 4) in Hr.
  assert (K2 : skipn 8 (snd (fst w0) ++ snd (fst w2) ++ repeat 0 4) = repeat 0 4).
  { rewrite app_assoc, skipn_app, length_app, L0, L2.
    rewrite skipn_all2 by (rewrite length_app; lia). reflexivity. }
  assert (F2 : firstn 8 (snd (fst w0) ++ snd (fst w2) ++ repeat 0 4)
               = snd (fst w0) ++ snd (fst w2)).
  { rewrite app_assoc, firstn_app, length_app, L0, L2.
    rewrite firstn_all2 by (rewrite length_app; lia).
    cbn [Nat.add Nat.sub firstn]. apply app_nil_r. }
  rewrite K2, F2 in Hr.
  fold w3 in Hr. cbn [fst snd] in Hr.
  pose proof (proj2 (read_word_any_buffer 0 3 (repeat 0 4) (snd w2)
                       ltac:(rewrite repeat_length; lia))) as S3.
  cbv zeta in S3. fold w3 in S3.
  assert (Hr3 : r = (if fst (fst w3) =? 0 then None
                     else Some (serial_digits
                                  (firstn 8 ((snd (fst w0) ++ snd (fst w2))
                                               ++ snd (fst w3)))
                                  String.EmptyString),
                     snd w3)).
  { rewrite Hr. destruct w3 as [a3 s3]. cbn [fst snd].
    destruct (fst a3 =? 0); reflexivity. }
  clear Hr.
  destruct S3 as [E3 | [E3 [L3 B3]]]; rewrite E3 in Hr3; cbn [Z.eqb] in Hr3.
  { split; [intros H; rewrite E0 in H; discriminate H|].
    split; [intros _ H; rewrite E2 in H; discriminate H|].
    split; [intros _ _ _; exact Hr3|].
    split; [intros _ _ H; elim H; exact E3 | exact Hsent]. }
  assert (F3 : firstn 8 ((snd (fst w0) ++ snd (fst w2)) ++ snd (fst w3))
               = snd (fst w0) ++ snd (fst w2)).
  { rewrite firstn_app, length_app, L0, L2.
    rewrite firstn_all2 by (rewrite length_app; lia).
    cbn [Nat.add Nat.sub firstn]. apply app_nil_r. }
  rewrite F3 in Hr3. fold text in Hr3.
  assert (Hbytes : Forall is_byte (snd (fst w0) ++ snd (fst w2)))
    by (apply Forall_app; split; assumption).
  assert (Hlen : String.length text = 16%nat).
  { subst text. rewrite (serial_digits_length _ Hbytes), length_app, L0, L2.
    reflexivity. }
  pose proof (serial_digits_decode _ Hbytes) as Hdec. fold text in Hdec.
  split; [intros H; rewrite E0 in H; discriminate H|].
  split; [intros _ H; rewrite E2 in H; discriminate H|].
  split; [intros _ _ H; rewrite E3 in H; discriminate H|].
  split; [intros _ _ _; split; [exact Hr3 | split; [exact Hlen | exact Hdec]]
         | exact Hsent].
Qed.

End SerialNumberReads.

(** ** What the checksum detects *)

(** The step's lowest bit tells whether the data bit and the top bit
    differed. *)
Lemma crc_spec_step_odd (acc : Z) (bit : bool) :
  Z.odd (crc_spec_step acc bit) = xorb bit (Z.testbit acc 15).
Proof.
  unfold crc_spec_step.
  assert (Heven : Z.odd ((2 * acc) mod 2 ^ 16) = false).
  { change (2 ^ 16) with (2 * 2 ^ 15).
    rewrite Z.mul_mod_distr_l by lia. rewrite Z.odd_mul. reflexivity. }
  destruct (xorb bit (Z.testbit acc 15)); [|exact Heven].
  rewrite <- Z.bit0_odd, Z.lxor_spec, Z.bit0_odd, Heven. reflexivity.
Qed.

(** For a given data bit the step loses nothing of the accumulator. *)
Lemma crc_spec_step_injective (acc1 acc2 : Z) (bit : bool) :
  0 <= acc1 < 65536 -> 0 <= acc2 < 65536 ->
  crc_spec_step acc1 bit = crc_spec_step acc2 bit -> acc1 = acc2.
Proof.
  intros H1 H2 Heq.
  assert (Htop : Z.testbit acc1 15 = Z.testbit acc2 15).
  { pose proof (f_equal Z.odd Heq) as Ho. rewrite !crc_spec_step_odd in Ho.
    destruct bit, (Z.testbit acc1 15), (Z.testbit acc2 15);
      first [reflexivity | discriminate Ho]. }
  assert (Hlow : (2 * acc1) mod 2 ^ 16 = (2 * acc2) mod 2 ^ 16).
  { unfold crc_spec_step in Heq. rewrite Htop in Heq.
    destruct (xorb bit (Z.testbit acc2 15)); [|exact Heq].
    pose proof (f_equal (fun z => Z.lxor z 0x8005) Heq) as Hx. cbv beta in Hx.
    rewrite !Z.lxor_assoc, Z.lxor_nilpotent, !Z.lxor_0_r in Hx. exact Hx. }
  change (2 ^ 16) with (2 * 2 ^ 15) in Hlow.
  rewrite !Z.mul_mod_distr_l in Hlow by lia.
  pose proof (f_equal Z.b2z Htop) as Hb.
  rewrite !Z.testbit_spec' in Hb by lia.
  assert (Q1 : 0 <= acc1 / 2 ^ 15 < 2)
    by (split; [apply Z.div_pos; lia | apply Z.div_lt_upper_bound; lia]).
  assert (Q2 : 0 <= acc2 / 2 ^ 15 < 2)
    by (split; [apply Z.div_pos; lia | apply Z.div_lt_upper_bound; lia]).
  rewrite !Z.mod_small in Hb by assumption.
  rewrite (Z.div_mod acc1 (2 ^ 15)), (Z.div_mod acc2 (2 ^ 15)) by lia.
  rewrite Hb. lia.
Qed.

(** For a given accumulator the step tells the two data bits apart. *)
Lemma crc_spec_step_bit (acc : Z) (bit1 bit2 : bool) :
  crc_spec_step acc bit1 = crc_spec_step acc bit2 -> bit1 = bit2.
Proof.
  intros Heq. pose proof (f_equal Z.odd Heq) as Ho.
  rewrite !crc_spec_step_odd in Ho.
  destruct bit1, bit2, (Z.testbit acc 15);
    first [reflexivity | discriminate Ho].
Qed.

Lemma crc_bits_range (bits : list bool) (acc : Z) :
  0 <= acc < 65536 -> 0 <= fold_left crc_spec_step bits acc < 65536.
Proof.
  revert acc. induction bits as [|bit bits IH]; intros acc H; [exact H|].
  cbn [fold_left]. apply IH. apply crc_spec_step_range. exact H.
Qed.

Lemma crc_bits_injective (bits : list bool) (acc1 acc2 : Z) :
  0 <= acc1 < 65536 -> 0 <= acc2 < 65536 ->
  fold_left crc_spec_step bits acc1 = fold_left crc_spec_step bits acc2 ->
  acc1 = acc2.
Proof.
  revert acc1 acc2. induction bits as [|bit bits IH]; intros acc1 acc2 H1 H2 Heq;
    [exact Heq|].
  cbn [fold_left] in Heq.
  apply IH in Heq; try (apply crc_spec_step_range; assumption).
  apply (crc_spec_step_injective acc1 acc2 bit H1 H2 Heq).
Qed.

(** Two bit streams that differ in one bit never end in the same
    accumulator. *)
Lemma crc_bits_flip (before : list bool) (bit : bool) (after : list bool)
      (acc : Z) :
  0 <= acc < 65536 ->
  fold_left crc_spec_step (before ++ negb bit :: after) acc
  <> fold_left crc_spec_step (before ++ bit :: after) acc.
Proof.
  intros H Heq. rewrite !fold_left_app in Heq. cbn [fold_left] in Heq.
  pose proof (crc_bits_range before acc H) as Hb.
  apply crc_bits_injective in Heq; try (apply crc_spec_step_range; exact Hb).
  apply crc_spec_step_bit in Heq. destruct bit; discriminate Heq.
Qed.

Lemma crc_spec_byte_bits (acc b : Z) :
  crc_spec_byte acc b
  = fold_left crc_spec_step (map (Z.testbit b) [0; 1; 2; 3; 4; 5; 6; 7]) acc.
Proof. reflexivity. Qed.

Lemma crc_spec_byte_injective (acc1 acc2 b : Z) :
  0 <= acc1 < 65536 -> 0 <= acc2 < 65536 ->
  crc_spec_byte acc1 b = crc_spec_byte acc2 b -> acc1 = acc2.
Proof. rewrite !crc_spec_byte_bits. apply crc_bits_injective. Qed.

Lemma flip_bit_testbit (b i k : Z) :
  0 <= i ->
  Z.testbit (flip_bit b i) k = xorb (Z.testbit b k) (i =? k).
Proof.
  intros Hi. unfold flip_bit. rewrite Z.lxor_spec, Z.pow2_bits_eqb by exact Hi.
  reflexivity.
Qed.

Lemma flip_bit_changes (b i : Z) : 0 <= i -> flip_bit b i <> b.
Proof.
  intros Hi Heq. pose proof (f_equal (fun z => Z.testbit z i) Heq) as Hb.
  cbv beta in Hb. rewrite flip_bit_testbit, Z.eqb_refl in Hb by exact Hi.
  destruct (Z.testbit b i); discriminate Hb.
Qed.

Lemma crc_spec_byte_flip (acc b i : Z) :
  0 <= acc < 65536 -> 0 <= i < 8 ->
  crc_spec_byte acc (flip_bit b i) <> crc_spec_byte acc b.
Proof.
  intros Hacc Hi. rewrite !crc_spec_byte_bits. cbn [map].
  rewrite !flip_bit_testbit by lia.
  assert (Hcases : i = 0 \/ i = 1 \/ i = 2 \/ i = 3 \/ i = 4 \/ i = 5
                   \/ i = 6 \/ i = 7) by lia.
  destruct Hcases as [-> | [-> | [-> | [-> | [-> | [-> | [-> | ->]]]]]]];
    cbn [Z.eqb Pos.eqb]; rewrite ?xorb_false_r, ?xorb_true_r.
  - apply (crc_bits_flip [] (Z.testbit b 0)). exact Hacc.
  - apply (crc_bits_flip [Z.testbit b 0] (Z.testbit b 1)). exact Hacc.
  - apply (crc_bits_flip [Z.testbit b 0; Z.testbit b 1] (Z.testbit b 2)).
    exact Hacc.
  - apply (crc_bits_flip [Z.testbit b 0; Z.testbit b 1; Z.testbit b 2]
             (Z.testbit b 3)). exact Hacc.
  - apply (crc_bits_flip [Z.testbit b 0; Z.testbit b 1; Z.testbit b 2;
                          Z.testbit b 3] (Z.testbit b 4)). exact Hacc.
  - apply (crc_bits_flip [Z.testbit b 0; Z.testbit b 1; Z.testbit b 2;
                          Z.testbit b 3; Z.testbit b 4] (Z.testbit b 5)).
    exact Hacc.
  - apply (crc_bits_flip [Z.testbit b 0; Z.testbit b 1; Z.testbit b 2;
                          Z.testbit b 3; Z.testbit b 4; Z.testbit b 5]
             (Z.testbit b 6)). exact Hacc.
  - apply (crc_bits_flip [Z.testbit b 0; Z.testbit b 1; Z.testbit b 2;
                          Z.testbit b 3; Z.testbit b 4; Z.testbit b 5;
                          Z.testbit b 6] (Z.testbit b 7)). exact Hacc.
Qed.

Lemma crc_bytes_injective (bytes : list Z) (acc1 acc2 : Z) :
  0 <= acc1 < 65536 -> 0 <= acc2 < 65536 ->
  fold_left crc_spec_byte bytes acc1 = fold_left crc_spec_byte bytes acc2 ->
  acc1 = acc2.
Proof.
  revert acc1 acc2. induction bytes as [|b bytes IH]; intros acc1 acc2 H1 H2 Heq;
    [exact Heq|].
  cbn [fold_left] in Heq.
  apply IH in Heq; try (apply crc_spec_byte_range; assumption).
  apply (crc_spec_byte_injective acc1 acc2 b H1 H2 Heq).
Qed.

Lemma nth_split_at (j : nat) (l : list Z) :
  (j < length l)%nat -> l = firstn j l ++ nth j l 0 :: skipn (S j) l.
Proof.
  revert l. induction j as [|j IH]; intros [|x l] H; cbn [length] in H;
    try lia; [reflexivity|].
  cbn [firstn nth skipn app]. f_equal. apply IH. lia.
Qed.

Lemma flip_at_length (j : nat) (i : Z) (l : list Z) :
  (j < length l)%nat -> length (flip_at j i l) = length l.
Proof.
  intros H. rewrite (nth_split_at j l H) at 2. unfold flip_at.
  rewrite !length_app. reflexivity.
Qed.

Lemma crc_spec_flip (bytes : list Z) (j : nat) (i : Z) :
  (j < length bytes)%nat -> 0 <= i < 8 ->
  crc_spec (flip_at j i bytes) <> crc_spec bytes.
Proof.
  intros Hj Hi Heq. unfold crc_spec in Heq.
  rewrite (nth_split_at j bytes Hj) in Heq at 2. unfold flip_at in Heq.
  rewrite !fold_left_app in Heq. cbn [fold_left] in Heq.
  assert (Hacc : 0 <= fold_left crc_spec_byte (firstn j bytes) 0 < 65536)
    by (apply crc_spec_fold_range; lia).
  apply crc_bytes_injective in Heq;
    try (apply crc_spec_byte_range; exact Hacc).
  exact (crc_spec_byte_flip _ _ _ Hacc Hi Heq).
Qed.

(** X15. The checksum detects every single-bit error: flipping any one bit
    of any one byte of a message changes its checksum. Behind this is that
    a pass of the loop loses nothing of the accumulator, so that two
    messages whose checksums differ keep different checksums when the same
    bytes are appended to both. *)
Theorem crc16_detects_single_bit_flip (bytes : list Z) (j : nat) (i : Z) :
  (j < length bytes)%nat -> 0 <= i < 8 ->
  crc16 (Some (flip_at j i bytes)) (length bytes)
  <> crc16 (Some bytes) (length bytes)
  /\ (forall other tail,
         crc16 (Some other) (length other) <> crc16 (Some bytes) (length bytes) ->
         crc16 (Some (other ++ tail)) (length (other ++ tail))
         <> crc16 (Some (bytes ++ tail)) (length (bytes ++ tail))).
Proof.
  intros Hj Hi. split.
  - rewrite <- (flip_at_length j i bytes Hj) at 1.
    rewrite !crc16_length. apply crc_spec_flip; assumption.
  - intros other tail Hne Heq. apply Hne.
    rewrite !crc16_length in *. unfold crc_spec in *.
    rewrite !fold_left_app in Heq.
    apply crc_bytes_injective in Heq;
      [exact Heq | apply crc_spec_fold_range; lia
      | apply crc_spec_fold_range; lia].
Qed.

(** Bit 6 of the second byte. *)
Lemma crc16_detects_single_bit_flip_witness :
  flip_at 1 6 [0x07; 0x11; 0x22] = [0x07; 0x51; 0x22]
  /\ crc16 (Some [0x07; 0x51; 0x22]) 3 <> crc16 (Some [0x07; 0x11; 0x22]) 3.
Proof.
  split; [reflexivity|].
  apply (proj1 (crc16_detects_single_bit_flip [0x07; 0x11; 0x22] 1 6
                  ltac:(cbn; lia) ltac:(lia))).
Defined.

(** *** A corrupted response *)

Lemma flip_at_head (i x : Z) (l : list Z) :
  flip_at 0 i (x :: l) = flip_bit x i :: l.
Proof. reflexivity. Qed.

Lemma flip_at_tail (j : nat) (i x : Z) (l : list Z) :
  flip_at (S j) i (x :: l) = x :: flip_at j i l.
Proof. reflexivity. Qed.

Lemma nth_flip_at_same (j : nat) (i : Z) (l : list Z) :
  (j < length l)%nat -> nth j (flip_at j i l) 0 = flip_bit (nth j l 0) i.
Proof.
  revert l. induction j as [|j IH]; intros [|x l] H; cbn [length] in H;
    try lia; [reflexivity|].
  rewrite flip_at_tail. cbn [nth]. apply IH. lia.
Qed.

Lemma nth_flip_at_other (k j : nat) (i : Z) (l : list Z) :
  k <> j -> (j < length l)%nat -> nth k (flip_at j i l) 0 = nth k l 0.
Proof.
  revert k l. induction j as [|j IH]; intros k [|x l] Hk H; cbn [length] in H;
    try lia.
  - rewrite flip_at_head. destruct k as [|k]; [lia | reflexivity].
  - rewrite flip_at_tail. destruct k as [|k]; [reflexivity|].
    cbn [nth]. apply IH; lia.
Qed.

Lemma firstn_flip_at_before (k j : nat) (i : Z) (l : list Z) :
  (k <= j)%nat -> (j < length l)%nat -> firstn k (flip_at j i l) = firstn k l.
Proof.
  revert k l. induction j as [|j IH]; intros k [|x l] Hk H; cbn [length] in H;
    try lia.
  - assert (k = 0%nat) as -> by lia. reflexivity.
  - rewrite flip_at_tail. destruct k as [|k]; [reflexivity|].
    cbn [firstn]. f_equal. apply IH; lia.
Qed.

Lemma firstn_flip_at_after (k j : nat) (i : Z) (l : list Z) :
  (j < k)%nat -> (j < length l)%nat ->
  firstn k (flip_at j i l) = flip_at j i (firstn k l).
Proof.
  revert k l. induction j as [|j IH]; intros k [|x l] Hk H; cbn [length] in H;
    try lia; (destruct k as [|k]; [lia|]).
  - reflexivity.
  - rewrite flip_at_tail. cbn [firstn]. rewrite flip_at_tail. f_equal.
    apply IH; lia.
Qed.

Section CorruptedResponse.

Context {D : Type} {W : TwoWire D}.

(** X16. No response frame with one bit in error is accepted: when the
    buffer polled is a well-formed frame with any one bit of any one of its
    bytes flipped (the length byte, a payload byte or a checksum byte),
    [receiveResponse] returns 0 and leaves the caller's buffer as it
    was. *)
Theorem receiveResponse_rejects_single_bit_error (response payload : list Z)
        (j : nat) (i : Z) (s : ECC508Class D) :
  (j < length payload + 3)%nat -> 0 <= i < 8 ->
  fst (poll 20 (length payload + 3) s) = flip_at j i (response_frame payload) ->
  fst (receiveResponse response (length payload) s) = (0, response).
Proof.
  intros Hj Hi Hpoll.
  rewrite receiveResponse_judges. cbv zeta. rewrite Hpoll. cbn [fst].
  pose proof (response_frame_parts payload) as [P0 [Pbody [_ Pcrc]]].
  cbv zeta in Pbody, Pcrc.
  pose proof (response_frame_length payload) as Plen.
  set (n := length payload) in *.
  set (frame := response_frame payload) in *.
  assert (Hj' : (j < length frame)%nat) by lia.
  destruct (negb (nth 0 (flip_at j i frame) 0 =? Z.of_nat (n + 3))) eqn:Elen;
    [reflexivity|].
  assert (Hj0 : j <> 0%nat).
  { intros ->. rewrite nth_flip_at_same, P0 in Elen by lia.
    apply negb_false_iff, Z.eqb_eq in Elen.
    apply (flip_bit_changes (Z.of_nat (n + 3)) i); [lia | exact Elen]. }
  assert (Hcrc : nth (n + 1) (flip_at j i frame) 0
                 + 256 * nth (n + 2) (flip_at j i frame) 0
                 <> crc16 (Some (firstn (n + 1) (flip_at j i frame))) (n + 1)).
  { destruct (Nat.lt_ge_cases j (n + 1)) as [Hbody | Htrail].
    - (* a bit of the length byte or of the payload *)
      rewrite !nth_flip_at_other by lia. rewrite Pcrc.
      rewrite firstn_flip_at_after by lia.
      assert (Hl : length (firstn (n + 1) frame) = (n + 1)%nat)
        by (apply firstn_length_le; lia).
      rewrite <- Hl at 2 4.
      rewrite <- (flip_at_length j i (firstn (n + 1) frame)) at 2 by lia.
      rewrite !crc16_length. intros Heq. symmetry in Heq. revert Heq.
      apply crc_spec_flip; [lia | exact Hi].
    - (* a bit of the checksum *)
      rewrite firstn_flip_at_before by lia. rewrite <- Pcrc.
      destruct (Nat.eq_dec j (n + 1)) as [-> | Hne].
      + rewrite nth_flip_at_same by lia.
        rewrite (nth_flip_at_other (n + 2)) by lia.
        pose proof (flip_bit_changes (nth (n + 1) frame 0) i ltac:(lia)). lia.
      + assert (j = (n + 2)%nat) as -> by lia.
        rewrite nth_flip_at_same by lia.
        rewrite (nth_flip_at_other (n + 1)) by lia.
        pose proof (flip_bit_changes (nth (n + 2) frame 0) i ltac:(lia)). lia. }
  apply Z.eqb_neq in Hcrc. rewrite Hcrc. reflexivity.
Qed.

End CorruptedResponse.

(** The line of [Sim.bad_checksum] flips bit 0 of the last byte. *)
Lemma receiveResponse_rejects_single_bit_error_witness :
  fst (poll 20 4 (Sim.ECC508 (Sim.arm [0x11] Sim.bad_checksum)))
  = flip_at 3 0 (response_frame [0x11])
  /\ fst (receiveResponse [0] 1 (Sim.ECC508 (Sim.arm [0x11] Sim.bad_checksum)))
     = (0, [0]).
Proof.
  assert (Hpoll : fst (poll 20 (length [0x11] + 3)
                         (Sim.ECC508 (Sim.arm [0x11] Sim.bad_checksum)))
                  = flip_at 3 0 (response_frame [0x11]))
    by (vm_compute; reflexivity).
  split; [exact Hpoll|].
  apply (receiveResponse_rejects_single_bit_error [0] [0x11] 3 0
           (Sim.ECC508 (Sim.arm [0x11] Sim.bad_checksum))
           ltac:(cbn; lia) ltac:(lia) Hpoll).
Defined.

(** ** Commands and responses share one framing *)

Section SharedFraming.

Context {D : Type} {W : TwoWire D}.

(** X17. Behind its word address byte 0x03, the frame [sendCommand]
    assembles is framed as [receiveResponse] expects a response to be: a
    count byte that counts itself, the packet and the two checksum bytes,
    and the checksum of count and packet, low byte first. So a command
    frame read back from the bus passes the checks of [receiveResponse],
    which hands over opcode, parameters and data. This holds up to 248
    bytes of data, as long as the count fits its byte. *)
Theorem command_frame_shares_response_framing (opcode param1 param2 : Z)
        (data : list Z) :
  (length data + 7 < 256)%nat ->
  let packet := uint8 opcode :: uint8 param1 :: le16 (uint16 param2) ++ data in
  command_frame opcode param1 param2 data = 0x03 :: response_frame packet
  /\ (forall (response : list Z) (s : ECC508Class D),
         fst (poll 20 (length packet + 3) s)
         = tl (command_frame opcode param1 param2 data) ->
         fst (receiveResponse response (length packet) s)
         = (1, packet ++ skipn (length packet) response)).
Proof.
  intros Hlen packet.
  assert (Hframe : command_frame opcode param1 param2 data
                   = 0x03 :: response_frame packet).
  { rewrite command_frame_layout. unfold response_frame, command_body.
    fold packet.
    assert (Hcount : uint8 (Z.of_nat (8 + length data) - 1)
                     = Z.of_nat (length packet + 3)).
    { subst packet. unfold le16. cbn [length app].
      rewrite uint8_small by lia. lia. }
    rewrite Hcount. reflexivity. }
  split; [exact Hframe|].
  intros response s Hpoll. rewrite Hframe in Hpoll. cbn [tl] in Hpoll.
  rewrite receiveResponse_judges. cbv zeta. rewrite Hpoll. cbn [fst].
  pose proof (response_frame_parts packet) as [P0 [_ [Ppl Pcrc]]].
  cbv zeta in Ppl, Pcrc. rewrite Ppl.
  apply Z.eqb_eq in P0, Pcrc. rewrite P0, Pcrc. reflexivity.
Qed.

End SharedFraming.

(** The frame of the random command, as a response of four bytes. *)
Lemma command_frame_shares_response_framing_witness :
  command_frame 0x1b 0x00 0x0000 []
  = 0x03 :: response_frame [0x1b; 0x00; 0x00; 0x00].
Proof.
  apply (proj1 (command_frame_shares_response_framing (D := unit)
                  0x1b 0x00 0x0000 [] ltac:(cbn; lia))).
Defined.

(** ** The revision of the device *)

Section Revision.

Context {D : Type} {W : TwoWire D}.



End Revision.
